(** * Pico Fabric serial programmer: frame codec, transport session,
      programming engine and device discovery

    A shallow embedding of [programmer/fabricSerialProgrammer/program.py].
    Python integers are [Z], [bytes] objects and lists of integers are
    [list Z], [None] is [option], and an exception that leaves a function is
    the [Raise] case of [res].  Mutable objects (the serial port, the
    transport session, the discovery service) are threaded explicitly. *)

From Stdlib Require Import ZArith Lia.
From Stdlib Require Import Ascii String.
From stdpp Require Import base list strings gmap.

Open Scope Z_scope.

(** ** Python values and exceptions *)

Inductive exn : Type :=
  | AssertionError
  | IndexError
  | ValueError
  | AttributeError
  | SerialException
  | Exception_MaxPacketSize                 (* Exception("Max packet size") *)
  | Exception_CrcFail (got expected : Z)    (* Exception("Crc fail, got %d, expected %d") *)
  | Exception_NoResponse                    (* Exception("No response") *)
  | Exception_DeviceFailed (code : Z).      (* Exception("Device failed to program with code: %s") *)

Inductive res (A : Type) : Type :=
  | Return (a : A)
  | Raise (e : exn).
Arguments Return {A} a.
Arguments Raise {A} e.

Definition res_bind {A B} (r : res A) (k : A -> res B) : res B :=
  match r with
  | Return a => k a
  | Raise e => Raise e
  end.

(** Stateful, fallible code: the state reached is kept when an exception is
    raised, as the writes done before a Python [raise] are. *)
Definition M (S A : Type) : Type := S -> S * res A.

Definition ret {S A} (a : A) : M S A := fun s => (s, Return a).
Definition raise {S A} (e : exn) : M S A := fun s => (s, Raise e).
Definition bind {S A B} (m : M S A) (k : A -> M S B) : M S B :=
  fun s => match m s with
           | (s', Return a) => k a s'
           | (s', Raise e) => (s', Raise e)
           end.
Definition lift {S A} (r : res A) : M S A := fun s => (s, r).
Definition get {S} : M S S := fun s => (s, Return s).
Definition modify {S} (f : S -> S) : M S unit := fun s => (f s, Return tt).

Declare Scope py_scope.
Delimit Scope py_scope with py.
Notation "x <~ m ; k" := (bind m (fun x => k))
  (at level 20, m at level 100, k at level 200, only parsing) : py_scope.
Notation "m ;; k" := (bind m (fun _ => k))
  (at level 100, k at level 200, right associativity, only parsing) : py_scope.
Open Scope py_scope.

(** [len(l)] as a Python integer. *)
Definition len {A} (l : list A) : Z := Z.of_nat (length l).

(** [l[i]]: negative indices count from the end, anything else out of range
    raises [IndexError]. *)
Definition py_index (l : list Z) (i : Z) : res Z :=
  let j := if i <? 0 then i + len l else i in
  if (0 <=? j) && (j <? len l)
  then match l !! Z.to_nat j with
       | Some x => Return x
       | None => Raise IndexError
       end
  else Raise IndexError.

(** [l[lo:hi]]: negative bounds count from the end, and bounds are clamped. *)
Definition py_clamp (n i : Z) : Z :=
  let j := if i <? 0 then Z.max (i + n) 0 else i in
  Z.min j n.

Definition py_slice {A} (l : list A) (lo hi : Z) : list A :=
  let a := py_clamp (len l) lo in
  let b := py_clamp (len l) hi in
  drop (Z.to_nat a) (take (Z.to_nat b) l).

(** [l[lo:]] *)
Definition py_slice_from {A} (l : list A) (lo : Z) : list A :=
  drop (Z.to_nat (py_clamp (len l) lo)) l.

(** [bytes(l)]: every element must be in [range(256)]. *)
Definition is_byte (b : Z) : bool := (0 <=? b) && (b <? 256).

Definition py_bytes (l : list Z) : res (list Z) :=
  if forallb is_byte l then Return l else Raise ValueError.

(** The hexadecimal digits of [hex(i)[2:]] for a non-negative [i]. *)
Definition hex_digit (d : Z) : ascii :=
  match d with
  | 0 => "0" | 1 => "1" | 2 => "2" | 3 => "3" | 4 => "4" | 5 => "5"
  | 6 => "6" | 7 => "7" | 8 => "8" | 9 => "9" | 10 => "a" | 11 => "b"
  | 12 => "c" | 13 => "d" | 14 => "e" | _ => "f"
  end%char.

Fixpoint hex_aux (fuel : nat) (n : Z) (acc : string) : string :=
  let acc' := String (hex_digit (n mod 16)) acc in
  match fuel with
  | O => acc'
  | S fuel' => if n / 16 =? 0 then acc' else hex_aux fuel' (n / 16) acc'
  end.

Definition hex_tail (n : Z) : string := hex_aux (Z.to_nat (Z.log2 n)) n EmptyString.

(** ** Module constants *)

Definition DEFAULT_BAUD : Z := 115200.
Definition IGNORE_PORTS : list string := ["COM1"%string].
Definition PREFERRED_PROBE_PORTS : gmap string (list string) :=
  <["Linux"%string := ["/dev/ttyACM*"%string]]>
  (<["Darwin"%string := ["/dev/cu.usbmodem*"%string]]> ∅).
(** Timeouts are kept in milliseconds: 0.1 s and 2.5 s. *)
Definition SERIAL_FAST_TIMEOUT : Z := 100.
Definition SERIAL_NORMAL_TIMEOUT : Z := 2500.

Inductive DeviceStatus : Type :=
  | Unkown
  | StatusNoResponse
  | StatusExistsAndValid.

Record FabricDeviceInfo : Type := mkFabricDeviceInfo {
  status : DeviceStatus;
  fpgaDeviceId : option Z;
  uri : option string;
  uid : option string
}.

Module FabricCommands.
Definition Echo : Z := 0x00.
Definition QueryDevice : Z := 0x01.
Definition UnkownCmd : Z := 0xff.
Definition ProgramDevice : Z := 0x02.
Definition ProgramBlock : Z := 0x03.
Definition ProgramComplete : Z := 0x04.
Definition QueryBitstreamFlash : Z := 0x05.
Definition ProgramBitstreamFromFlash : Z := 0x06.
Definition ClearBitstreamFlash : Z := 0x07.
Definition RebootProgrammer : Z := 0x08.
End FabricCommands.

(** [_adduint8]: both asserts, then the wrap rule of the source. *)
Definition _adduint8 (a b : Z) : res Z :=
  if negb ((0 <=? a) && (a <=? 0xff)) then Raise AssertionError
  else if negb ((0 <=? b) && (b <=? 0xff)) then Raise AssertionError
  else
    let res := a + b in
    if res >? 0xff then Return ((res mod 0xff) - 1) else Return res.

Module FEncoding.
Definition getInt32 (data : list Z) (offset : Z) : res Z :=
  res_bind (py_index data (offset + 0)) (fun b0 =>
  res_bind (py_index data (offset + 1)) (fun b1 =>
  res_bind (py_index data (offset + 2)) (fun b2 =>
  res_bind (py_index data (offset + 3)) (fun b3 =>
  Return (Z.lor (Z.lor (Z.lor (Z.shiftl b0 0) (Z.shiftl b1 8))
                       (Z.shiftl b2 16)) (Z.shiftl b3 24)))))).

Definition decodeInt16 (data : list Z) (offset : Z) : res Z :=
  res_bind (py_index data (offset + 0)) (fun b0 =>
  res_bind (py_index data (offset + 1)) (fun b1 =>
  Return (Z.lor (Z.shiftl b0 0) (Z.shiftl b1 8)))).

(** Every element is masked to one byte, so [bytes([...])] cannot fail. *)
Definition encodeInt32 (value : Z) : list Z :=
  [ Z.shiftr (Z.land value 0xff) 0;
    Z.shiftr (Z.land value 0xff00) 8;
    Z.shiftr (Z.land value 0xff0000) 16;
    Z.shiftr (Z.land value 0xff000000) 24 ].

Definition encodeInt16 (value : Z) : list Z :=
  [ Z.shiftr (Z.land value 0xff) 0;
    Z.shiftr (Z.land value 0xff00) 8 ].
End FEncoding.

(** ** Commands and responses *)

Inductive FCmd : Type :=
  | FQueryDevicePacket
  | FProgramDevicePacket (saveToFlash totalSize blockCount bitstreamCrc : Z)
  | FProgramCompletePacket
  | ClearBitstreamFlash
  | RebootProgrammer
  | QueryBitstreamFlash
  | FQueryProgramBlock (blockId compressedBlockSz blockSz blockCrc : Z)
                       (bitStreamBlock : list Z).

(** The [cmd] attribute set by each constructor through [FCmdBase.__init__]. *)
Definition cmd_of (c : FCmd) : Z :=
  match c with
  | FQueryDevicePacket => FabricCommands.QueryDevice
  | FProgramDevicePacket _ _ _ _ => FabricCommands.ProgramDevice
  | FProgramCompletePacket => FabricCommands.ProgramComplete
  | ClearBitstreamFlash => FabricCommands.ClearBitstreamFlash
  | RebootProgrammer => FabricCommands.RebootProgrammer
  | QueryBitstreamFlash => FabricCommands.QueryBitstreamFlash
  | FQueryProgramBlock _ _ _ _ _ => FabricCommands.ProgramBlock
  end.

Definition toBytes (c : FCmd) : res (list Z) :=
  match c with
  | FQueryDevicePacket => Return [0]
  | FProgramDevicePacket saveToFlash totalSize blockCount bitstreamCrc =>
      res_bind (py_bytes [saveToFlash]) (fun b =>
      Return (b ++ FEncoding.encodeInt32 totalSize
                ++ FEncoding.encodeInt32 blockCount
                ++ FEncoding.encodeInt16 bitstreamCrc))
  | FProgramCompletePacket => Return []
  | ClearBitstreamFlash => Return []
  | RebootProgrammer => Return []
  | QueryBitstreamFlash => Return []
  | FQueryProgramBlock blockId compressedBlockSz blockSz blockCrc bitStreamBlock =>
      res_bind (py_bytes [blockCrc]) (fun b =>
      Return ([] ++ FEncoding.encodeInt16 blockId
                 ++ FEncoding.encodeInt16 compressedBlockSz
                 ++ FEncoding.encodeInt16 blockSz
                 ++ b ++ bitStreamBlock))
  end.

(** The response classes a caller can ask for, and their instances.  The
    first two fields of an instance are [cmd] and [counter]. *)
Inductive ResponseClass : Type :=
  | FGeneric_Response
  | FQueryDevicePacket_Response
  | QueryBitstreamFlash_Response.

Inductive Response : Type :=
  | Generic_Response (rcmd rcnt : Z) (errorCode : Z)
  | QueryDevice_Response (rcmd rcnt : Z) (deviceState fpgaDeviceId : Z)
                         (progDeviceId : list Z)
  | BitstreamFlash_Response (rcmd rcnt : Z)
      (errorCode programOnStartup blockCnt bitStreamSz crc : Z).

(** [for i in range(8): s.progDeviceId.append( data[ i + 1 + 4] )] *)
Fixpoint progDeviceId_loop (data : list Z) (n : nat) (i : Z) (acc : list Z)
  : res (list Z) :=
  match n with
  | O => Return acc
  | S n' => res_bind (py_index data (i + 1 + 4)) (fun b =>
            progDeviceId_loop data n' (i + 1) (acc ++ [b]))
  end.

Definition fromBytes (cls : ResponseClass) (rcmd rcnt : Z) (data : list Z)
  : res Response :=
  match cls with
  | FGeneric_Response =>
      res_bind (FEncoding.getInt32 data 0) (fun errorCode =>
      Return (Generic_Response rcmd rcnt errorCode))
  | FQueryDevicePacket_Response =>
      res_bind (py_index data 0) (fun deviceState =>
      res_bind (FEncoding.getInt32 data 1) (fun fpgaDeviceId =>
      res_bind (progDeviceId_loop data 8 0 []) (fun progDeviceId =>
      Return (QueryDevice_Response rcmd rcnt deviceState fpgaDeviceId
                                   progDeviceId))))
  | QueryBitstreamFlash_Response =>
      res_bind (FEncoding.getInt32 data 0) (fun errorCode =>
      res_bind (FEncoding.getInt32 data 4) (fun programOnStartup =>
      res_bind (FEncoding.getInt32 data 8) (fun blockCnt =>
      res_bind (FEncoding.getInt32 data 12) (fun bitStreamSz =>
      res_bind (py_index data 16) (fun crc =>
      Return (BitstreamFlash_Response rcmd rcnt errorCode programOnStartup
                                      blockCnt bitStreamSz crc))))))
  end.

(** [response.errorCode]: the attribute does not exist on [None] nor on a
    query-device response. *)
Definition get_errorCode (r : option Response) : res Z :=
  match r with
  | Some (Generic_Response _ _ e) => Return e
  | Some (BitstreamFlash_Response _ _ e _ _ _ _) => Return e
  | Some (QueryDevice_Response _ _ _ _ _) => Raise AttributeError
  | None => Raise AttributeError
  end.

(** ** The serial channel

    The pyserial port the transport talks to.  [in_waiting] holds the bytes
    that reach the host before the read timeout expires; a [read(n)] that
    finds fewer than [n] of them returns what is there, which is how pyserial
    reports a timeout.  [written] logs every byte sent, and [peer] is the
    device at the other end: given the active timeout and everything written
    so far, the bytes it answers after a write. *)

Record Serial : Type := mkSerial {
  timeout : Z;
  write_timeout : Z;
  in_waiting : list Z;
  written : list Z;
  peer : Z -> list Z -> list Z
}.

Definition ser_read (n : nat) : M Serial (list Z) := fun ser =>
  (mkSerial (timeout ser) (write_timeout ser) (drop n (in_waiting ser))
            (written ser) (peer ser),
   Return (take n (in_waiting ser))).

Definition ser_write (bs : list Z) : M Serial unit := fun ser =>
  let w := written ser ++ bs in
  (mkSerial (timeout ser) (write_timeout ser)
            (in_waiting ser ++ peer ser (timeout ser) w) w (peer ser),
   Return tt).

Definition flushInput : M Serial unit := fun ser =>
  (mkSerial (timeout ser) (write_timeout ser) [] (written ser) (peer ser),
   Return tt).

(** Written bytes are handed to the peer at once, so there is never pending
    output to discard. *)
Definition flushOutput : M Serial unit := ret tt.

(** ** FabricTransport and USBSerialTransport *)

Definition HeaderMagic : Z := 0x1b.
Definition MaxWriteBlockSize : Z := 0xffff - 16.
Definition TransportTypeUSBSerial : string := "usbserial".
Definition TransportTypeIP : string := "ip".

(** The body of [for i in data] in [writeBlock]. *)
Fixpoint writeBlock_loop (data : list Z) (crc : Z) : M Serial Z :=
  match data with
  | [] => ret crc
  | i :: rest =>
      b <~ lift (py_bytes [i]);
      ser_write b ;;
      writeBlock_loop rest (crc + i)
  end.

Definition writeBlock (data : list Z) : M Serial unit :=
  if len data >=? MaxWriteBlockSize then raise Exception_MaxPacketSize
  else
    ser_write ([HeaderMagic] ++ FEncoding.encodeInt16 (len data + 1)) ;;
    crc <~ writeBlock_loop data 0;
    let crc := Z.land crc 0xff in
    b <~ lift (py_bytes [crc]);
    ser_write b.

(** The body of [for i in range(sz)] in [readBlock], with [n] iterations
    left; [None] is the early [return None] on a timeout. *)
Fixpoint readBlock_loop (n : nat) (i sz crc : Z) (data : list Z)
  : M Serial (option (Z * list Z)) :=
  match n with
  | O => ret (Some (crc, data))
  | S n' =>
      raw_ch <~ ser_read 1;
      match raw_ch with
      | [] => ret None
      | _ =>
          ch <~ lift (py_index raw_ch 0);
          let crc := if i <? sz - 1 then crc + ch else crc in
          readBlock_loop n' (i + 1) sz crc (data ++ [ch])
      end
  end.

Definition readBlock : M Serial (option (list Z)) :=
  raw_ch <~ ser_read 1;
  match raw_ch with
  | [] => ret None
  | _ =>
      magic <~ lift (py_index raw_ch 0);
      if negb (magic =? HeaderMagic) then raise AssertionError
      else
        raw_ch <~ ser_read 2;
        if (len raw_ch =? 0) || (len raw_ch <? 2) then ret None
        else
          sz <~ lift (FEncoding.decodeInt16 raw_ch 0);
          r <~ readBlock_loop (Z.to_nat sz) 0 sz 0 [];
          match r with
          | None => ret None
          | Some (crc, data) =>
              let crc := Z.land crc 0xff in
              last <~ lift (py_index data (len data - 1));
              let expected_crc := Z.land last 0xff in
              if negb (expected_crc =? crc)
              then raise (Exception_CrcFail crc expected_crc)
              else ret (Some (py_slice data 0 (len data - 1)))
          end
  end.

(** [FabricTransport] is the base class: [writeCommand] is left to the
    subclass, and the engine operations are written against it. *)
Class Transport (T : Type) : Type := {
  transport_uri : T -> string;
  writeCommand : FCmd -> option ResponseClass -> M T (option Response)
}.

(** [math.ceil(a / b)] for a positive [b]: the ceiling of the exact quotient
    (Python's true division is exact on bitstream lengths, which stay far
    below 2^52). *)
Definition math_ceil_div (a b : Z) : Z :=
  if a mod b =? 0 then a / b else a / b + 1.

Module FabricTransport.
Section Engine.
Context {T : Type} `{Transport T}.
(** [zlib.compress(data, level=9)] of the Python library. *)
Variable zlib_compress : list Z -> list Z.

Definition compressData (data : list Z) : res (list Z) :=
  let sz := len data in
  let szBytes := [ Z.shiftr (Z.land sz 0xff00) 8;
                   Z.shiftr (Z.land sz 0xff) 0 ] in
  res_bind (py_bytes data) (fun b =>
  Return (szBytes ++ zlib_compress b)).

(** [zlib.decompress(data)] of the Python library, which raises on input
    that is no deflate stream. *)
Variable zlib_decompress : list Z -> res (list Z).

(** [decompressData]: the two-byte size header is read and not used. *)
Definition decompressData (data : list Z) : res (list Z) :=
  res_bind (py_index data 0) (fun d0 =>
  res_bind (py_index data 1) (fun d1 =>
  let sz := Z.lor (Z.shiftl d0 8) d1 in
  res_bind (py_bytes (py_slice_from data 2)) zlib_decompress)).

Definition response_fields (r : Response) : res (Z * Z * list Z) :=
  match r with
  | QueryDevice_Response _ _ deviceState fpgaDeviceId progDeviceId =>
      Return (deviceState, fpgaDeviceId, progDeviceId)
  | _ => Raise AttributeError
  end.

Definition queryDevice : M T (option FabricDeviceInfo) :=
  response <~ writeCommand FQueryDevicePacket
                           (Some FQueryDevicePacket_Response);
  match response with
  | Some response =>
      f <~ lift (response_fields response);
      let '(deviceState, fpgaDeviceId, progDeviceId) := f in
      s <~ get;
      ret (Some {|
        status := if deviceState =? 1 then StatusExistsAndValid else Unkown;
        fpgaDeviceId := Some fpgaDeviceId;
        uri := Some (transport_uri s);
        uid := Some (fold_left (fun uid i => (uid +:+ hex_tail i)%string)
                               progDeviceId EmptyString) |})
  | None => ret None
  end.

(** One exchange of [programDevice]: send, then require [errorCode == 0]. *)
Definition send_checked (cmd : FCmd) : M T unit :=
  response <~ writeCommand cmd (Some FGeneric_Response);
  code <~ lift (get_errorCode response);
  if negb (code =? 0) then raise (Exception_DeviceFailed code)
  else ret tt.

(** The [while True] loop of [programDevice].  [blockSz] is reassigned to
    the length of each block, as in the source.  Each iteration advances
    [i] by at least one, so [len(bitstreamData) + 1] iterations always
    reach the [break]; [None] would mean the fuel ran out before. *)
Fixpoint programDevice_loop (fuel : nat) (bitstreamData : list Z)
    (i blockId blockSz : Z) : M T (option unit) :=
  match fuel with
  | O => ret None
  | S fuel' =>
      let block := py_slice bitstreamData i (i + blockSz) in
      match block with
      | [] => ret (Some tt)
      | _ =>
          let blockSz := len block in
          let blockCrc := Z.land (fold_left Z.add block 0) 0xff in
          compressedBlock <~ lift (compressData block);
          let cmd := FQueryProgramBlock blockId (len compressedBlock)
                       (len block) blockCrc compressedBlock in
          send_checked cmd ;;
          programDevice_loop fuel' bitstreamData (i + blockSz)
                             (blockId + 1) blockSz
      end
  end.

Definition programDevice (bitstreamData : list Z) (saveToFlash : bool)
  : M T (option bool) :=
  let blockSz := 4096 - 32 in
  let blockCnt := math_ceil_div (len bitstreamData) blockSz in
  let sz := len bitstreamData in
  let cmd := FProgramDevicePacket (if saveToFlash then 1 else 0)
                                  sz blockCnt 0 in
  send_checked cmd ;;
  r <~ programDevice_loop (S (length bitstreamData)) bitstreamData
                          0 0 blockSz;
  match r with
  | None => ret None
  | Some _ =>
      send_checked FProgramCompletePacket ;;
      ret (Some true)
  end.

Definition clearFlash : M T (option bool) :=
  response <~ writeCommand ClearBitstreamFlash (Some FGeneric_Response);
  match response with
  | Some _ =>
      code <~ lift (get_errorCode response);
      ret (Some (code =? 0))
  | None => ret None
  end.

Definition rebootProgrammer : M T bool :=
  writeCommand RebootProgrammer None ;;
  ret true.

Definition queryBitstreamFlash : M T (option Response) :=
  writeCommand QueryBitstreamFlash (Some QueryBitstreamFlash_Response).
End Engine.
End FabricTransport.

Module USBSerialTransport.
Record t : Type := mk {
  uri : string;
  port : option string;
  transportType : string;
  debug : Z;
  timeout : Z;
  baudrate : Z;
  counter : Z;
  ser : Serial
}.

Definition with_ser {A} (m : M Serial A) : M t A := fun s =>
  let '(ser', r) := m (ser s) in
  (mk (uri s) (port s) (transportType s) (debug s) (timeout s)
      (baudrate s) (counter s) ser', r).

Definition set_counter (c : Z) : M t unit := fun s =>
  (mk (uri s) (port s) (transportType s) (debug s) (timeout s)
      (baudrate s) c (ser s), Return tt).

Definition setFastTimeoutMode (isFash : bool) : M t unit :=
  with_ser (fun ser =>
    (mkSerial SERIAL_FAST_TIMEOUT SERIAL_FAST_TIMEOUT (in_waiting ser)
              (written ser) (peer ser), Return tt)).

(** Returns [cmd, counter, data]; the triple [None, None, None] is [None]. *)
Definition readPacket : M t (option (Z * Z * list Z)) :=
  data <~ with_ser readBlock;
  match data with
  | Some data =>
      if negb (len data =? 0) && (len data >=? 2) then
        d0 <~ lift (py_index data 0);
        d1 <~ lift (py_index data 1);
        ret (Some (d0, d1, py_slice_from data 2))
      else ret None
  | None => ret None
  end.

Definition readCommand (responseClass : ResponseClass) : M t Response :=
  p <~ readPacket;
  match p with
  | Some (rcmd, rcnt, rdata) =>
      if len rdata =? 0 then raise Exception_NoResponse
      else lift (fromBytes responseClass rcmd rcnt rdata)
  | None => raise Exception_NoResponse
  end.

Definition writeCommand (cmd : FCmd) (responseClass : option ResponseClass)
  : M t (option Response) :=
  with_ser flushInput ;;
  with_ser flushOutput ;;
  s <~ get;
  c <~ lift (_adduint8 (counter s) 1);
  set_counter c ;;
  hdr <~ lift (py_bytes [cmd_of cmd; c]);
  body <~ lift (toBytes cmd);
  with_ser (writeBlock (hdr ++ body)) ;;
  match responseClass with
  | Some cls => r <~ readCommand cls; ret (Some r)
  | None => ret None
  end.

#[global] Instance transport : Transport t := {
  transport_uri := uri;
  writeCommand := writeCommand
}.
End USBSerialTransport.

(** ** Strings of the discovery service *)

(** [s.split(sep)] for a non-empty separator: [skip] characters of a
    separator just found are still to be passed over, [cur] is the piece
    being collected. *)
Fixpoint split_aux (sep s : string) (skip : nat) (cur : string) : list string :=
  match s with
  | EmptyString => [cur]
  | String c s' =>
      match skip with
      | S k => split_aux sep s' k cur
      | O =>
          if String.prefix sep s
          then cur :: split_aux sep s' (String.length sep - 1) EmptyString
          else split_aux sep s' 0 (cur +:+ String c EmptyString)%string
      end
  end.

Definition py_split (s sep : string) : list string := split_aux sep s 0 EmptyString.

(** [fnmatch.fnmatch(name, pat)] on a POSIX host (the only platforms with
    preferred ports), for patterns made of literal characters, [?] and [*],
    as all patterns of [PREFERRED_PROBE_PORTS] are. *)
Fixpoint fnmatch (name pat : string) : bool :=
  match pat with
  | EmptyString => match name with EmptyString => true | _ => false end
  | String p pat' =>
      if Ascii.eqb p "*" then
        (fix star (name : string) : bool :=
           fnmatch name pat' ||
           match name with
           | EmptyString => false
           | String _ name' => star name'
           end) name
      else
        match name with
        | EmptyString => false
        | String c name' =>
            (Ascii.eqb p "?" || Ascii.eqb p c) && fnmatch name' pat'
        end
  end.

(** ** The host the discovery service runs on *)

(** [comports] is what the port enumerator lists (port, description,
    hardware id), [platform_system] is [platform.system()], and
    [serial_open] is what [serial.Serial(port=...)] finds behind a port:
    nothing that can be opened, or a device with its answering behaviour. *)
Record World : Type := mkWorld {
  comports : list (string * string * string);
  platform_system : string;
  serial_open : string -> option (Z -> list Z -> list Z)
}.

(** A [FabricDeviceInfo] object on the heap.  The class defines no [__eq__],
    so two objects are equal only when they are the same object: [obj_id] is
    the identity every construction draws afresh. *)
Record DeviceObj : Type := mkDeviceObj {
  obj_id : nat;
  obj_info : FabricDeviceInfo
}.

(** [x in devices] *)
Definition obj_in (x : DeviceObj) (devices : list DeviceObj) : bool :=
  existsb (fun d => Nat.eqb (obj_id d) (obj_id x)) devices.

(** [try: body  except: handler] *)
Definition try_except {S A} (body : M S A) (handler : M S A) : M S A :=
  fun s => match body s with
           | (s', Return a) => (s', Return a)
           | (s', Raise _) => handler s'
           end.

Module FabricService.
Record t : Type := mk {
  deviceCache : gmap string DeviceObj;
  next_obj_id : nat
}.

(** [FabricService()] *)
Definition new : t := mk ∅ 0.

Section Host.
Variable w : World.

(** [FabricTransport.createTransportForUri], with the constructor, [init]
    and [initTransport] of [USBSerialTransport] it runs. *)
Definition createTransportForUri (uri : string)
  : res (option USBSerialTransport.t) :=
  match py_split uri "://" with
  | [proto; port] =>
      if String.eqb proto TransportTypeUSBSerial then
        match serial_open w port with
        | None => Raise SerialException
        | Some p =>
            let timeout := 10000 in
            let ser := mkSerial timeout timeout [] [] p in
            match (flushInput ;; flushOutput) ser with
            | (ser, Return _) =>
                Return (Some (USBSerialTransport.mk uri (Some port)
                          TransportTypeUSBSerial 0 timeout DEFAULT_BAUD 0 ser))
            | (_, Raise e) => Raise e
            end
        end
      else Return None
  | _ => Raise ValueError
  end.

(** [FabricService.queryDevice].  The transport is local to the call; the
    [FabricDeviceInfo] that [FabricTransport.queryDevice] constructs is a
    new object each time. *)
Definition queryDevice (uri : string) (fast : bool) : M t (option DeviceObj) :=
  transport <~ lift (createTransportForUri uri);
  match transport with
  | None => ret None
  | Some transport =>
      let run : M USBSerialTransport.t (option FabricDeviceInfo) :=
        (if fast then USBSerialTransport.setFastTimeoutMode true else ret tt) ;;
        FabricTransport.queryDevice in
      match snd (run transport) with
      | Raise e => raise e
      | Return None => ret None
      | Return (Some info) =>
          s <~ get;
          modify (fun s => mk (deviceCache s) (S (next_obj_id s))) ;;
          ret (Some (mkDeviceObj (next_obj_id s) info))
      end
  end.

Definition addDeviceCache (deviceInfo : DeviceObj) : M t unit :=
  match uri (obj_info deviceInfo) with
  | None | Some EmptyString => ret tt
  | Some u =>
      modify (fun s => mk (<[u := deviceInfo]> (deviceCache s)) (next_obj_id s))
  end.

(** How a pass over [deviceUris] ends: it ran to the end, or it hit
    [return devices]. *)
Inductive pass : Type :=
  | Done (devices : list DeviceObj)
  | Returned (devices : list DeviceObj).

(** What follows a query in both passes: collect, cache, test the count. *)
Definition collect (returnOnMinCnt : option Z) (deviceInfo : option DeviceObj)
    (devices : list DeviceObj) : M t pass :=
  match deviceInfo with
  | Some deviceInfo =>
      let devices :=
        if negb (obj_in deviceInfo devices) then devices ++ [deviceInfo]
        else devices in
      addDeviceCache deviceInfo ;;
      match returnOnMinCnt with
      | Some n => if len devices >=? n then ret (Returned devices)
                  else ret (Done devices)
      | None => ret (Done devices)
      end
  | None => ret (Done devices)
  end.

(** "try fast preferred first": no [try] around the query. *)
Fixpoint preferred_pass (returnOnMinCnt : option Z) (prefList : list string)
    (deviceUris : list string) (devices : list DeviceObj) : M t pass :=
  match deviceUris with
  | [] => ret (Done devices)
  | uri :: rest =>
      let isValid :=
        existsb (fun i => fnmatch uri (TransportTypeUSBSerial +:+ "://" +:+ i))
                prefList in
      r <~ (if isValid then
              deviceInfo <~ queryDevice uri true;
              collect returnOnMinCnt deviceInfo devices
            else ret (Done devices));
      match r with
      | Returned devices => ret (Returned devices)
      | Done devices => preferred_pass returnOnMinCnt prefList rest devices
      end
  end.

(** "query all / slow": the inner [for uri in deviceUris], each query
    inside [try: ... except: pass]. *)
Fixpoint query_all_pass (returnOnMinCnt : option Z) (fastMode : bool)
    (deviceUris : list string) (devices : list DeviceObj) : M t pass :=
  match deviceUris with
  | [] => ret (Done devices)
  | uri :: rest =>
      r <~ try_except
             (deviceInfo <~ queryDevice uri fastMode;
              collect returnOnMinCnt deviceInfo devices)
             (ret (Done devices));
      match r with
      | Returned devices => ret (Returned devices)
      | Done devices => query_all_pass returnOnMinCnt fastMode rest devices
      end
  end.

(** [for fastMode in [True, False]] *)
Fixpoint query_all (returnOnMinCnt : option Z) (modes : list bool)
    (deviceUris : list string) (devices : list DeviceObj) : M t pass :=
  match modes with
  | [] => ret (Done devices)
  | fastMode :: modes' =>
      r <~ query_all_pass returnOnMinCnt fastMode deviceUris devices;
      match r with
      | Returned devices => ret (Returned devices)
      | Done devices => query_all returnOnMinCnt modes' deviceUris devices
      end
  end.

Definition listDevices (returnOnMinCnt : option Z)
    (transportTypes : list string) : M t (list DeviceObj) :=
  let devices := [] in
  let deviceUris :=
    if existsb (String.eqb TransportTypeUSBSerial) transportTypes then
      flat_map (fun '(port, desc, hwid) =>
                  if existsb (String.eqb port) IGNORE_PORTS then []
                  else [(TransportTypeUSBSerial +:+ "://" +:+ port)%string])
               (comports w)
    else [] in
  r <~ match PREFERRED_PROBE_PORTS !! platform_system w with
       | Some prefList => preferred_pass returnOnMinCnt prefList deviceUris devices
       | None => ret (Done devices)
       end;
  match r with
  | Returned devices => ret devices
  | Done devices =>
      r <~ query_all returnOnMinCnt [true; false] deviceUris devices;
      match r with
      | Returned devices => ret devices
      | Done devices => ret devices
      end
  end.

(** What [queryDeviceOrGetCached] hands back: a device object, the integer
    [0] when no transport exists for the uri, or [None]. *)
Inductive cached : Type :=
  | Found (deviceInfo : DeviceObj)
  | Zero
  | NoDevice.

(** [queryDeviceOrGetCached]: the transport created for the test is dropped,
    and [queryDevice] creates its own. *)
Definition queryDeviceOrGetCached (uri : string) (fastMode : bool) : M t cached :=
  s <~ get;
  match deviceCache s !! uri with
  | Some deviceInfo => ret (Found deviceInfo)
  | None =>
      transport <~ lift (createTransportForUri uri);
      match transport with
      | None => ret Zero
      | Some _ =>
          deviceInfo <~ queryDevice uri fastMode;
          match deviceInfo with
          | Some deviceInfo =>
              addDeviceCache deviceInfo ;;
              ret (Found deviceInfo)
          | None => ret NoDevice
          end
      end
  end.

(** The default [transportTypes] argument. *)
Definition default_transportTypes : list string :=
  [TransportTypeUSBSerial; TransportTypeIP].
End Host.
End FabricService.

(** ** Vocabulary of the statements *)

(** The serial port with its input buffer replaced. *)
Definition set_in_waiting (l : list Z) (ser : Serial) : Serial :=
  mkSerial (timeout ser) (write_timeout ser) l (written ser) (peer ser).

Definition sum_bytes (l : list Z) : Z := fold_left Z.add l 0.

(** The frame as the data model words it: magic byte, little-endian 16-bit
    length counting the payload and the checksum byte, the payload, and the
    sum of the payload bytes modulo 256. *)
Definition frame_layout (payload : list Z) : list Z :=
  [0x1B; (len payload + 1) mod 256; (len payload + 1) / 256]
    ++ payload ++ [sum_bytes payload mod 256].

(** Bit [k] of the byte at position [pos] inverted, nothing else touched. *)
Definition flip_bit (pos : nat) (k : Z) (frame : list Z) : list Z :=
  alter (fun b => Z.lxor b (2 ^ k)) pos frame.

(** What the device answers, within the timeout, to [packet] sent by
    [writeCommand] on a port whose stale input has been flushed. *)
Definition reply_to (ser : Serial) (packet : list Z) : list Z :=
  in_waiting (fst (writeBlock packet (fst (flushInput ser)))).

(** [n] sends in a row, seen from the session counter. *)
Fixpoint advance_counter (n : nat) (c : Z) : res Z :=
  match n with
  | O => Return c
  | S n' => res_bind (_adduint8 c 1) (advance_counter n')
  end.

(** A transport that also keeps the list of exchanges made through it: each
    command handed to [writeCommand] with what came back.  It observes the
    wrapped transport and changes nothing of its behaviour. *)
Record Recorder (T : Type) : Type := mkRecorder {
  inner : T;
  exchanges : list (FCmd * res (option Response))
}.
Arguments mkRecorder {T} inner exchanges.
Arguments inner {T} r.
Arguments exchanges {T} r.

#[global] Instance Recorder_transport {T} `{Transport T} : Transport (Recorder T) := {
  transport_uri r := transport_uri (inner r);
  writeCommand cmd cls := fun r =>
    let '(t', o) := writeCommand cmd cls (inner r) in
    (mkRecorder t' (exchanges r ++ [(cmd, o)]), o)
}.

(** What [programDevice] makes of one exchange: it goes on only when the
    response carries [errorCode == 0]. *)
Definition exchange_outcome (x : FCmd * res (option Response)) : res unit :=
  match snd x with
  | Return response =>
      match get_errorCode response with
      | Return code =>
          if negb (code =? 0) then Raise (Exception_DeviceFailed code)
          else Return tt
      | Raise e => Raise e
      end
  | Raise e => Raise e
  end.

(** The exchanges of a run and its result fit together: every exchange but
    the last went well, and a last one that did not is what the run raised. *)
Inductive run_log {A : Type} : list (FCmd * res (option Response)) -> res A -> Prop :=
  | run_log_nil out : run_log [] out
  | run_log_ok x l out :
      exchange_outcome x = Return tt -> run_log l out -> run_log (x :: l) out
  | run_log_fail x e :
      exchange_outcome x = Raise e -> run_log [x] (Raise e).


(** A step of a session that leaves its counter alone. *)
Definition keeps_counter {A} (m : M USBSerialTransport.t A) : Prop :=
  forall s, USBSerialTransport.counter (fst (m s)) = USBSerialTransport.counter s.

(** The session with its serial port replaced, and with its counter and
    serial port replaced. *)
Definition set_ser (ser' : Serial) (s : USBSerialTransport.t) : USBSerialTransport.t :=
  USBSerialTransport.mk (USBSerialTransport.uri s) (USBSerialTransport.port s)
    (USBSerialTransport.transportType s) (USBSerialTransport.debug s)
    (USBSerialTransport.timeout s) (USBSerialTransport.baudrate s)
    (USBSerialTransport.counter s) ser'.

Definition set_counter_ser (c : Z) (ser' : Serial) (s : USBSerialTransport.t)
  : USBSerialTransport.t :=
  USBSerialTransport.mk (USBSerialTransport.uri s) (USBSerialTransport.port s)
    (USBSerialTransport.transportType s) (USBSerialTransport.debug s)
    (USBSerialTransport.timeout s) (USBSerialTransport.baudrate s) c ser'.

(** A step that leaves the observation [f] of the state alone. *)
Definition keeps {S X A} (f : S -> X) (m : M S A) : Prop :=
  forall s, f (fst (m s)) = f s.

(** The command is the ProgramBlock with this [blockId] and raw size. *)
Definition is_block (blockId rawSize : Z) (c : FCmd) : Prop :=
  exists compressedBlockSz blockCrc bitStreamBlock,
    c = FQueryProgramBlock blockId compressedBlockSz rawSize blockCrc bitStreamBlock.

(** The recorder run [m1] and the plain run [m2] of the same code go the
    same way: same result, same final transport. *)
Definition observes {T A} (m1 : M (Recorder T) A) (m2 : M T A) : Prop :=
  forall r, m2 (inner r) = (inner (fst (m1 r)), snd (m1 r)).

(** The uris of the devices a discovery returned. *)
Definition uris_of (r : res (list DeviceObj)) : res (list (option string)) :=
  res_bind r (fun devices => Return (map (fun d => uri (obj_info d)) devices)).

(** The number of body bytes the [fromBytes] of each response class reads. *)
Definition body_size (cls : ResponseClass) : Z :=
  match cls with
  | FGeneric_Response => 4
  | FQueryDevicePacket_Response => 13
  | QueryBitstreamFlash_Response => 17
  end.

(** Whatever [m] returns satisfies [P]; nothing is said of what it raises. *)
Definition returns_only {S A} (P : A -> Prop) (m : M S A) : Prop :=
  forall s a, snd (m s) = Return a -> P a.

(** The command is the ProgramBlock that [programDevice] builds for the
    block starting at offset [i] when it carries the id [blockId]: the
    compressed slice, its two sizes and the sum of its raw bytes modulo 256. *)
Definition block_at (zlib_compress : list Z -> list Z) (data : list Z)
    (i blockId : Z) (c : FCmd) : Prop :=
  let block := py_slice data i (i + (4096 - 32)) in
  exists compressedBlock,
    FabricTransport.compressData zlib_compress block = Return compressedBlock
    /\ c = FQueryProgramBlock blockId (len compressedBlock) (len block)
                              (Z.land (sum_bytes block) 0xff) compressedBlock.


(** The string has no colon, so no scheme separator either. *)
Fixpoint no_colon (s : string) : bool :=
  match s with
  | EmptyString => true
  | String c s' => negb (Ascii.eqb c ":") && no_colon s'
  end.

(** The uri is the one discovery builds for an enumerated port that is not
    on the ignore list. *)
Definition port_uri (w : World) (u : string) : Prop :=
  exists port desc hwid,
    In (port, desc, hwid) (comports w)
    /\ ~ In port IGNORE_PORTS
    /\ u = (TransportTypeUSBSerial +:+ "://" +:+ port)%string.

(** The devices a pass ended with. *)
Definition pass_devices (p : FabricService.pass) : list DeviceObj :=
  match p with
  | FabricService.Done devices => devices
  | FabricService.Returned devices => devices
  end.

(** A pass ended well: [QD] holds of the list it goes on with, [QR] of the
    list it returns early. *)
Definition pass_ok (QD QR : list DeviceObj -> Prop) (p : FabricService.pass) : Prop :=
  match p with
  | FabricService.Done l => QD l
  | FabricService.Returned l => QR l
  end.

(** [info.uid] as [queryDevice] builds it from the eight id bytes:
    [for i in response.progDeviceId: info.uid += hex(i)[2:]]. *)
Definition uid_of (progDeviceId : list Z) : string :=
  fold_left (fun uid i => (uid +:+ hex_tail i)%string) progDeviceId EmptyString.

(** The value of one hexadecimal digit, and of a string of them read after
    the value [acc]. *)
Definition hex_digit_value (c : ascii) : Z :=
  match c with
  | "0" => 0 | "1" => 1 | "2" => 2 | "3" => 3 | "4" => 4 | "5" => 5
  | "6" => 6 | "7" => 7 | "8" => 8 | "9" => 9 | "a" => 10 | "b" => 11
  | "c" => 12 | "d" => 13 | "e" => 14 | _ => 15
  end%char.

Fixpoint hex_value (s : string) (acc : Z) : Z :=
  match s with
  | EmptyString => acc
  | String c s' => hex_value s' (16 * acc + hex_digit_value c)
  end.

(** ** Example hosts and devices *)

(** A device that answers a complete QueryDevice frame (seven bytes on a
    freshly opened port) with state 1, an FPGA id and an 8-byte uid. *)
Definition responsive_device : Z -> list Z -> list Z := fun _ w =>
  if len w =? 7
  then [0x1b; 16; 0; 1; 1; 1; 0x43; 0x10; 0x11; 0x41; 1; 2; 3; 4; 5; 6; 7; 8; 204]
  else [].

(** A port that opens but never answers. *)
Definition silent_device : Z -> list Z -> list Z := fun _ _ => [].

Definition port_entry (port : string) : string * string * string :=
  (port, EmptyString, EmptyString).

(** One responsive device on a port that no preferred pattern matches. *)
Definition host_one_device : World :=
  mkWorld [port_entry "/dev/ttyUSB0"] "Linux"
    (fun p => if String.eqb p "/dev/ttyUSB0" then Some responsive_device else None).

(** One responsive device on a preferred port of a Linux host. *)
Definition host_one_preferred_device : World :=
  mkWorld [port_entry "/dev/ttyACM0"] "Linux"
    (fun p => if String.eqb p "/dev/ttyACM0" then Some responsive_device else None).

(** A Linux host with a silent first port and a responsive second one, both
    matching the preferred pattern. *)
Definition host_silent_then_device : World :=
  mkWorld [port_entry "/dev/ttyACM0"; port_entry "/dev/ttyACM1"] "Linux"
    (fun p => if String.eqb p "/dev/ttyACM0" then Some silent_device
              else if String.eqb p "/dev/ttyACM1" then Some responsive_device
              else None).

(** The same ports on a platform without preferred patterns. *)
Definition host_silent_then_device_windows : World :=
  mkWorld [port_entry "/dev/ttyACM0"; port_entry "/dev/ttyACM1"] "Windows"
    (fun p => if String.eqb p "/dev/ttyACM0" then Some silent_device
              else if String.eqb p "/dev/ttyACM1" then Some responsive_device
              else None).

(** A stand-in device for the engine: it answers each command with a
    generic response carrying the next error code of its script, and stops
    answering when the script is used up. *)
Record Scripted : Type := mkScripted { script : list Z }.

#[global] Instance Scripted_transport : Transport Scripted := {
  transport_uri _ := "scripted"%string;
  writeCommand cmd cls := fun s =>
    match script s with
    | [] => (s, Raise Exception_NoResponse)
    | code :: rest =>
        (mkScripted rest, Return (Some (Generic_Response (cmd_of cmd) 0 code)))
    end
}.

(** A session on a port whose device never answers. *)
Definition silent_session : USBSerialTransport.t :=
  USBSerialTransport.mk "usbserial:///dev/ttyACM0" (Some "/dev/ttyACM0"%string)
    TransportTypeUSBSerial 0 10000 DEFAULT_BAUD 0
    (mkSerial 10000 10000 [] [] silent_device).


(** * Proofs *)

(** ** Checking a boolean property on an initial segment of the integers *)

Lemma range_check (P : Z -> bool) (N : nat) :
  forallb P (map Z.of_nat (seq 0 N)) = true ->
  forall n, 0 <= n < Z.of_nat N -> P n = true.
Proof.
  intros Hall n Hn.
  rewrite forallb_forall in Hall.
  apply Hall. apply in_map_iff. exists (Z.to_nat n). split; [lia|].
  apply in_seq. lia.
Qed.

Lemma range_check2 (P : Z -> Z -> bool) (N M : nat) :
  forallb (fun a => forallb (P a) (map Z.of_nat (seq 0 M)))
          (map Z.of_nat (seq 0 N)) = true ->
  forall a b, 0 <= a < Z.of_nat N -> 0 <= b < Z.of_nat M -> P a b = true.
Proof.
  intros Hall a b Ha Hb.
  apply (range_check (P a) M); [|exact Hb].
  apply (range_check (fun a => forallb (P a) (map Z.of_nat (seq 0 M))) N Hall a Ha).
Qed.

Lemma is_byte_range b : is_byte b = true <-> 0 <= b < 256.
Proof. unfold is_byte. rewrite andb_true_iff, Z.leb_le, Z.ltb_lt. tauto. Qed.

Lemma py_bytes_ok l : forallb is_byte l = true -> py_bytes l = Return l.
Proof. unfold py_bytes. intros ->. reflexivity. Qed.

Lemma land_0xff x : Z.land x 0xff = x mod 256.
Proof. change 0xff with (Z.ones 8). rewrite Z.land_ones by lia. reflexivity. Qed.

(** ** Python indexing and slicing on lists *)

Lemma len_app {A} (l1 l2 : list A) : len (l1 ++ l2) = len l1 + len l2.
Proof. unfold len. rewrite length_app. lia. Qed.

Lemma len_nonneg {A} (l : list A) : 0 <= len l.
Proof. unfold len. lia. Qed.

Lemma py_index_lookup l i x :
  0 <= i -> l !! Z.to_nat i = Some x -> py_index l i = Return x.
Proof.
  intros Hi Hl. unfold py_index.
  assert (Hlt : (Z.to_nat i < length l)%nat) by (eapply lookup_lt_Some; eauto).
  destruct (i <? 0) eqn:E; [apply Z.ltb_lt in E; lia|].
  assert ((0 <=? i) = true) as -> by (apply Z.leb_le; lia).
  assert ((i <? len l) = true) as -> by (apply Z.ltb_lt; unfold len; lia).
  simpl. rewrite Hl. reflexivity.
Qed.

Lemma len_snoc_pred {A} (l : list A) (c : A) :
  Z.to_nat (len (l ++ [c]) - 1) = length l.
Proof. unfold len. rewrite length_app. simpl. lia. Qed.

Lemma py_index_last l c : py_index (l ++ [c]) (len (l ++ [c]) - 1) = Return c.
Proof.
  apply py_index_lookup.
  - rewrite len_app. pose proof (len_nonneg l). change (len [c]) with 1. lia.
  - rewrite len_snoc_pred. apply list_lookup_middle. reflexivity.
Qed.

Lemma py_index_empty i : py_index [] i = Raise IndexError.
Proof.
  unfold py_index. change (len (@nil Z)) with 0.
  destruct (i <? 0) eqn:E.
  - apply Z.ltb_lt in E. rewrite Z.add_0_r.
    replace (0 <=? i) with false by (symmetry; apply Z.leb_gt; lia). reflexivity.
  - destruct (0 <=? i); [|reflexivity].
    replace (i <? 0) with false. reflexivity.
Qed.

Lemma py_slice_init {A} (l : list A) (c : A) :
  py_slice (l ++ [c]) 0 (len (l ++ [c]) - 1) = l.
Proof.
  unfold py_slice, py_clamp. rewrite len_app. pose proof (len_nonneg l).
  change (len [c]) with 1. change (0 <? 0) with false. cbv iota.
  replace (len l + 1 - 1 <? 0) with false by (symmetry; apply Z.ltb_ge; lia).
  rewrite Z.min_l by lia. rewrite Z.min_l by lia.
  unfold len. rewrite Z.add_simpl_r, Nat2Z.id. simpl.
  rewrite take_app_length. reflexivity.
Qed.

(** ** The byte sum *)

Lemma fold_add_shift l a : fold_left Z.add l a = a + sum_bytes l.
Proof.
  unfold sum_bytes. revert a. induction l as [|x l IH]; intros a; simpl.
  - lia.
  - rewrite (IH (a + x)), (IH (0 + x)). lia.
Qed.

Lemma sum_bytes_cons x l : sum_bytes (x :: l) = x + sum_bytes l.
Proof. unfold sum_bytes at 1. simpl. rewrite fold_add_shift. lia. Qed.

Lemma sum_bytes_alter f l j b :
  l !! j = Some b -> sum_bytes (alter f j l) = sum_bytes l - b + f b.
Proof.
  revert j. induction l as [|x l IH]; intros [|j] Hj; simpl in Hj; try discriminate.
  - injection Hj as ->. change (alter f 0%nat (b :: l)) with (f b :: l).
    rewrite !sum_bytes_cons. lia.
  - change (alter f (S j) (x :: l)) with (x :: alter f j l).
    rewrite !sum_bytes_cons, (IH _ Hj). lia.
Qed.

(** ** 16-bit lengths on the wire *)

Lemma byte_pair_encode b0 b1 :
  0 <= b0 < 256 -> 0 <= b1 < 256 ->
  FEncoding.encodeInt16 (b0 + 256 * b1) = [b0; b1].
Proof.
  intros H0 H1.
  pose (P := fun b0 b1 => match FEncoding.encodeInt16 (b0 + 256 * b1) with
                          | [a; b] => (a =? b0) && (b =? b1)
                          | _ => false
                          end).
  assert (HP : P b0 b1 = true).
  { apply (range_check2 P 256 256); [vm_compute; reflexivity | lia | lia]. }
  unfold P in HP. unfold FEncoding.encodeInt16 in *.
  apply andb_true_iff in HP as [E0 E1].
  apply Z.eqb_eq in E0, E1. rewrite E0, E1. reflexivity.
Qed.

Lemma byte_pair_decode b0 b1 :
  0 <= b0 < 256 -> 0 <= b1 < 256 ->
  FEncoding.decodeInt16 [b0; b1] 0 = Return (b0 + 256 * b1).
Proof.
  intros H0 H1.
  pose (P := fun b0 b1 => match FEncoding.decodeInt16 [b0; b1] 0 with
                          | Return m => m =? b0 + 256 * b1
                          | Raise _ => false
                          end).
  assert (HP : P b0 b1 = true).
  { apply (range_check2 P 256 256); [vm_compute; reflexivity | lia | lia]. }
  unfold P in HP.
  destruct (FEncoding.decodeInt16 _ _); [|discriminate].
  apply Z.eqb_eq in HP. congruence.
Qed.

Lemma encodeInt16_layout n :
  0 <= n < 65536 -> FEncoding.encodeInt16 n = [n mod 256; n / 256].
Proof.
  intros Hn. rewrite <- byte_pair_encode.
  - f_equal. pose proof (Z.div_mod n 256). lia.
  - apply Z.mod_pos_bound. lia.
  - split; [apply Z.div_pos; lia | apply Z.div_lt_upper_bound; lia].
Qed.

Lemma decodeInt16_layout n :
  0 <= n < 65536 -> FEncoding.decodeInt16 [n mod 256; n / 256] 0 = Return n.
Proof.
  intros Hn. rewrite byte_pair_decode.
  - f_equal. pose proof (Z.div_mod n 256). lia.
  - apply Z.mod_pos_bound. lia.
  - split; [apply Z.div_pos; lia | apply Z.div_lt_upper_bound; lia].
Qed.

(** Inverting one bit of a byte moves it by a power of two below 256. *)
Lemma flip_byte b k :
  0 <= b < 256 -> 0 <= k < 8 ->
  0 <= Z.lxor b (2 ^ k) < 256 /\ (Z.lxor b (2 ^ k) - b) mod 256 <> 0.
Proof.
  intros Hb Hk.
  pose (P := fun b k => let c := Z.lxor b (2 ^ k) in
                        (0 <=? c) && (c <? 256) && negb ((c - b) mod 256 =? 0)).
  assert (HP : P b k = true).
  { apply (range_check2 P 256 8); [vm_compute; reflexivity | lia | lia]. }
  unfold P in HP. cbv zeta in HP.
  apply andb_true_iff in HP as [HP Hne]. apply andb_true_iff in HP as [Hlo Hhi].
  apply Z.leb_le in Hlo. apply Z.ltb_lt in Hhi.
  apply negb_true_iff, Z.eqb_neq in Hne. auto.
Qed.


(** ** Reading from the serial port *)

Lemma in_waiting_set l ser : in_waiting (set_in_waiting l ser) = l.
Proof. reflexivity. Qed.

Lemma set_in_waiting_set l l' ser :
  set_in_waiting l (set_in_waiting l' ser) = set_in_waiting l ser.
Proof. reflexivity. Qed.

Lemma ser_read_one ser x xs :
  in_waiting ser = x :: xs ->
  ser_read 1 ser = (set_in_waiting xs ser, Return [x]).
Proof. intros E. unfold ser_read, set_in_waiting. rewrite E. reflexivity. Qed.

Lemma ser_read_two ser x y xs :
  in_waiting ser = x :: y :: xs ->
  ser_read 2 ser = (set_in_waiting xs ser, Return [x; y]).
Proof. intros E. unfold ser_read, set_in_waiting. rewrite E. reflexivity. Qed.

Lemma ser_read_timeout n ser :
  in_waiting ser = [] -> ser_read n ser = (set_in_waiting [] ser, Return []).
Proof.
  intros E. unfold ser_read, set_in_waiting. rewrite E.
  destruct n; reflexivity.
Qed.

Lemma py_index_head x l : py_index (x :: l) 0 = Return x.
Proof. apply py_index_lookup; [lia | reflexivity]. Qed.

Lemma readBlock_loop_step n i sz crc data ser x xs :
  in_waiting ser = x :: xs ->
  readBlock_loop (S n) i sz crc data ser
  = readBlock_loop n (i + 1) sz (if i <? sz - 1 then crc + x else crc)
                   (data ++ [x]) (set_in_waiting xs ser).
Proof.
  intros Hin. cbn [readBlock_loop]. unfold bind at 1.
  rewrite (ser_read_one _ _ _ Hin).
  unfold bind at 1, lift. rewrite py_index_head. reflexivity.
Qed.

(** The read loop over a body followed by its checksum byte: the checksum
    accumulates the body only. *)
Lemma readBlock_loop_frame body : forall c rest i sz crc data ser,
  in_waiting ser = body ++ c :: rest ->
  i + len body + 1 = sz ->
  readBlock_loop (S (length body)) i sz crc data ser
  = (set_in_waiting rest ser,
     Return (Some (crc + sum_bytes body, data ++ body ++ [c]))).
Proof.
  induction body as [|b body IH]; intros c rest i sz crc data ser Hin Hsz.
  - simpl in Hin. change (len (@nil Z)) with 0 in Hsz.
    change (length (@nil Z)) with 0%nat.
    rewrite (readBlock_loop_step _ _ _ _ _ _ _ _ Hin).
    replace (i <? sz - 1) with false by (symmetry; apply Z.ltb_ge; lia).
    cbn [readBlock_loop]. unfold ret, sum_bytes. simpl fold_left.
    rewrite Z.add_0_r. reflexivity.
  - simpl in Hin.
    assert (Hlen : len (b :: body) = len body + 1) by (unfold len; simpl; lia).
    rewrite Hlen in Hsz. pose proof (len_nonneg body).
    change (length (b :: body)) with (S (length body)).
    rewrite (readBlock_loop_step _ _ _ _ _ _ _ _ Hin).
    replace (i <? sz - 1) with true by (symmetry; apply Z.ltb_lt; lia).
    rewrite (IH c rest (i + 1) sz (crc + b) (data ++ [b])
                (set_in_waiting (body ++ c :: rest) ser));
      [| reflexivity | lia].
    rewrite set_in_waiting_set, sum_bytes_cons, <- app_assoc.
    replace (crc + b + sum_bytes body) with (crc + (b + sum_bytes body)) by lia.
    reflexivity.
Qed.

(** What [readBlock] makes of a stream that starts with a frame header, a
    body and one more byte in the checksum position. *)
Lemma readBlock_frame ser body c rest :
  len body + 1 < 65536 ->
  in_waiting ser
  = [0x1b; (len body + 1) mod 256; (len body + 1) / 256] ++ body ++ c :: rest ->
  readBlock ser
  = (set_in_waiting rest ser,
     if negb (Z.land c 0xff =? Z.land (sum_bytes body) 0xff)
     then Raise (Exception_CrcFail (Z.land (sum_bytes body) 0xff) (Z.land c 0xff))
     else Return (Some body)).
Proof.
  intros Hlen Hin. pose proof (len_nonneg body) as Hpos.
  unfold readBlock. unfold bind at 1.
  rewrite (ser_read_one _ _ _ Hin).
  unfold bind at 1, lift. rewrite py_index_head.
  change (negb (0x1b =? HeaderMagic)) with false. cbv iota.
  unfold bind at 1.
  rewrite (ser_read_two (set_in_waiting _ ser) _ _ (body ++ c :: rest) eq_refl).
  change (len [(len body + 1) mod 256; (len body + 1) / 256]) with 2.
  change ((2 =? 0) || (2 <? 2)) with false. cbv iota.
  unfold bind at 1, lift.
  rewrite decodeInt16_layout by lia.
  replace (Z.to_nat (len body + 1)) with (S (length body)) by (unfold len; lia).
  unfold bind at 1.
  rewrite (readBlock_loop_frame body c rest 0 (len body + 1) 0 []
             (set_in_waiting (body ++ c :: rest) (set_in_waiting _ ser)));
    [| reflexivity | lia].
  rewrite !set_in_waiting_set. rewrite app_nil_l, Z.add_0_l.
  unfold bind at 1, lift. rewrite py_index_last.
  destruct (negb (Z.land c 0xff =? Z.land (sum_bytes body) 0xff)); unfold raise, ret.
  - reflexivity.
  - rewrite py_slice_init. reflexivity.
Qed.

(** ** Writing a frame *)

Lemma writeBlock_loop_bytes data : forall crc ser,
  forallb is_byte data = true ->
  exists ser', writeBlock_loop data crc ser = (ser', Return (crc + sum_bytes data))
               /\ written ser' = written ser ++ data.
Proof.
  induction data as [|b data IH]; intros crc ser Hb.
  - exists ser. cbn [writeBlock_loop]. unfold ret, sum_bytes. simpl fold_left.
    rewrite Z.add_0_r, app_nil_r. auto.
  - simpl in Hb. apply andb_true_iff in Hb as [Hb Hdata].
    cbn [writeBlock_loop]. unfold bind at 1, lift.
    rewrite py_bytes_ok by (simpl; rewrite Hb; reflexivity).
    unfold bind at 1. unfold ser_write at 1. cbv beta iota zeta.
    match goal with
    | |- context [writeBlock_loop data ?c ?s] =>
        destruct (IH c s Hdata) as (ser' & E & Hw)
    end.
    exists ser'. rewrite E, Hw, sum_bytes_cons. simpl written.
    rewrite <- app_assoc. split; [|reflexivity].
    replace (crc + b + sum_bytes data) with (crc + (b + sum_bytes data)) by lia.
    reflexivity.
Qed.

(** [writeBlock] puts exactly the frame of the data model on the wire. *)
Lemma writeBlock_frame payload ser :
  forallb is_byte payload = true ->
  len payload < 0xFFEF ->
  exists ser', writeBlock payload ser = (ser', Return tt)
               /\ written ser' = written ser ++ frame_layout payload.
Proof.
  intros Hb Hlen. pose proof (len_nonneg payload) as Hpos.
  unfold writeBlock.
  replace (len payload >=? MaxWriteBlockSize) with false
    by (symmetry; rewrite Z.geb_leb; apply Z.leb_gt; unfold MaxWriteBlockSize; lia).
  unfold bind at 1. unfold ser_write at 1. cbv beta iota zeta.
  unfold bind at 1.
  match goal with
  | |- context [writeBlock_loop payload 0 ?s] =>
      destruct (writeBlock_loop_bytes payload 0 s Hb) as (ser2 & E2 & Hw2)
  end.
  rewrite E2. unfold bind at 1, lift.
  rewrite py_bytes_ok.
  2:{ simpl. rewrite andb_true_r. apply is_byte_range. rewrite land_0xff.
      apply Z.mod_pos_bound. lia. }
  eexists. split; [reflexivity|].
  simpl written. rewrite Hw2. simpl written.
  rewrite encodeInt16_layout by (unfold MaxWriteBlockSize in *; lia).
  unfold frame_layout. rewrite Z.add_0_l, land_0xff, <- !app_assoc. reflexivity.
Qed.


(** ** The frame codec *)

Lemma readBlock_of_frame ser payload rest :
  len payload + 1 < 65536 ->
  readBlock (set_in_waiting (frame_layout payload ++ rest) ser)
  = (set_in_waiting rest ser, Return (Some payload)).
Proof.
  intros Hlen.
  rewrite (readBlock_frame _ payload (sum_bytes payload mod 256) rest Hlen).
  - rewrite set_in_waiting_set, !land_0xff, Z.mod_mod, Z.eqb_refl by lia.
    reflexivity.
  - rewrite in_waiting_set. unfold frame_layout. rewrite <- !app_assoc.
    reflexivity.
Qed.

Lemma mod_shift_neq s d : d mod 256 <> 0 -> (s + d) mod 256 <> s mod 256.
Proof. intros Hd. Z.div_mod_to_equations. lia. Qed.

(** C1. Frame round-trip: for every payload of fewer than 0xFFEF bytes,
    [writeBlock] succeeds and puts on the wire the magic byte 0x1B, the
    little-endian 16-bit length [len + 1], the payload and the checksum
    [sum(payload) mod 256], and [readBlock] on those bytes returns exactly
    the payload, leaving what follows the frame in the input buffer. *)
Theorem C1_frame_roundtrip (payload : list Z) (ser_w ser_r : Serial) (rest : list Z) :
  forallb is_byte payload = true ->
  0 <= len payload < 0xFFEF ->
  exists ser_w',
    writeBlock payload ser_w = (ser_w', Return tt)
    /\ written ser_w' = written ser_w ++ frame_layout payload
    /\ readBlock (set_in_waiting (frame_layout payload ++ rest) ser_r)
       = (set_in_waiting rest ser_r, Return (Some payload)).
Proof.
  intros Hb [_ Hlen].
  destruct (writeBlock_frame payload ser_w Hb Hlen) as (ser_w' & Ew & Hw).
  exists ser_w'. split; [exact Ew|]. split; [exact Hw|].
  apply readBlock_of_frame. lia.
Qed.

Lemma C1_frame_roundtrip_witness :
  forallb is_byte [0x01; 0x2A] = true
  /\ 0 <= len [0x01; 0x2A] < 0xFFEF
  /\ exists ser_w',
       writeBlock [0x01; 0x2A] (mkSerial 10000 10000 [] [] silent_device)
       = (ser_w', Return tt)
       /\ written ser_w' = [] ++ frame_layout [0x01; 0x2A]
       /\ readBlock (set_in_waiting (frame_layout [0x01; 0x2A] ++ [])
                       (mkSerial 10000 10000 [] [] silent_device))
          = (set_in_waiting [] (mkSerial 10000 10000 [] [] silent_device),
             Return (Some [0x01; 0x2A])).
Proof.
  split; [reflexivity|]. split; [unfold len; simpl; lia|].
  apply (C1_frame_roundtrip [0x01; 0x2A]
           (mkSerial 10000 10000 [] [] silent_device)
           (mkSerial 10000 10000 [] [] silent_device) []).
  - reflexivity.
  - unfold len; simpl; lia.
Defined.

(** C4. Checksum sensitivity: in the frame of any payload, inverting one bit
    of one payload byte or of the checksum byte (positions 3 to
    [3 + len(payload)], the magic and length bytes untouched) makes
    [readBlock] raise the checksum exception instead of returning a
    payload. *)
Theorem C4_checksum_sensitivity (payload : list Z) (pos : nat) (k : Z)
    (ser : Serial) (rest : list Z) :
  forallb is_byte payload = true ->
  len payload < 0xFFEF ->
  (3 <= pos <= 3 + length payload)%nat ->
  0 <= k < 8 ->
  exists got expected,
    got <> expected
    /\ readBlock (set_in_waiting (flip_bit pos k (frame_layout payload) ++ rest) ser)
       = (set_in_waiting rest ser, Raise (Exception_CrcFail got expected)).
Proof.
  intros Hb Hlen Hpos Hk.
  set (f := fun b => Z.lxor b (2 ^ k)).
  set (hdr := [0x1b; (len payload + 1) mod 256; (len payload + 1) / 256]).
  set (crc := sum_bytes payload mod 256).
  assert (Hcrc : 0 <= crc < 256) by (apply Z.mod_pos_bound; lia).
  assert (Hframe : frame_layout payload = hdr ++ payload ++ [crc]) by reflexivity.
  unfold flip_bit. fold f. rewrite Hframe.
  replace pos with (length hdr + (pos - 3))%nat by (simpl; lia).
  rewrite alter_app_r.
  destruct (decide (pos - 3 < length payload)%nat) as [Hin | Hout].
  - (* a payload byte *)
    rewrite alter_app_l by exact Hin.
    destruct (lookup_lt_is_Some_2 payload (pos - 3)%nat Hin) as [b Hlk].
    assert (Hbyte : 0 <= b < 256).
    { apply is_byte_range. rewrite forallb_forall in Hb. apply Hb.
      apply list_elem_of_In. eapply list_elem_of_lookup_2; eauto. }
    destruct (flip_byte b k Hbyte Hk) as [_ Hne].
    assert (Hl : len (alter f (pos - 3)%nat payload) = len payload)
      by (unfold len; rewrite length_alter; reflexivity).
    rewrite (readBlock_frame _ (alter f (pos - 3)%nat payload) crc rest).
    + rewrite set_in_waiting_set, !land_0xff.
      rewrite (sum_bytes_alter f payload _ b Hlk).
      assert (Hd : (sum_bytes payload - b + f b) mod 256 <> crc mod 256).
      { unfold crc. rewrite Z.mod_mod by lia.
        replace (sum_bytes payload - b + f b)
          with (sum_bytes payload + (f b - b)) by lia.
        apply mod_shift_neq. exact Hne. }
      replace (crc mod 256 =? (sum_bytes payload - b + f b) mod 256) with false
        by (symmetry; apply Z.eqb_neq; congruence).
      simpl negb. cbv iota. eexists _, _. split; [exact Hd | reflexivity].
    + rewrite Hl. lia.
    + rewrite in_waiting_set, Hl. unfold hdr. rewrite <- !app_assoc. reflexivity.
  - (* the checksum byte *)
    replace (pos - 3)%nat with (length payload + 0)%nat by lia.
    rewrite alter_app_r. change (alter f 0%nat [crc]) with [f crc].
    destruct (flip_byte crc k Hcrc Hk) as [Hrange Hne].
    rewrite (readBlock_frame _ payload (f crc) rest).
    + rewrite set_in_waiting_set, !land_0xff.
      assert (Hd : sum_bytes payload mod 256 <> f crc mod 256).
      { fold crc. rewrite (Z.mod_small (f crc)) by exact Hrange.
        intros E. apply Hne. fold (f crc). rewrite <- E, Z.sub_diag.
        reflexivity. }
      replace (f crc mod 256 =? sum_bytes payload mod 256) with false
        by (symmetry; apply Z.eqb_neq; congruence).
      simpl negb. cbv iota. eexists _, _. split; [exact Hd | reflexivity].
    + lia.
    + rewrite in_waiting_set. unfold hdr. rewrite <- !app_assoc. reflexivity.
Qed.

Lemma C4_checksum_sensitivity_witness :
  forallb is_byte [0x01; 0x2A] = true
  /\ len [0x01; 0x2A] < 0xFFEF
  /\ (3 <= 4 <= 3 + length [0x01; 0x2A])%nat
  /\ 0 <= 5 < 8
  /\ exists got expected,
       got <> expected
       /\ readBlock (set_in_waiting (flip_bit 4 5 (frame_layout [0x01; 0x2A]) ++ [])
                       (mkSerial 10000 10000 [] [] silent_device))
          = (set_in_waiting [] (mkSerial 10000 10000 [] [] silent_device),
             Raise (Exception_CrcFail got expected)).
Proof.
  split; [reflexivity|]. split; [reflexivity|].
  split; [simpl; lia|]. split; [lia|].
  apply (C4_checksum_sensitivity [0x01; 0x2A] 4 5
           (mkSerial 10000 10000 [] [] silent_device) []).
  - reflexivity.
  - reflexivity.
  - simpl. lia.
  - lia.
Defined.

(** C10. Zero-length frames: on a stream that starts with the magic byte
    0x1B and a little-endian length of 0, [readBlock] raises [IndexError]
    when it fetches the checksum byte of the empty body; it returns neither
    a payload nor the timeout value, and raises no checksum or assertion
    error. *)
Theorem C10_zero_length_frame (ser : Serial) (rest : list Z) :
  readBlock (set_in_waiting (0x1b :: 0 :: 0 :: rest) ser)
  = (set_in_waiting rest ser, Raise IndexError).
Proof.
  unfold readBlock. unfold bind at 1.
  rewrite (ser_read_one (set_in_waiting (0x1b :: 0 :: 0 :: rest) ser) 0x1b
             (0 :: 0 :: rest) eq_refl).
  unfold bind at 1, lift. rewrite py_index_head.
  change (negb (0x1b =? HeaderMagic)) with false. cbv iota.
  unfold bind at 1.
  rewrite (ser_read_two (set_in_waiting (0 :: 0 :: rest) _) 0 0 rest eq_refl).
  reflexivity.
Qed.


(** ** The session counter *)

Lemma adduint8_one c : 0 <= c <= 255 -> _adduint8 c 1 = Return ((c + 1) mod 256).
Proof.
  intros Hc. unfold _adduint8.
  replace ((0 <=? c) && (c <=? 0xff)) with true
    by (symmetry; apply andb_true_iff; split; apply Z.leb_le; lia).
  simpl negb. cbv iota.
  destruct (Z.gtb_spec (c + 1) 0xff) as [Hgt | Hle].
  - assert (c = 255) as -> by lia. reflexivity.
  - rewrite Z.mod_small by lia. reflexivity.
Qed.

Lemma advance_counter_mod n : forall c,
  0 <= c <= 255 -> advance_counter n c = Return ((c + Z.of_nat n) mod 256).
Proof.
  induction n as [|n IH]; intros c Hc.
  - simpl. rewrite Z.add_0_r, Z.mod_small by lia. reflexivity.
  - cbn [advance_counter]. rewrite adduint8_one by exact Hc.
    cbn [res_bind]. rewrite IH by (pose proof (Z.mod_pos_bound (c + 1) 256); lia).
    rewrite Zplus_mod_idemp_l. f_equal. f_equal. lia.
Qed.

Lemma keeps_counter_with_ser {A} (m : M Serial A) :
  keeps_counter (USBSerialTransport.with_ser m).
Proof.
  intros s. unfold USBSerialTransport.with_ser.
  destruct (m (USBSerialTransport.ser s)). reflexivity.
Qed.

Lemma keeps_counter_lift {A} (r : res A) : keeps_counter (lift r).
Proof. intros s. reflexivity. Qed.

Lemma keeps_counter_ret {A} (a : A) : keeps_counter (ret a).
Proof. intros s. reflexivity. Qed.

Lemma keeps_counter_raise {A} e : keeps_counter (@raise _ A e).
Proof. intros s. reflexivity. Qed.

Lemma keeps_counter_bind {A B} (m : M _ A) (k : A -> M _ B) :
  keeps_counter m -> (forall a, keeps_counter (k a)) -> keeps_counter (bind m k).
Proof.
  intros Hm Hk s. unfold bind. specialize (Hm s).
  destruct (m s) as [s' [a|e]]; simpl in *; [|exact Hm].
  rewrite Hk. exact Hm.
Qed.

Create HintDb counter.
#[local] Hint Resolve keeps_counter_with_ser keeps_counter_lift keeps_counter_ret
  keeps_counter_raise : counter.

Lemma keeps_counter_readPacket : keeps_counter USBSerialTransport.readPacket.
Proof.
  unfold USBSerialTransport.readPacket.
  apply keeps_counter_bind; [auto with counter|].
  intros [data|]; [|auto with counter].
  destruct (_ && _); [|auto with counter].
  repeat (apply keeps_counter_bind; [auto with counter | intros ?]).
  auto with counter.
Qed.

Lemma keeps_counter_readCommand cls :
  keeps_counter (USBSerialTransport.readCommand cls).
Proof.
  unfold USBSerialTransport.readCommand.
  apply keeps_counter_bind; [apply keeps_counter_readPacket|].
  intros [[[rcmd rcnt] rdata]|]; [|auto with counter].
  destruct (len rdata =? 0); auto with counter.
Qed.

(** Every [writeCommand] advances the session counter by [_adduint8] before
    anything is written, whatever happens afterwards. *)
Lemma writeCommand_counter cmd cls s :
  0 <= USBSerialTransport.counter s <= 255 ->
  USBSerialTransport.counter (fst (USBSerialTransport.writeCommand cmd cls s))
  = (USBSerialTransport.counter s + 1) mod 256.
Proof.
  intros Hc. unfold USBSerialTransport.writeCommand.
  unfold bind at 1. unfold USBSerialTransport.with_ser at 1, flushInput at 1.
  cbv beta iota zeta.
  unfold bind at 1. unfold USBSerialTransport.with_ser at 1, flushOutput at 1, ret at 1.
  cbv beta iota zeta.
  unfold bind at 1, get at 1. cbv beta iota zeta.
  unfold bind at 1, lift at 1. cbv beta iota zeta.
  cbn [USBSerialTransport.counter].
  rewrite adduint8_one by exact Hc.
  unfold bind at 1, USBSerialTransport.set_counter at 1. cbv beta iota zeta.
  match goal with
  | |- USBSerialTransport.counter (fst (?m ?s0)) = _ =>
      assert (K : keeps_counter m)
  end.
  { repeat (apply keeps_counter_bind; [auto with counter | intros ?]).
    destruct cls; [|auto with counter].
    apply keeps_counter_bind; [apply keeps_counter_readCommand | intros ?].
    auto with counter. }
  rewrite K. reflexivity.
Qed.

(** C8. Counter wrap: for every counter value [c] in 0..255, the advance
    [_adduint8(c, 1)] done by [writeCommand] before each send yields
    [(c + 1) mod 256], so 255 is followed by 0, and [n] sends in a row take
    the counter to [(c + n) mod 256]: it cycles through all 256 values. *)
Theorem C8_counter_wrap (c : Z) :
  0 <= c <= 255 ->
  _adduint8 c 1 = Return ((c + 1) mod 256)
  /\ (c = 255 -> _adduint8 c 1 = Return 0)
  /\ (forall n, advance_counter n c = Return ((c + Z.of_nat n) mod 256))
  /\ (forall cmd cls s,
        USBSerialTransport.counter s = c ->
        USBSerialTransport.counter (fst (USBSerialTransport.writeCommand cmd cls s))
        = (c + 1) mod 256).
Proof.
  intros Hc. split; [apply adduint8_one; exact Hc|].
  split; [intros ->; reflexivity|].
  split; [intros n; apply advance_counter_mod; exact Hc|].
  intros cmd cls s <-. apply writeCommand_counter. exact Hc.
Qed.

Lemma C8_counter_wrap_witness :
  0 <= 255 <= 255
  /\ _adduint8 255 1 = Return ((255 + 1) mod 256)
  /\ (255 = 255 -> _adduint8 255 1 = Return 0)
  /\ (forall n, advance_counter n 255 = Return ((255 + Z.of_nat n) mod 256))
  /\ (forall cmd cls s,
        USBSerialTransport.counter s = 255 ->
        USBSerialTransport.counter (fst (USBSerialTransport.writeCommand cmd cls s))
        = (255 + 1) mod 256).
Proof.
  split; [lia|]. apply (C8_counter_wrap 255). lia.
Defined.


(** ** The read side of a session *)

Lemma readBlock_timeout ser :
  in_waiting ser = [] -> readBlock ser = (set_in_waiting [] ser, Return None).
Proof.
  intros E. unfold readBlock. unfold bind at 1.
  rewrite (ser_read_timeout 1 ser E). reflexivity.
Qed.

Lemma with_ser_eq {A} (m : M Serial A) s ser' r :
  m (USBSerialTransport.ser s) = (ser', r) ->
  USBSerialTransport.with_ser m s = (set_ser ser' s, r).
Proof. intros E. unfold USBSerialTransport.with_ser. rewrite E. reflexivity. Qed.

Lemma readCommand_timeout cls s :
  in_waiting (USBSerialTransport.ser s) = [] ->
  USBSerialTransport.readCommand cls s
  = (set_ser (set_in_waiting [] (USBSerialTransport.ser s)) s,
     Raise Exception_NoResponse).
Proof.
  intros E. unfold USBSerialTransport.readCommand, USBSerialTransport.readPacket.
  unfold bind at 1. unfold bind at 1.
  rewrite (with_ser_eq _ _ _ _ (readBlock_timeout _ E)). reflexivity.
Qed.

Lemma readPacket_frame s rcmd rcnt body rest :
  len body + 3 < 65536 ->
  in_waiting (USBSerialTransport.ser s) = frame_layout (rcmd :: rcnt :: body) ++ rest ->
  USBSerialTransport.readPacket s
  = (set_ser (set_in_waiting rest (USBSerialTransport.ser s)) s,
     Return (Some (rcmd, rcnt, body))).
Proof.
  intros Hlen Hin.
  assert (Hl : len (rcmd :: rcnt :: body) = len body + 2)
    by (unfold len; simpl; lia).
  pose proof (len_nonneg body) as Hpos.
  assert (Hrd : readBlock (USBSerialTransport.ser s)
                = (set_in_waiting rest (USBSerialTransport.ser s),
                   Return (Some (rcmd :: rcnt :: body)))).
  { rewrite (readBlock_frame _ (rcmd :: rcnt :: body)
               (sum_bytes (rcmd :: rcnt :: body) mod 256) rest).
    - rewrite !land_0xff, Z.mod_mod, Z.eqb_refl by lia. reflexivity.
    - lia.
    - rewrite Hin. unfold frame_layout. rewrite <- !app_assoc. reflexivity. }
  unfold USBSerialTransport.readPacket. unfold bind at 1.
  rewrite (with_ser_eq _ _ _ _ Hrd). rewrite Hl.
  replace (len body + 2 =? 0) with false by (symmetry; apply Z.eqb_neq; lia).
  replace (len body + 2 >=? 2) with true
    by (symmetry; rewrite Z.geb_leb; apply Z.leb_le; lia).
  simpl andb. cbv iota.
  unfold bind at 1, lift. rewrite py_index_head.
  unfold bind at 1.
  rewrite (py_index_lookup (rcmd :: rcnt :: body) 1 rcnt) by (lia || reflexivity).
  unfold ret, py_slice_from, py_clamp. rewrite Hl.
  change (2 <? 0) with false. cbv iota.
  rewrite Z.min_l by lia. reflexivity.
Qed.

Lemma readCommand_frame cls s rcmd rcnt b body rest :
  len body + 4 < 65536 ->
  in_waiting (USBSerialTransport.ser s)
  = frame_layout (rcmd :: rcnt :: b :: body) ++ rest ->
  USBSerialTransport.readCommand cls s
  = (set_ser (set_in_waiting rest (USBSerialTransport.ser s)) s,
     fromBytes cls rcmd rcnt (b :: body)).
Proof.
  intros Hlen Hin. unfold USBSerialTransport.readCommand. unfold bind at 1.
  assert (Hl : len (b :: body) = len body + 1) by (unfold len; simpl; lia).
  rewrite (readPacket_frame s rcmd rcnt (b :: body) rest) by (rewrite ?Hl; auto; lia).
  rewrite Hl. pose proof (len_nonneg body).
  replace (len body + 1 =? 0) with false by (symmetry; apply Z.eqb_neq; lia).
  reflexivity.
Qed.

Lemma readCommand_empty_body cls s rcmd rcnt rest :
  in_waiting (USBSerialTransport.ser s) = frame_layout [rcmd; rcnt] ++ rest ->
  USBSerialTransport.readCommand cls s
  = (set_ser (set_in_waiting rest (USBSerialTransport.ser s)) s,
     Raise Exception_NoResponse).
Proof.
  intros Hin. unfold USBSerialTransport.readCommand. unfold bind at 1.
  rewrite (readPacket_frame s rcmd rcnt [] rest) by (auto; reflexivity).
  reflexivity.
Qed.

(** C9. Empty-body responses: when the frame received carries exactly the
    two bytes [opcode, counter], [readCommand] raises the no-response
    exception instead of delivering a parsed response, which is also what it
    does when the read times out with nothing received. *)
Theorem C9_empty_body_is_no_response (cls : ResponseClass)
    (s : USBSerialTransport.t) (opcode counter : Z) (rest : list Z) :
  in_waiting (USBSerialTransport.ser s) = frame_layout [opcode; counter] ++ rest ->
  snd (USBSerialTransport.readCommand cls s) = Raise Exception_NoResponse
  /\ (forall s0, in_waiting (USBSerialTransport.ser s0) = [] ->
        snd (USBSerialTransport.readCommand cls s0) = Raise Exception_NoResponse).
Proof.
  intros Hin. split.
  - rewrite (readCommand_empty_body cls s opcode counter rest Hin). reflexivity.
  - intros s0 E. rewrite (readCommand_timeout cls s0 E). reflexivity.
Qed.

Lemma C9_empty_body_is_no_response_witness :
  in_waiting (USBSerialTransport.ser
                (set_ser (mkSerial 10000 10000 (frame_layout [0x01; 0x07] ++ [])
                                   [] silent_device) silent_session))
  = frame_layout [0x01; 0x07] ++ []
  /\ snd (USBSerialTransport.readCommand FQueryDevicePacket_Response
            (set_ser (mkSerial 10000 10000 (frame_layout [0x01; 0x07] ++ [])
                               [] silent_device) silent_session))
     = Raise Exception_NoResponse
  /\ (forall s0, in_waiting (USBSerialTransport.ser s0) = [] ->
        snd (USBSerialTransport.readCommand FQueryDevicePacket_Response s0)
        = Raise Exception_NoResponse).
Proof.
  split; [reflexivity|].
  apply (C9_empty_body_is_no_response FQueryDevicePacket_Response
           (set_ser (mkSerial 10000 10000 (frame_layout [0x01; 0x07] ++ [])
                              [] silent_device) silent_session)
           0x01 0x07 []).
  reflexivity.
Defined.


(** ** What a step leaves alone *)

Lemma keeps_ret {S X A} (f : S -> X) (a : A) : keeps f (ret a).
Proof. intros s. reflexivity. Qed.

Lemma keeps_raise {S X A} (f : S -> X) e : keeps f (@raise S A e).
Proof. intros s. reflexivity. Qed.

Lemma keeps_lift {S X A} (f : S -> X) (r : res A) : keeps f (lift r).
Proof. intros s. reflexivity. Qed.

Lemma keeps_get {S X} (f : S -> X) : keeps f get.
Proof. intros s. reflexivity. Qed.

Lemma keeps_bind {S X A B} (f : S -> X) (m : M S A) (k : A -> M S B) :
  keeps f m -> (forall a, keeps f (k a)) -> keeps f (bind m k).
Proof.
  intros Hm Hk s. unfold bind. specialize (Hm s).
  destruct (m s) as [s' [a|e]]; simpl in *; [|exact Hm].
  rewrite Hk. exact Hm.
Qed.

Lemma keeps_written_read n : keeps written (ser_read n).
Proof. intros s. reflexivity. Qed.

Create HintDb keeps.
#[local] Hint Resolve keeps_ret keeps_raise keeps_lift keeps_get
  keeps_written_read : keeps.

Lemma keeps_written_readBlock_loop n : forall i sz crc data,
  keeps written (readBlock_loop n i sz crc data).
Proof.
  induction n as [|n IH]; intros i sz crc data; cbn [readBlock_loop].
  - auto with keeps.
  - apply keeps_bind; [auto with keeps|]. intros [|x raw]; [auto with keeps|].
    apply keeps_bind; [auto with keeps|]. intros ch. apply IH.
Qed.

Lemma keeps_written_readBlock : keeps written readBlock.
Proof.
  unfold readBlock. apply keeps_bind; [auto with keeps|].
  intros [|x raw]; [auto with keeps|].
  apply keeps_bind; [auto with keeps|]. intros magic.
  destruct (negb _); [auto with keeps|].
  apply keeps_bind; [auto with keeps|]. intros raw2.
  destruct (_ || _); [auto with keeps|].
  apply keeps_bind; [auto with keeps|]. intros sz.
  apply keeps_bind; [apply keeps_written_readBlock_loop|].
  intros [[crc data]|]; [|auto with keeps].
  apply keeps_bind; [auto with keeps|]. intros last.
  destruct (negb _); auto with keeps.
Qed.

Lemma keeps_with_ser {X A} (f : Serial -> X) (m : M Serial A) :
  keeps f m ->
  keeps (fun s => f (USBSerialTransport.ser s)) (USBSerialTransport.with_ser m).
Proof.
  intros Hm s. unfold USBSerialTransport.with_ser. specialize (Hm (USBSerialTransport.ser s)).
  destruct (m (USBSerialTransport.ser s)). exact Hm.
Qed.

Lemma keeps_written_readCommand cls :
  keeps (fun s => written (USBSerialTransport.ser s))
        (USBSerialTransport.readCommand cls).
Proof.
  unfold USBSerialTransport.readCommand, USBSerialTransport.readPacket.
  apply keeps_bind.
  - apply keeps_bind; [apply keeps_with_ser, keeps_written_readBlock|].
    intros [data|]; [|auto with keeps].
    destruct (_ && _); [|auto with keeps].
    repeat (apply keeps_bind; [auto with keeps | intros ?]). auto with keeps.
  - intros [[[rcmd rcnt] rdata]|]; [|auto with keeps].
    destruct (len rdata =? 0); auto with keeps.
Qed.

(** ** Sending a command *)

(** [writeCommand] up to the point where the frame is on the wire: the
    counter is advanced, the port holds what the device answered, and what is
    left to do is the read. *)
Lemma writeCommand_sent cmd cls s body :
  0 <= USBSerialTransport.counter s <= 255 ->
  is_byte (cmd_of cmd) = true ->
  toBytes cmd = Return body ->
  forallb is_byte body = true ->
  len body + 2 < 0xFFEF ->
  let c := (USBSerialTransport.counter s + 1) mod 256 in
  exists ser',
    writeBlock (cmd_of cmd :: c :: body) (fst (flushInput (USBSerialTransport.ser s)))
    = (ser', Return tt)
    /\ written ser' = written (USBSerialTransport.ser s)
                      ++ frame_layout (cmd_of cmd :: c :: body)
    /\ USBSerialTransport.writeCommand cmd cls s
       = match cls with
         | Some cls =>
             bind (USBSerialTransport.readCommand cls) (fun r => ret (Some r))
                  (set_counter_ser c ser' s)
         | None => (set_counter_ser c ser' s, Return None)
         end.
Proof.
  intros Hc Hcmd Hbody Hbytes Hlen c.
  assert (Hcb : is_byte c = true)
    by (apply is_byte_range, Z.mod_pos_bound; lia).
  assert (Hpkt : forallb is_byte (cmd_of cmd :: c :: body) = true)
    by (simpl; rewrite Hcmd, Hcb, Hbytes; reflexivity).
  assert (Hl : len (cmd_of cmd :: c :: body) < 0xFFEF)
    by (unfold len in *; simpl length; lia).
  destruct (writeBlock_frame _ (fst (flushInput (USBSerialTransport.ser s))) Hpkt Hl)
    as (ser' & Ew & Hw).
  exists ser'. split; [exact Ew|]. split; [exact Hw|].
  unfold USBSerialTransport.writeCommand.
  unfold bind at 1. unfold USBSerialTransport.with_ser at 1, flushInput at 1.
  cbv beta iota zeta.
  unfold bind at 1. unfold USBSerialTransport.with_ser at 1, flushOutput at 1, ret at 1.
  cbv beta iota zeta.
  unfold bind at 1, get at 1. cbv beta iota zeta.
  unfold bind at 1, lift at 1. cbv beta iota zeta.
  cbn [USBSerialTransport.counter].
  rewrite adduint8_one by exact Hc. fold c.
  unfold bind at 1, USBSerialTransport.set_counter at 1. cbv beta iota zeta.
  unfold bind at 1, lift at 1. cbv beta iota zeta.
  rewrite py_bytes_ok by (simpl; rewrite Hcmd, Hcb; reflexivity).
  unfold bind at 1, lift at 1. cbv beta iota zeta. rewrite Hbody.
  unfold bind at 1. unfold USBSerialTransport.with_ser at 1.
  cbn [USBSerialTransport.ser USBSerialTransport.uri USBSerialTransport.port
       USBSerialTransport.transportType USBSerialTransport.debug
       USBSerialTransport.timeout USBSerialTransport.baudrate
       USBSerialTransport.counter].
  change ([cmd_of cmd; c] ++ body) with (cmd_of cmd :: c :: body).
  unfold flushInput in Ew. cbn [fst] in Ew. rewrite Ew.
  destruct cls; reflexivity.
Qed.


Lemma keeps_bind_from {S X A B} (f : S -> X) (m : M S A) (k : A -> M S B) s :
  (forall a, keeps f (k a)) -> f (fst (bind m k s)) = f (fst (m s)).
Proof.
  intros Hk. unfold bind. destruct (m s) as [s' [a|e]]; simpl; [apply Hk | reflexivity].
Qed.

(** ** Querying a device over a session *)

Lemma fromBytes_queryDevice rcmd rcnt deviceState body :
  12 <= len body ->
  exists fpgaDeviceId progDeviceId,
    fromBytes FQueryDevicePacket_Response rcmd rcnt (deviceState :: body)
    = Return (QueryDevice_Response rcmd rcnt deviceState fpgaDeviceId progDeviceId).
Proof.
  intros Hlen.
  do 12 (destruct body as [|? body]; [unfold len in Hlen; simpl in Hlen; lia|]).
  unfold fromBytes, FEncoding.getInt32.
  repeat (erewrite py_index_lookup by (lia || reflexivity); cbn [res_bind]).
  cbn [progDeviceId_loop].
  repeat (erewrite py_index_lookup by (lia || reflexivity); cbn [res_bind]).
  eexists _, _. reflexivity.
Qed.

Lemma queryDevice_keeps_after (response : option Response) :
  keeps (fun s => written (USBSerialTransport.ser s))
    (match response with
     | Some response =>
         bind (lift (FabricTransport.response_fields response)) (fun f =>
         let '(deviceState, fpgaDeviceId, progDeviceId) := f in
         bind get (fun s : USBSerialTransport.t =>
         ret (Some {|
           status := if deviceState =? 1 then StatusExistsAndValid else Unkown;
           fpgaDeviceId := Some fpgaDeviceId;
           uri := Some (transport_uri s);
           uid := Some (fold_left (fun uid i => (uid +:+ hex_tail i)%string)
                                  progDeviceId EmptyString) |})))
     | None => ret None
     end).
Proof.
  destruct response as [response|]; [|auto with keeps].
  cbv iota. apply keeps_bind; [auto with keeps|]. intros [[deviceState fpga] prog].
  apply keeps_bind; auto with keeps.
Qed.

(** C5, as the code has it.  [queryDevice] on a serial session sends the
    QueryDevice packet [opcode 0x01, counter, 0] in one frame.  When the
    answer is a frame whose body has the thirteen bytes of a query response,
    the device info returned has status [StatusExistsAndValid] if
    [deviceState == 1] and [Unkown] otherwise, and carries the session uri.
    When nothing arrives before the timeout, [queryDevice] raises the
    no-response exception. *)
Theorem C5_queryDevice_session (s : USBSerialTransport.t) :
  0 <= USBSerialTransport.counter s <= 255 ->
  let c := (USBSerialTransport.counter s + 1) mod 256 in
  let packet := [FabricCommands.QueryDevice; c; 0] in
  let reply := reply_to (USBSerialTransport.ser s) packet in
  let run := FabricTransport.queryDevice s in
  written (USBSerialTransport.ser (fst run))
  = written (USBSerialTransport.ser s) ++ frame_layout packet
  /\ (reply = [] -> snd run = Raise Exception_NoResponse)
  /\ (forall rcmd rcnt deviceState body rest,
        reply = frame_layout (rcmd :: rcnt :: deviceState :: body) ++ rest ->
        12 <= len body -> len body + 4 < 65536 ->
        exists info,
          snd run = Return (Some info)
          /\ status info = (if deviceState =? 1 then StatusExistsAndValid else Unkown)
          /\ uri info = Some (USBSerialTransport.uri s)).
Proof.
  intros Hc c packet reply run.
  destruct (writeCommand_sent FQueryDevicePacket (Some FQueryDevicePacket_Response)
              s [0] Hc eq_refl eq_refl eq_refl eq_refl) as (ser' & Ew & Hw & Ecmd).
  fold c in Ew, Hw, Ecmd.
  change (cmd_of FQueryDevicePacket :: c :: [0]) with packet in Ew, Hw.
  assert (Hreply : reply = in_waiting ser').
  { unfold reply, reply_to. rewrite Ew. reflexivity. }
  assert (Hrun : run = bind (USBSerialTransport.writeCommand FQueryDevicePacket
                               (Some FQueryDevicePacket_Response))
                            (fun response => _) s) by reflexivity.
  split; [|split].
  - rewrite Hrun.
    rewrite (keeps_bind_from (fun s => written (USBSerialTransport.ser s)))
      by (intros a; apply queryDevice_keeps_after).
    rewrite Ecmd.
    rewrite (keeps_bind_from (fun s => written (USBSerialTransport.ser s)))
      by (intros a; auto with keeps).
    rewrite keeps_written_readCommand. exact Hw.
  - intros Hnone. rewrite Hrun. unfold bind at 1. rewrite Ecmd.
    unfold bind at 1.
    rewrite readCommand_timeout by (rewrite <- Hnone, Hreply; reflexivity).
    reflexivity.
  - intros rcmd rcnt deviceState body rest Hframe Hlo Hhi.
    destruct (fromBytes_queryDevice rcmd rcnt deviceState body Hlo)
      as (fpga & prog & Efrom).
    rewrite Hrun. unfold bind at 1. rewrite Ecmd.
    unfold bind at 1.
    rewrite (readCommand_frame _ _ rcmd rcnt deviceState body rest Hhi)
      by (rewrite <- Hframe, Hreply; reflexivity).
    rewrite Efrom. unfold ret at 1.
    eexists. split; [reflexivity|]. split; reflexivity.
Qed.

Lemma C5_queryDevice_session_witness :
  0 <= USBSerialTransport.counter silent_session <= 255
  /\ written (USBSerialTransport.ser (fst (FabricTransport.queryDevice silent_session)))
     = written (USBSerialTransport.ser silent_session)
       ++ frame_layout [FabricCommands.QueryDevice;
                        (USBSerialTransport.counter silent_session + 1) mod 256; 0]
  /\ snd (FabricTransport.queryDevice silent_session) = Raise Exception_NoResponse.
Proof.
  split; [simpl; lia|].
  destruct (C5_queryDevice_session silent_session) as (Hsent & Hnone & _).
  - simpl; lia.
  - split; [exact Hsent|]. apply Hnone. reflexivity.
Defined.

(** C5 as stated fails: on a session whose device never answers,
    [queryDevice] does not return [None], it raises. *)
Lemma C5_no_response_is_raised :
  reply_to (USBSerialTransport.ser silent_session) [FabricCommands.QueryDevice; 1; 0] = []
  /\ snd (FabricTransport.queryDevice silent_session) = Raise Exception_NoResponse
  /\ snd (FabricTransport.queryDevice silent_session) <> Return None.
Proof.
  split; [reflexivity|]. split; [vm_compute; reflexivity|].
  vm_compute. discriminate.
Qed.


(** ** Slices and block counts *)

Lemma py_slice_len {A} (l : list A) i b :
  0 <= i -> 0 < b ->
  len (py_slice l i (i + b)) = Z.max 0 (Z.min b (len l - i)).
Proof.
  intros Hi Hb. unfold py_slice, py_clamp. pose proof (len_nonneg l) as Hl.
  replace (i <? 0) with false by (symmetry; apply Z.ltb_ge; lia).
  replace (i + b <? 0) with false by (symmetry; apply Z.ltb_ge; lia).
  unfold len in *. rewrite length_drop, length_take. lia.
Qed.

Lemma len_zero_nil {A} (l : list A) : len l = 0 -> l = [].
Proof. destruct l; [reflexivity | unfold len; simpl; lia]. Qed.

Lemma ceil_div_zero : math_ceil_div 0 (4096 - 32) = 0.
Proof. reflexivity. Qed.

Lemma ceil_div_step x :
  0 < x ->
  math_ceil_div x (4096 - 32)
  = 1 + math_ceil_div (Z.max 0 (x - Z.min (4096 - 32) x)) (4096 - 32).
Proof.
  intros Hx. unfold math_ceil_div. change (4096 - 32) with 4064.
  destruct (Z.eqb_spec (x mod 4064) 0) as [E1|E1];
    destruct (Z.eqb_spec (Z.max 0 (x - Z.min 4064 x) mod 4064) 0) as [E2|E2];
    Z.div_mod_to_equations; lia.
Qed.


(** ** Runs and their exchange logs *)

Lemma run_log_all_ok {A B} l (a : A) (out : res B) :
  run_log l (Return a) -> run_log l out.
Proof.
  intros Hl. remember (Return a) as o eqn:Eo.
  induction Hl as [o | x l o Hx Hl IH | x e Hx]; subst.
  - constructor.
  - apply run_log_ok; auto.
  - discriminate.
Qed.

Lemma run_log_raise {A B} l e :
  run_log l (@Raise A e) -> run_log l (@Raise B e).
Proof.
  intros Hl. remember (@Raise A e) as o eqn:Eo.
  induction Hl as [o | x l o Hx Hl IH | x e' Hx]; subst.
  - constructor.
  - apply run_log_ok; auto.
  - injection Eo as ->. apply run_log_fail. exact Hx.
Qed.

Lemma run_log_app {A B} l1 l2 (a : A) (out : res B) :
  run_log l1 (Return a) -> run_log l2 out -> run_log (l1 ++ l2) out.
Proof.
  intros H1 H2. remember (Return a) as o eqn:Eo.
  induction H1 as [o | x l o Hx Hl IH | x e Hx]; subst.
  - exact H2.
  - simpl. apply run_log_ok; auto.
  - discriminate.
Qed.

(** An exchange that went wrong is the last one, and the run raised what it
    made of it. *)
Lemma run_log_failed_last {A} pre x post (out : res A) e :
  run_log (pre ++ x :: post) out ->
  exchange_outcome x = Raise e ->
  post = [] /\ out = Raise e.
Proof.
  revert out. induction pre as [|y pre IH]; intros out Hl Hx; simpl in Hl.
  - inversion Hl; subst.
    + congruence.
    + split; [reflexivity|]. congruence.
  - inversion Hl; subst.
    + eapply IH; eauto.
    + destruct pre; discriminate.
Qed.


(** ** The programming engine, observed through a recorder *)

Section EngineRuns.
Context {T : Type} `{HT : Transport T}.
Variable zlib_compress : list Z -> list Z.

Lemma send_checked_recorder cmd (r : Recorder T) :
  exists t' o,
    FabricTransport.send_checked cmd r
    = (mkRecorder t' (exchanges r ++ [(cmd, o)]), exchange_outcome (cmd, o)).
Proof.
  unfold FabricTransport.send_checked. unfold bind at 1.
  cbn [writeCommand Recorder_transport].
  destruct (writeCommand cmd (Some FGeneric_Response) (inner r)) as [t' o].
  exists t', o. unfold exchange_outcome. cbn [snd].
  destruct o as [response|e]; [|reflexivity].
  unfold bind, lift. destruct (get_errorCode response) as [code|e]; [|reflexivity].
  destruct (negb (code =? 0)); reflexivity.
Qed.

(** The block loop: what it adds to the log, from any point where it can
    be entered. *)
Lemma programDevice_loop_trace data fuel : forall i blockId blockSz r,
  0 <= i -> 0 < blockSz ->
  blockSz = 4096 - 32 \/ len data <= i ->
  (Z.to_nat (len data - i) < fuel)%nat ->
  exists r' out new,
    FabricTransport.programDevice_loop zlib_compress fuel data i blockId blockSz r
    = (r', out)
    /\ exchanges r' = exchanges r ++ new
    /\ run_log new out
    /\ out <> Return None
    /\ len new <= math_ceil_div (Z.max 0 (len data - i)) (4096 - 32)
    /\ (out = Return (Some tt) ->
        len new = math_ceil_div (Z.max 0 (len data - i)) (4096 - 32))
    /\ (forall j x, new !! j = Some x ->
          is_block (blockId + Z.of_nat j)
                   (Z.min (4096 - 32) (len data - (i + (4096 - 32) * Z.of_nat j)))
                   (fst x)).
Proof.
  induction fuel as [|fuel IH]; intros i blockId blockSz r Hi Hsz Hfull Hfuel;
    [lia|].
  cbn [FabricTransport.programDevice_loop].
  pose proof (py_slice_len data i blockSz Hi Hsz) as Hbl.
  destruct (Z_le_gt_dec (len data) i) as [Hend | Hmore].
  - (* nothing left: the loop breaks *)
    rewrite (len_zero_nil (py_slice data i (i + blockSz))) by lia.
    exists r, (Return (Some tt)), []. unfold ret.
    rewrite app_nil_r, Z.max_l by lia.
    repeat split; try reflexivity; try constructor; try discriminate.
    all: try (rewrite ceil_div_zero; reflexivity).
    all: intros j x Hj; destruct j; discriminate.
  - destruct Hfull as [-> | Hfull]; [|lia].
    destruct (py_slice data i (i + (4096 - 32))) as [|b0 block'] eqn:Eb;
      [change (len (@nil Z)) with 0 in Hbl; lia|].
    set (block := b0 :: block') in *. clearbody block.
    pose proof (len_nonneg block) as Hblock. pose proof (len_nonneg data) as Hdata.
    assert (Hlen : len block = Z.min (4096 - 32) (len data - i)) by lia.
    assert (Hrest : Z.max 0 (len data - (i + len block))
                    = Z.max 0 (len data - i - Z.min (4096 - 32) (len data - i)))
      by lia.
    rewrite (Z.max_r 0 (len data - i)) by lia.
    pose proof (ceil_div_step (len data - i) ltac:(lia)) as Hceil.
    rewrite <- Hrest in Hceil.
    assert (Hn1 : 0 <= math_ceil_div (Z.max 0 (len data - (i + len block))) (4096 - 32)).
    { unfold math_ceil_div. change (4096 - 32) with 4064.
      destruct (_ =? 0); Z.div_mod_to_equations; lia. }
    assert (Hsmall : len block < 4096 - 32 ->
              math_ceil_div (Z.max 0 (len data - (i + len block))) (4096 - 32) = 0).
    { intros Hs. replace (len data - (i + len block)) with 0 by lia. reflexivity. }
    remember (math_ceil_div (len data - i) (4096 - 32)) as n0 eqn:En0.
    remember (math_ceil_div (Z.max 0 (len data - (i + len block))) (4096 - 32))
      as n1 eqn:En1.
    clear En0 Hrest Hbl.
    unfold bind at 1, lift at 1.
    destruct (FabricTransport.compressData zlib_compress block) as [cb|e].
    + (* the block is sent *)
      unfold bind at 1.
      match goal with
      | |- context [FabricTransport.send_checked ?c r] =>
          destruct (send_checked_recorder c r) as (t' & o & Es); rewrite Es;
          remember c as cmd eqn:Ecmd
      end.
      clear Es.
      assert (Hshape : is_block blockId (Z.min (4096 - 32) (len data - i)) cmd).
      { exists (len cb), (Z.land (fold_left Z.add block 0) 255), cb.
        rewrite Ecmd. f_equal. lia. }
      destruct (exchange_outcome (cmd, o)) as [[]|e] eqn:Eo.
      * (* accepted: go on with the next block *)
        destruct (IH (i + len block) (blockId + 1) (len block)
                     (mkRecorder t' (exchanges r ++ [(cmd, o)])))
          as (r' & out & new & El & Hex & Hlog & Hnone & Hle & Hall & Hsh);
          [lia | lia | lia | lia |].
        rewrite <- En1 in Hle, Hall.
        exists r', out, ((cmd, o) :: new). rewrite El.
        assert (Hcons : len ((cmd, o) :: new) = 1 + len new)
          by (unfold len; simpl length; lia).
        split; [reflexivity|]. split.
        { rewrite Hex. cbn [exchanges]. rewrite <- app_assoc. reflexivity. }
        split; [apply run_log_ok; assumption|].
        split; [exact Hnone|].
        split; [lia|]. split; [intros E; specialize (Hall E); lia|].
        intros [|j] x Hj.
        -- injection Hj as <-. cbn [fst].
           replace (blockId + Z.of_nat 0) with blockId by lia.
           replace (i + (4096 - 32) * Z.of_nat 0) with i by lia.
           exact Hshape.
        -- cbn in Hj. specialize (Hsh j x Hj).
           assert (Hnew : 0 < len new).
           { apply lookup_lt_Some in Hj. unfold len. lia. }
           assert (Hblk : len block = 4096 - 32).
           { destruct (Z_lt_le_dec (len block) (4096 - 32)) as [Hs|Hs]; [|lia].
             specialize (Hsmall Hs). lia. }
           replace (blockId + Z.of_nat (S j)) with (blockId + 1 + Z.of_nat j) by lia.
           replace (i + (4096 - 32) * Z.of_nat (S j))
             with (i + len block + (4096 - 32) * Z.of_nat j) by lia.
           exact Hsh.
      * (* refused: the loop is left at once *)
        exists (mkRecorder t' (exchanges r ++ [(cmd, o)])), (Raise e), [(cmd, o)].
        repeat split; try discriminate.
        -- apply run_log_fail. exact Eo.
        -- change (len [(cmd, o)]) with 1. lia.
        -- intros [|j] x Hj; [|destruct j; discriminate].
           injection Hj as <-. cbn [fst].
           replace (blockId + Z.of_nat 0) with blockId by lia.
           replace (i + (4096 - 32) * Z.of_nat 0) with i by lia.
           exact Hshape.
    + (* the block cannot be compressed *)
      exists r, (Raise e), [].
      rewrite app_nil_r.
      repeat split; try discriminate; try constructor.
      all: try (change (len (@nil (FCmd * res (option Response)))) with 0; lia).
      all: try (intros j x Hj; destruct j; discriminate).
Qed.
End EngineRuns.



Section EngineTrace.
Context {T : Type} `{HT : Transport T}.
Variable zlib_compress : list Z -> list Z.

(** A whole run of [programDevice], as the recorder sees it: the Begin
    command, the blocks that were sent, and the Complete command when all
    blocks went through. *)
Lemma programDevice_trace data save (t : T) :
  let L := len data in
  let n := math_ceil_div L (4096 - 32) in
  exists r' out o blocks tail,
    FabricTransport.programDevice zlib_compress data save (mkRecorder t [])
    = (r', out)
    /\ exchanges r'
       = (FProgramDevicePacket (if save then 1 else 0) L n 0, o) :: blocks ++ tail
    /\ run_log (exchanges r') out
    /\ out <> Return None
    /\ len blocks <= n
    /\ (forall j x, blocks !! j = Some x ->
          is_block (Z.of_nat j)
                   (Z.min (4096 - 32) (L - (4096 - 32) * Z.of_nat j)) (fst x))
    /\ (tail = [] \/
        (len blocks = n /\ exists o', tail = [(FProgramCompletePacket, o')]))
    /\ (out = Return (Some true) ->
        len blocks = n /\ exists o', tail = [(FProgramCompletePacket, o')]).
Proof.
  intros L n. pose proof (len_nonneg data) as HL. fold L in HL.
  unfold FabricTransport.programDevice. fold L. fold n.
  set (begin := FProgramDevicePacket (if save then 1 else 0) L n 0).
  unfold bind at 1.
  destruct (send_checked_recorder begin (mkRecorder t [])) as (t1 & o & Es).
  rewrite Es. cbn [exchanges app].
  destruct (exchange_outcome (begin, o)) as [[]|e] eqn:Eo.
  - unfold bind at 1.
    destruct (programDevice_loop_trace zlib_compress data (S (length data))
                0 0 (4096 - 32) (mkRecorder t1 [(begin, o)]))
      as (r2 & out2 & new & El & Hex & Hlog & Hnone & Hle & Hall & Hsh);
      [lia | lia | left; reflexivity | unfold L, len in *; lia |].
    rewrite El. cbn [exchanges] in Hex.
    replace (Z.max 0 (len data - 0)) with L in Hle, Hall by (unfold L; lia).
    fold n in Hle, Hall.
    assert (Hsh' : forall j x, new !! j = Some x ->
              is_block (Z.of_nat j)
                (Z.min (4096 - 32) (L - (4096 - 32) * Z.of_nat j)) (fst x)).
    { intros j x Hj. specialize (Hsh j x Hj).
      rewrite !Z.add_0_l in Hsh. exact Hsh. }
    destruct out2 as [[[]|]|e].
    + (* every block was accepted *)
      unfold bind at 1.
      destruct (send_checked_recorder FProgramCompletePacket r2) as (t3 & o3 & Ec).
      rewrite Ec, Hex.
      destruct (exchange_outcome (FProgramCompletePacket, o3)) as [[]|e] eqn:Eo3.
      * exists (mkRecorder t3 (((begin, o) :: new) ++ [(FProgramCompletePacket, o3)])),
          (Return (Some true)), o, new, [(FProgramCompletePacket, o3)].
        unfold ret. cbn [exchanges].
        split; [reflexivity|]. split; [reflexivity|]. split.
        { cbn [app]. apply run_log_ok; [exact Eo|].
          apply (run_log_app new _ (Some tt)); [exact Hlog|].
          apply run_log_ok; [exact Eo3 | constructor]. }
        split; [discriminate|]. split; [exact Hle|]. split; [exact Hsh'|].
        split; [right|intros _]; (split; [apply Hall; reflexivity | eauto]).
      * exists (mkRecorder t3 (((begin, o) :: new) ++ [(FProgramCompletePacket, o3)])),
          (Raise e), o, new, [(FProgramCompletePacket, o3)].
        cbn [exchanges].
        split; [reflexivity|]. split; [reflexivity|]. split.
        { cbn [app]. apply run_log_ok; [exact Eo|].
          apply (run_log_app new _ (Some tt)); [exact Hlog|].
          apply run_log_fail. exact Eo3. }
        split; [discriminate|]. split; [exact Hle|]. split; [exact Hsh'|].
        split; [right|discriminate]. split; [apply Hall; reflexivity | eauto].
    + contradiction Hnone. reflexivity.
    + (* the loop raised *)
      exists r2, (Raise e), o, new, []. rewrite Hex, app_nil_r.
      split; [reflexivity|]. split; [reflexivity|]. split.
      { cbn [app]. apply run_log_ok; [exact Eo|].
        apply (run_log_raise new e Hlog). }
      split; [discriminate|]. split; [exact Hle|]. split; [exact Hsh'|].
      split; [left; reflexivity | discriminate].
  - (* Begin was refused *)
    exists (mkRecorder t1 [(begin, o)]), (Raise e), o, [], [].
    cbn [exchanges app].
    assert (Hn : 0 <= n).
    { unfold n, math_ceil_div. change (4096 - 32) with 4064.
      destruct (_ =? 0); Z.div_mod_to_equations; lia. }
    split; [reflexivity|]. split; [reflexivity|].
    split; [apply run_log_fail; exact Eo|].
    split; [discriminate|]. split; [exact Hn|].
    split; [intros j x Hj; destruct j; discriminate|].
    split; [left; reflexivity | discriminate].
Qed.
End EngineTrace.

(** C2. Abort on error: in any run of [programDevice], over any transport,
    if the response to a ProgramBlock command carries a nonzero errorCode
    then that exchange is the last of the run (no further ProgramBlock and
    no ProgramComplete is sent, nothing is sent again) and [programDevice]
    raises with that code. *)
Theorem C2_abort_on_error {T : Type} `{HT : Transport T}
    (zlib_compress : list Z -> list Z) (t : T) (bitstreamData : list Z)
    (saveToFlash : bool) (pre post : list (FCmd * res (option Response)))
    (blockCmd : FCmd) (response : Response) (code : Z) :
  exchanges (fst (FabricTransport.programDevice zlib_compress bitstreamData
                    saveToFlash (mkRecorder t [])))
  = pre ++ (blockCmd, Return (Some response)) :: post ->
  cmd_of blockCmd = FabricCommands.ProgramBlock ->
  get_errorCode (Some response) = Return code ->
  code <> 0 ->
  snd (FabricTransport.programDevice zlib_compress bitstreamData saveToFlash
         (mkRecorder t []))
  = Raise (Exception_DeviceFailed code)
  /\ post = [].
Proof.
  intros Hex _ Hcode Hne.
  destruct (programDevice_trace zlib_compress bitstreamData saveToFlash t)
    as (r' & out & o & blocks & tail & Erun & _ & Hlog & _).
  rewrite Erun in Hex |- *. cbn [fst snd] in *.
  rewrite Hex in Hlog.
  assert (Hx : exchange_outcome (blockCmd, Return (Some response))
               = Raise (Exception_DeviceFailed code)).
  { unfold exchange_outcome. cbn [snd]. rewrite Hcode.
    replace (code =? 0) with false by (symmetry; apply Z.eqb_neq; exact Hne).
    reflexivity. }
  destruct (run_log_failed_last _ _ _ _ _ Hlog Hx) as [-> ->]. auto.
Qed.

Lemma C2_abort_on_error_witness :
  exchanges (fst (FabricTransport.programDevice (fun l => l) [1; 2; 3] false
                    (mkRecorder (mkScripted [0; 7]) [])))
  = [(FProgramDevicePacket 0 3 1 0, Return (Some (Generic_Response 2 0 0)))]
    ++ (FQueryProgramBlock 0 5 3 6 [0; 3; 1; 2; 3],
        Return (Some (Generic_Response 3 0 7))) :: []
  /\ cmd_of (FQueryProgramBlock 0 5 3 6 [0; 3; 1; 2; 3]) = FabricCommands.ProgramBlock
  /\ get_errorCode (Some (Generic_Response 3 0 7)) = Return 7
  /\ 7 <> 0
  /\ snd (FabricTransport.programDevice (fun l => l) [1; 2; 3] false
            (mkRecorder (mkScripted [0; 7]) []))
     = Raise (Exception_DeviceFailed 7)
  /\ @nil (FCmd * res (option Response)) = [].
Proof.
  split; [reflexivity|]. split; [reflexivity|]. split; [reflexivity|].
  split; [discriminate|].
  apply (C2_abort_on_error (fun l => l) (mkScripted [0; 7]) [1; 2; 3] false
           [(FProgramDevicePacket 0 3 1 0, Return (Some (Generic_Response 2 0 0)))]
           []
           (FQueryProgramBlock 0 5 3 6 [0; 3; 1; 2; 3])
           (Generic_Response 3 0 7) 7).
  - reflexivity.
  - reflexivity.
  - reflexivity.
  - discriminate.
Defined.




(** ** The recorder only observes *)

Section RecorderFaithful.
Context {T : Type} `{HT : Transport T}.
Variable zlib_compress : list Z -> list Z.

Lemma observes_ret {A} (a : A) : observes (T := T) (ret a) (ret a).
Proof. intros r. reflexivity. Qed.

Lemma observes_raise {A} e : observes (T := T) (@raise _ A e) (raise e).
Proof. intros r. reflexivity. Qed.

Lemma observes_lift {A} (x : res A) : observes (T := T) (lift x) (lift x).
Proof. intros r. reflexivity. Qed.

Lemma observes_bind {A B} (m1 : M (Recorder T) A) (m2 : M T A)
    (k1 : A -> M (Recorder T) B) (k2 : A -> M T B) :
  observes m1 m2 -> (forall a, observes (k1 a) (k2 a)) ->
  observes (bind m1 k1) (bind m2 k2).
Proof.
  intros Hm Hk r. unfold bind. rewrite (Hm r).
  destruct (m1 r) as [r1 [a|e]]; cbn [fst snd]; [apply Hk | reflexivity].
Qed.

Lemma observes_writeCommand cmd cls :
  observes (T := T) (writeCommand cmd cls) (writeCommand cmd cls).
Proof.
  intros r. cbn [writeCommand Recorder_transport].
  destruct (writeCommand cmd cls (inner r)) as [t' o]. reflexivity.
Qed.

Lemma observes_send_checked cmd :
  observes (T := T) (FabricTransport.send_checked cmd)
           (FabricTransport.send_checked cmd).
Proof.
  unfold FabricTransport.send_checked.
  apply observes_bind; [apply observes_writeCommand|]. intros response.
  apply observes_bind; [apply observes_lift|]. intros code.
  destruct (negb (code =? 0)); [apply observes_raise | apply observes_ret].
Qed.

Lemma observes_programDevice_loop data fuel : forall i blockId blockSz,
  observes (T := T)
    (FabricTransport.programDevice_loop zlib_compress fuel data i blockId blockSz)
    (FabricTransport.programDevice_loop zlib_compress fuel data i blockId blockSz).
Proof.
  induction fuel as [|fuel IH]; intros i blockId blockSz;
    cbn [FabricTransport.programDevice_loop].
  - apply observes_ret.
  - destruct (py_slice data i (i + blockSz)) as [|b0 block]; [apply observes_ret|].
    apply observes_bind; [apply observes_lift|]. intros compressedBlock.
    apply observes_bind; [apply observes_send_checked|]. intros _. apply IH.
Qed.

(** Running [programDevice] through a recorder gives the result and the
    final transport of running it on the transport itself. *)
Lemma observes_programDevice data save :
  observes (T := T) (FabricTransport.programDevice zlib_compress data save)
           (FabricTransport.programDevice zlib_compress data save).
Proof.
  unfold FabricTransport.programDevice.
  apply observes_bind; [apply observes_send_checked|]. intros _.
  apply observes_bind; [apply observes_programDevice_loop|]. intros [[]|].
  - apply observes_bind; [apply observes_send_checked|]. intros _.
    apply observes_ret.
  - apply observes_ret.
Qed.
End RecorderFaithful.

(** ** Discovery *)

Lemma collect_returns minCnt info devices s :
  exists p, snd (FabricService.collect minCnt info devices s) = Return p.
Proof.
  unfold FabricService.collect. destruct info as [d|]; [|eexists; reflexivity].
  unfold bind, FabricService.addDeviceCache.
  destruct (uri (obj_info d)) as [[|c u]|]; unfold ret, modify; cbn;
    destruct minCnt as [n|]; try (eexists; reflexivity);
    destruct (_ >=? n); eexists; reflexivity.
Qed.

(** The "query all" pass never raises, whatever the ports do: every failing
    query is swallowed by its [try]. *)
Lemma query_all_pass_returns w minCnt fastMode deviceUris :
  forall devices s,
    exists p, snd (FabricService.query_all_pass w minCnt fastMode deviceUris devices s)
              = Return p.
Proof.
  induction deviceUris as [|u rest IH]; intros devices s;
    cbn [FabricService.query_all_pass].
  - eexists. reflexivity.
  - unfold bind at 1. unfold try_except.
    match goal with
    | |- context [bind (FabricService.queryDevice w u fastMode) ?k s] =>
        destruct (bind (FabricService.queryDevice w u fastMode) k s)
          as [s1 [p|e]] eqn:E
    end.
    + destruct p as [devices'|devices']; [apply IH | eexists; reflexivity].
    + unfold ret. apply IH.
Qed.

(** C6, at a failing input.  One responsive device and no minimum count:
    every pass that reaches the device constructs a new [FabricDeviceInfo],
    which the identity test [not deviceInfo in devices] never finds in the
    list, so the same uri is returned once per pass: three times when the
    port matches a preferred pattern, twice when it does not. *)
Theorem C6_listDevices_repeats_uri :
  uris_of (snd (FabricService.listDevices host_one_preferred_device None
                  FabricService.default_transportTypes FabricService.new))
  = Return [Some "usbserial:///dev/ttyACM0"%string;
            Some "usbserial:///dev/ttyACM0"%string;
            Some "usbserial:///dev/ttyACM0"%string]
  /\ uris_of (snd (FabricService.listDevices host_one_device None
                     FabricService.default_transportTypes FabricService.new))
     = Return [Some "usbserial:///dev/ttyUSB0"%string;
               Some "usbserial:///dev/ttyUSB0"%string].
Proof. split; vm_compute; reflexivity. Qed.

(** C7, at a failing input.  On a Linux host whose first preferred port
    opens but stays silent, the query of the fast-preferred pass is not
    inside a [try]: its no-response exception leaves [listDevices], and the
    responsive device on the second port is never reached.  The same ports
    on a platform without preferred patterns go through the "query all"
    passes only, where the failure is swallowed and the device is found. *)
Theorem C7_preferred_pass_aborts_scan :
  snd (FabricService.listDevices host_silent_then_device None
         FabricService.default_transportTypes FabricService.new)
  = Raise Exception_NoResponse
  /\ uris_of (snd (FabricService.listDevices host_silent_then_device_windows None
                     FabricService.default_transportTypes FabricService.new))
     = Return [Some "usbserial:///dev/ttyACM1"%string;
               Some "usbserial:///dev/ttyACM1"%string].
Proof. split; vm_compute; reflexivity. Qed.


(** * Further properties of the code *)

(** ** Integer encodings *)

Lemma land_shifted_zero a b n :
  0 <= n -> 0 <= a < 2 ^ n -> Z.land a (Z.shiftl b n) = 0.
Proof.
  intros Hn Ha. apply Z.bits_inj'. intros i Hi.
  rewrite Z.land_spec, Z.bits_0.
  destruct (Z_lt_le_dec i n) as [Hlt | Hge].
  - rewrite (Z.shiftl_spec_low b n i Hlt). apply andb_false_r.
  - replace a with (a mod 2 ^ n) by (apply Z.mod_small; exact Ha).
    rewrite Z.mod_pow2_bits_high by lia. reflexivity.
Qed.

Lemma lor_shifted_add a b n :
  0 <= n -> 0 <= a < 2 ^ n -> Z.lor a (Z.shiftl b n) = a + b * 2 ^ n.
Proof.
  intros Hn Ha.
  rewrite <- Z.lxor_lor by (apply land_shifted_zero; assumption).
  rewrite <- Z.add_nocarry_lxor by (apply land_shifted_zero; assumption).
  rewrite Z.shiftl_mul_pow2 by exact Hn. reflexivity.
Qed.

Lemma masked_byte v k :
  0 <= k ->
  Z.shiftr (Z.land v (Z.shiftl 0xff k)) k = (v / 2 ^ k) mod 256.
Proof.
  intros Hk. rewrite Z.shiftr_land, Z.shiftr_shiftl_l by exact Hk.
  rewrite Z.sub_diag, Z.shiftl_0_r, land_0xff, Z.shiftr_div_pow2 by exact Hk.
  reflexivity.
Qed.

Lemma encodeInt16_bytes v :
  FEncoding.encodeInt16 v = [v mod 256; (v / 256) mod 256].
Proof.
  unfold FEncoding.encodeInt16.
  change 0xff with (Z.shiftl 0xff 0) at 1. change 0xff00 with (Z.shiftl 0xff 8).
  rewrite !masked_byte by lia. rewrite Z.div_1_r. reflexivity.
Qed.

Lemma encodeInt32_bytes v :
  FEncoding.encodeInt32 v
  = [v mod 256; (v / 256) mod 256; (v / 65536) mod 256; (v / 16777216) mod 256].
Proof.
  unfold FEncoding.encodeInt32.
  change 0xff with (Z.shiftl 0xff 0) at 1. change 0xff00 with (Z.shiftl 0xff 8).
  change 0xff0000 with (Z.shiftl 0xff 16). change 0xff000000 with (Z.shiftl 0xff 24).
  rewrite !masked_byte by lia. rewrite Z.div_1_r. reflexivity.
Qed.

Lemma py_index_app_r l1 l2 i :
  0 <= i -> py_index (l1 ++ l2) (len l1 + i) = py_index l2 i.
Proof.
  intros Hi. unfold py_index. rewrite len_app. pose proof (len_nonneg l1) as H1.
  replace (len l1 + i <? 0) with false by (symmetry; apply Z.ltb_ge; lia).
  replace (i <? 0) with false by (symmetry; apply Z.ltb_ge; lia).
  replace (0 <=? len l1 + i) with true by (symmetry; apply Z.leb_le; lia).
  replace (0 <=? i) with true by (symmetry; apply Z.leb_le; lia).
  replace (len l1 + i <? len l1 + len l2) with (i <? len l2)
    by (destruct (Z.ltb_spec i (len l2)); symmetry;
        [apply Z.ltb_lt | apply Z.ltb_ge]; lia).
  replace (Z.to_nat (len l1 + i)) with (length l1 + Z.to_nat i)%nat
    by (unfold len; lia).
  rewrite lookup_app_r by lia.
  replace (length l1 + Z.to_nat i - length l1)%nat with (Z.to_nat i) by lia.
  reflexivity.
Qed.

Lemma decodeInt16_bytes b0 b1 tail :
  0 <= b0 < 256 ->
  FEncoding.decodeInt16 (b0 :: b1 :: tail) 0 = Return (b0 + b1 * 256).
Proof.
  intros H0. unfold FEncoding.decodeInt16.
  rewrite py_index_head.
  rewrite (py_index_lookup _ (0 + 1) b1) by (lia || reflexivity).
  cbn [res_bind]. rewrite Z.shiftl_0_r.
  rewrite (lor_shifted_add b0 b1 8) by lia. reflexivity.
Qed.

Lemma getInt32_bytes b0 b1 b2 b3 tail :
  0 <= b0 < 256 -> 0 <= b1 < 256 -> 0 <= b2 < 256 ->
  FEncoding.getInt32 (b0 :: b1 :: b2 :: b3 :: tail) 0
  = Return (b0 + b1 * 256 + b2 * 65536 + b3 * 16777216).
Proof.
  intros H0 H1 H2. unfold FEncoding.getInt32.
  rewrite py_index_head.
  rewrite (py_index_lookup _ (0 + 1) b1) by (lia || reflexivity).
  rewrite (py_index_lookup _ (0 + 2) b2) by (lia || reflexivity).
  rewrite (py_index_lookup _ (0 + 3) b3) by (lia || reflexivity).
  cbn [res_bind]. rewrite Z.shiftl_0_r.
  rewrite (lor_shifted_add b0 b1 8) by lia.
  rewrite (lor_shifted_add (b0 + b1 * 2 ^ 8) b2 16) by lia.
  rewrite (lor_shifted_add (b0 + b1 * 2 ^ 8 + b2 * 2 ^ 16) b3 24) by lia.
  reflexivity.
Qed.

Lemma getInt32_shift l1 l2 i :
  0 <= i ->
  FEncoding.getInt32 (l1 ++ l2) (len l1 + i) = FEncoding.getInt32 l2 i.
Proof.
  intros Hi. unfold FEncoding.getInt32.
  rewrite <- !Z.add_assoc, !py_index_app_r by lia. reflexivity.
Qed.

Lemma decodeInt16_shift l1 l2 i :
  0 <= i ->
  FEncoding.decodeInt16 (l1 ++ l2) (len l1 + i) = FEncoding.decodeInt16 l2 i.
Proof.
  intros Hi. unfold FEncoding.decodeInt16.
  rewrite <- !Z.add_assoc, !py_index_app_r by lia. reflexivity.
Qed.

Lemma encodeInt16_is_bytes value : forallb is_byte (FEncoding.encodeInt16 value) = true.
Proof.
  rewrite encodeInt16_bytes.
  pose proof (Z.mod_pos_bound value 256 ltac:(lia)) as H0.
  pose proof (Z.mod_pos_bound (value / 256) 256 ltac:(lia)) as H1.
  cbn [forallb]. rewrite !(proj2 (is_byte_range _)) by assumption. reflexivity.
Qed.

Lemma encodeInt32_is_bytes value : forallb is_byte (FEncoding.encodeInt32 value) = true.
Proof.
  rewrite encodeInt32_bytes.
  pose proof (Z.mod_pos_bound value 256 ltac:(lia)) as H0.
  pose proof (Z.mod_pos_bound (value / 256) 256 ltac:(lia)) as H1.
  pose proof (Z.mod_pos_bound (value / 65536) 256 ltac:(lia)) as H2.
  pose proof (Z.mod_pos_bound (value / 16777216) 256 ltac:(lia)) as H3.
  cbn [forallb]. rewrite !(proj2 (is_byte_range _)) by assumption. reflexivity.
Qed.

Lemma decodeInt16_encodeInt16 value before after :
  FEncoding.decodeInt16 (before ++ FEncoding.encodeInt16 value ++ after) (len before)
  = Return (value mod 65536).
Proof.
  rewrite encodeInt16_bytes.
  pose proof (Z.mod_pos_bound value 256 ltac:(lia)) as H0.
  rewrite <- (Z.add_0_r (len before)), decodeInt16_shift by lia.
  cbn [app]. rewrite decodeInt16_bytes by exact H0. f_equal.
  Z.div_mod_to_equations. lia.
Qed.

Lemma getInt32_encodeInt32 value before after :
  FEncoding.getInt32 (before ++ FEncoding.encodeInt32 value ++ after) (len before)
  = Return (value mod 4294967296).
Proof.
  rewrite encodeInt32_bytes.
  pose proof (Z.mod_pos_bound value 256 ltac:(lia)) as H0.
  pose proof (Z.mod_pos_bound (value / 256) 256 ltac:(lia)) as H1.
  pose proof (Z.mod_pos_bound (value / 65536) 256 ltac:(lia)) as H2.
  rewrite <- (Z.add_0_r (len before)), getInt32_shift by lia.
  cbn [app]. rewrite getInt32_bytes by assumption. f_equal.
  Z.div_mod_to_equations. lia.
Qed.

(** X1. [encodeInt16] keeps the low 16 bits of any integer, negative or too
    large alike, and never fails; [decodeInt16] reads them back wherever the
    two bytes sit in a buffer. *)
Theorem X1_int16_roundtrip (value : Z) (before after : list Z) :
  FEncoding.decodeInt16 (before ++ FEncoding.encodeInt16 value ++ after) (len before)
  = Return (value mod 65536)
  /\ forallb is_byte (FEncoding.encodeInt16 value) = true.
Proof. split; [apply decodeInt16_encodeInt16 | apply encodeInt16_is_bytes]. Qed.

(** X2. [encodeInt32] keeps the low 32 bits of any integer and never fails;
    [getInt32] reads them back as a value in 0 .. 2^32 - 1, so what went in
    negative comes out positive. *)
Theorem X2_int32_roundtrip (value : Z) (before after : list Z) :
  FEncoding.getInt32 (before ++ FEncoding.encodeInt32 value ++ after) (len before)
  = Return (value mod 4294967296)
  /\ forallb is_byte (FEncoding.encodeInt32 value) = true.
Proof. split; [apply getInt32_encodeInt32 | apply encodeInt32_is_bytes]. Qed.

(** X3. [_adduint8] on two bytes is addition modulo 256 in every case but
    one: [255 + 255] gives [-1]; an operand outside 0..255 trips the
    assertion. *)
Theorem X3_adduint8_cases (a b : Z) :
  (0 <= a <= 255 -> 0 <= b <= 255 -> a + b < 510 ->
     _adduint8 a b = Return ((a + b) mod 256))
  /\ _adduint8 255 255 = Return (-1)
  /\ (~ (0 <= a <= 255 /\ 0 <= b <= 255) -> _adduint8 a b = Raise AssertionError).
Proof.
  split; [|split].
  - intros Ha Hb Hs. unfold _adduint8.
    replace ((0 <=? a) && (a <=? 0xff)) with true
      by (symmetry; apply andb_true_iff; split; apply Z.leb_le; lia).
    replace ((0 <=? b) && (b <=? 0xff)) with true
      by (symmetry; apply andb_true_iff; split; apply Z.leb_le; lia).
    cbn [negb]. destruct (Z.gtb_spec (a + b) 0xff) as [Hgt|Hle]; f_equal.
    + Z.div_mod_to_equations. lia.
    + rewrite Z.mod_small by lia. reflexivity.
  - reflexivity.
  - intros Hout. unfold _adduint8.
    destruct ((0 <=? a) && (a <=? 0xff)) eqn:Ea; [|reflexivity].
    destruct ((0 <=? b) && (b <=? 0xff)) eqn:Eb; [|reflexivity].
    exfalso. apply Hout.
    apply andb_true_iff in Ea as [Ea1 Ea2]. apply andb_true_iff in Eb as [Eb1 Eb2].
    apply Z.leb_le in Ea1, Ea2, Eb1, Eb2. lia.
Qed.


(** ** Command bodies on the wire *)

Lemma len_encodeInt32 v : len (FEncoding.encodeInt32 v) = 4.
Proof. reflexivity. Qed.

Lemma len_encodeInt16 v : len (FEncoding.encodeInt16 v) = 2.
Proof. reflexivity. Qed.

Lemma forallb_app_true {A} (f : A -> bool) l1 l2 :
  forallb f l1 = true -> forallb f l2 = true -> forallb f (l1 ++ l2) = true.
Proof. intros H1 H2. rewrite forallb_app, H1, H2. reflexivity. Qed.

(** X4. The body of a ProgramDevice command is eleven bytes: the
    [saveToFlash] byte, then [totalSize] and [blockCount] as little-endian
    32-bit values and [bitstreamCrc] as a 16-bit value, each cut to its
    width. *)
Theorem X4_programDevice_body (saveToFlash totalSize blockCount bitstreamCrc : Z) :
  is_byte saveToFlash = true ->
  exists body,
    toBytes (FProgramDevicePacket saveToFlash totalSize blockCount bitstreamCrc)
    = Return body
    /\ len body = 11
    /\ forallb is_byte body = true
    /\ py_index body 0 = Return saveToFlash
    /\ FEncoding.getInt32 body 1 = Return (totalSize mod 4294967296)
    /\ FEncoding.getInt32 body 5 = Return (blockCount mod 4294967296)
    /\ FEncoding.decodeInt16 body 9 = Return (bitstreamCrc mod 65536).
Proof.
  intros Hs. unfold toBytes.
  rewrite py_bytes_ok by (cbn [forallb]; rewrite Hs; reflexivity).
  cbn [res_bind]. eexists. split; [reflexivity|].
  split; [reflexivity|]. split.
  { repeat apply forallb_app_true;
      [cbn [forallb]; rewrite Hs; reflexivity | apply encodeInt32_is_bytes
       | apply encodeInt32_is_bytes | apply encodeInt16_is_bytes]. }
  split; [apply py_index_head|]. split; [|split].
  - apply (getInt32_encodeInt32 totalSize [saveToFlash]).
  - rewrite app_assoc.
    apply (getInt32_encodeInt32 blockCount
             ([saveToFlash] ++ FEncoding.encodeInt32 totalSize)).
  - rewrite !app_assoc, <- (app_nil_r (FEncoding.encodeInt16 bitstreamCrc)).
    rewrite <- !app_assoc, (app_assoc [saveToFlash]), (app_assoc (_ ++ _)).
    apply (decodeInt16_encodeInt16 bitstreamCrc
             (([saveToFlash] ++ FEncoding.encodeInt32 totalSize)
                ++ FEncoding.encodeInt32 blockCount) []).
Qed.

Lemma X4_programDevice_body_witness :
  is_byte 1 = true
  /\ exists body,
       toBytes (FProgramDevicePacket 1 100 1 0) = Return body
       /\ len body = 11
       /\ forallb is_byte body = true
       /\ py_index body 0 = Return 1
       /\ FEncoding.getInt32 body 1 = Return (100 mod 4294967296)
       /\ FEncoding.getInt32 body 5 = Return (1 mod 4294967296)
       /\ FEncoding.decodeInt16 body 9 = Return (0 mod 65536).
Proof.
  split; [reflexivity|]. apply (X4_programDevice_body 1 100 1 0). reflexivity.
Defined.

(** X5. The body of a ProgramBlock command is a seven-byte header followed
    by the compressed block unchanged: [blockId], [compressedSize] and
    [rawSize] as little-endian 16-bit values, each cut to 16 bits, then the
    checksum byte. *)
Theorem X5_programBlock_body
    (blockId compressedBlockSz blockSz blockCrc : Z) (bitStreamBlock : list Z) :
  is_byte blockCrc = true ->
  exists body,
    toBytes (FQueryProgramBlock blockId compressedBlockSz blockSz blockCrc
                                bitStreamBlock) = Return body
    /\ len body = 7 + len bitStreamBlock
    /\ FEncoding.decodeInt16 body 0 = Return (blockId mod 65536)
    /\ FEncoding.decodeInt16 body 2 = Return (compressedBlockSz mod 65536)
    /\ FEncoding.decodeInt16 body 4 = Return (blockSz mod 65536)
    /\ py_index body 6 = Return blockCrc
    /\ py_slice_from body 7 = bitStreamBlock.
Proof.
  intros Hc. unfold toBytes.
  rewrite py_bytes_ok by (cbn [forallb]; rewrite Hc; reflexivity).
  cbn [res_bind]. eexists. split; [reflexivity|].
  rewrite app_nil_l.
  split.
  { rewrite !len_app, !len_encodeInt16. change (len [blockCrc]) with 1. lia. }
  split; [apply (decodeInt16_encodeInt16 blockId [])|].
  split.
  { apply (decodeInt16_encodeInt16 compressedBlockSz (FEncoding.encodeInt16 blockId)). }
  split.
  { rewrite app_assoc.
    apply (decodeInt16_encodeInt16 blockSz
             (FEncoding.encodeInt16 blockId ++ FEncoding.encodeInt16 compressedBlockSz)). }
  split.
  { rewrite !app_assoc, <- app_assoc.
    change 6 with (len ((FEncoding.encodeInt16 blockId
                           ++ FEncoding.encodeInt16 compressedBlockSz)
                          ++ FEncoding.encodeInt16 blockSz) + 0).
    rewrite py_index_app_r by lia. apply py_index_head. }
  unfold py_slice_from, py_clamp. rewrite !len_app, !len_encodeInt16.
  change (len [blockCrc]) with 1. pose proof (len_nonneg bitStreamBlock).
  change (7 <? 0) with false. cbv iota. rewrite Z.min_l by lia.
  reflexivity.
Qed.

Lemma X5_programBlock_body_witness :
  is_byte 6 = true
  /\ exists body,
       toBytes (FQueryProgramBlock 0 5 3 6 [0; 3; 1; 2; 3]) = Return body
       /\ len body = 7 + len [0; 3; 1; 2; 3]
       /\ FEncoding.decodeInt16 body 0 = Return (0 mod 65536)
       /\ FEncoding.decodeInt16 body 2 = Return (5 mod 65536)
       /\ FEncoding.decodeInt16 body 4 = Return (3 mod 65536)
       /\ py_index body 6 = Return 6
       /\ py_slice_from body 7 = [0; 3; 1; 2; 3].
Proof.
  split; [reflexivity|].
  apply (X5_programBlock_body 0 5 3 6 [0; 3; 1; 2; 3]). reflexivity.
Defined.


(** ** Response bodies *)

Lemma py_index_in l i :
  0 <= i < len l -> exists x, py_index l i = Return x.
Proof.
  intros Hi.
  destruct (lookup_lt_is_Some_2 l (Z.to_nat i)) as [x Hx]; [unfold len in Hi; lia|].
  exists x. apply py_index_lookup; [lia | exact Hx].
Qed.

Lemma py_index_out l i :
  0 <= i -> len l <= i -> py_index l i = Raise IndexError.
Proof.
  intros Hi Hl. unfold py_index.
  replace (i <? 0) with false by (symmetry; apply Z.ltb_ge; lia).
  replace (i <? len l) with false by (symmetry; apply Z.ltb_ge; lia).
  rewrite andb_false_r. reflexivity.
Qed.

Lemma getInt32_long l off :
  0 <= off -> off + 4 <= len l -> exists v, FEncoding.getInt32 l off = Return v.
Proof.
  intros Ho Hl. unfold FEncoding.getInt32.
  destruct (py_index_in l (off + 0)) as [b0 ->]; [lia|].
  destruct (py_index_in l (off + 1)) as [b1 ->]; [lia|].
  destruct (py_index_in l (off + 2)) as [b2 ->]; [lia|].
  destruct (py_index_in l (off + 3)) as [b3 ->]; [lia|].
  eexists. reflexivity.
Qed.

Lemma getInt32_short l off :
  0 <= off -> len l < off + 4 -> FEncoding.getInt32 l off = Raise IndexError.
Proof.
  intros Ho Hl. unfold FEncoding.getInt32.
  destruct (Z_lt_le_dec (off + 0) (len l)) as [H0|H0];
    [destruct (py_index_in l (off + 0)) as [b0 ->]; [lia|]
    | rewrite (py_index_out l (off + 0)) by lia; reflexivity].
  destruct (Z_lt_le_dec (off + 1) (len l)) as [H1|H1];
    [destruct (py_index_in l (off + 1)) as [b1 ->]; [lia|]
    | rewrite (py_index_out l (off + 1)) by lia; reflexivity].
  destruct (Z_lt_le_dec (off + 2) (len l)) as [H2|H2];
    [destruct (py_index_in l (off + 2)) as [b2 ->]; [lia|]
    | rewrite (py_index_out l (off + 2)) by lia; reflexivity].
  cbn [res_bind]. rewrite (py_index_out l (off + 3)) by lia. reflexivity.
Qed.

Lemma progDeviceId_loop_long data n : forall i acc,
  0 <= i -> i + 5 + Z.of_nat n <= len data ->
  exists ids, progDeviceId_loop data n i acc = Return ids.
Proof.
  induction n as [|n IH]; intros i acc Hi Hl; cbn [progDeviceId_loop].
  - eexists. reflexivity.
  - destruct (py_index_in data (i + 1 + 4)) as [b ->]; [lia|].
    cbn [res_bind]. apply IH; lia.
Qed.

Lemma progDeviceId_loop_short data n : forall i acc,
  0 <= i -> (0 < n)%nat -> len data < i + 5 + Z.of_nat n ->
  progDeviceId_loop data n i acc = Raise IndexError.
Proof.
  induction n as [|n IH]; intros i acc Hi Hn Hl; cbn [progDeviceId_loop]; [lia|].
  destruct (Z_lt_le_dec (i + 1 + 4) (len data)) as [Hin|Hout].
  - destruct (py_index_in data (i + 1 + 4)) as [b ->]; [lia|].
    cbn [res_bind]. apply IH; lia.
  - rewrite py_index_out by lia. reflexivity.
Qed.

Lemma fromBytes_short cls rcmd rcnt data :
  len data < body_size cls -> fromBytes cls rcmd rcnt data = Raise IndexError.
Proof.
  intros Hl. pose proof (len_nonneg data) as H0.
  destruct cls; unfold fromBytes, body_size in *.
  - rewrite getInt32_short by lia. reflexivity.
  - destruct (Z_lt_le_dec 0 (len data)) as [H1|H1];
      [destruct (py_index_in data 0) as [b ->]; [lia|]
      | rewrite py_index_out by lia; reflexivity].
    cbn [res_bind].
    destruct (Z_le_gt_dec 5 (len data)) as [H5|H5];
      [destruct (getInt32_long data 1) as [v ->]; [lia | lia |]
      | rewrite getInt32_short by lia; reflexivity].
    cbn [res_bind]. rewrite progDeviceId_loop_short by lia. reflexivity.
  - destruct (Z_le_gt_dec 4 (len data)) as [H4|H4];
      [destruct (getInt32_long data 0) as [v0 ->]; [lia | lia |]
      | rewrite getInt32_short by lia; reflexivity].
    cbn [res_bind].
    destruct (Z_le_gt_dec 8 (len data)) as [H8|H8];
      [destruct (getInt32_long data 4) as [v1 ->]; [lia | lia |]
      | rewrite getInt32_short by lia; reflexivity].
    cbn [res_bind].
    destruct (Z_le_gt_dec 12 (len data)) as [H12|H12];
      [destruct (getInt32_long data 8) as [v2 ->]; [lia | lia |]
      | rewrite getInt32_short by lia; reflexivity].
    cbn [res_bind].
    destruct (Z_le_gt_dec 16 (len data)) as [H16|H16];
      [destruct (getInt32_long data 12) as [v3 ->]; [lia | lia |]
      | rewrite getInt32_short by lia; reflexivity].
    cbn [res_bind]. rewrite py_index_out by lia. reflexivity.
Qed.

Lemma fromBytes_long cls rcmd rcnt data :
  body_size cls <= len data -> exists r, fromBytes cls rcmd rcnt data = Return r.
Proof.
  intros Hl. destruct cls; unfold fromBytes, body_size in *.
  - destruct (getInt32_long data 0) as [v ->]; [lia | lia |]. eexists. reflexivity.
  - destruct (py_index_in data 0) as [b ->]; [lia|].
    destruct (getInt32_long data 1) as [v ->]; [lia | lia |].
    cbn [res_bind].
    destruct (progDeviceId_loop_long data 8 0 []) as [ids ->]; [lia | lia |].
    eexists. reflexivity.
  - destruct (getInt32_long data 0) as [v0 ->]; [lia | lia |].
    destruct (getInt32_long data 4) as [v1 ->]; [lia | lia |].
    destruct (getInt32_long data 8) as [v2 ->]; [lia | lia |].
    destruct (getInt32_long data 12) as [v3 ->]; [lia | lia |].
    destruct (py_index_in data 16) as [c ->]; [lia|].
    eexists. reflexivity.
Qed.

(** X6. Each response class parses a body of at least its fixed size (4, 13
    and 17 bytes), ignoring what follows, and raises [IndexError] on any
    shorter body, the empty one included. *)
Theorem X6_fromBytes_truncated (cls : ResponseClass) (rcmd rcnt : Z) (data : list Z) :
  (len data < body_size cls -> fromBytes cls rcmd rcnt data = Raise IndexError)
  /\ (body_size cls <= len data -> exists r, fromBytes cls rcmd rcnt data = Return r).
Proof. split; [apply fromBytes_short | apply fromBytes_long]. Qed.

Lemma getInt32_field data k l1 v l2 :
  data = l1 ++ FEncoding.encodeInt32 v ++ l2 -> len l1 = k ->
  FEncoding.getInt32 data k = Return (v mod 4294967296).
Proof. intros -> <-. apply getInt32_encodeInt32. Qed.

Lemma fromBytes_flash_fields
    (rcmd rcnt errorCode programOnStartup blockCnt bitStreamSz crc : Z)
    (extra : list Z) :
  fromBytes QueryBitstreamFlash_Response rcmd rcnt
    (FEncoding.encodeInt32 errorCode ++ FEncoding.encodeInt32 programOnStartup
       ++ FEncoding.encodeInt32 blockCnt ++ FEncoding.encodeInt32 bitStreamSz
       ++ [crc] ++ extra)
  = Return (BitstreamFlash_Response rcmd rcnt
              (errorCode mod 4294967296) (programOnStartup mod 4294967296)
              (blockCnt mod 4294967296) (bitStreamSz mod 4294967296) crc).
Proof.
  unfold fromBytes.
  rewrite (getInt32_field _ 0 [] errorCode
             (FEncoding.encodeInt32 programOnStartup
                ++ FEncoding.encodeInt32 blockCnt
                ++ FEncoding.encodeInt32 bitStreamSz ++ [crc] ++ extra))
    by reflexivity.
  cbn [res_bind].
  rewrite (getInt32_field _ 4 (FEncoding.encodeInt32 errorCode) programOnStartup
             (FEncoding.encodeInt32 blockCnt
                ++ FEncoding.encodeInt32 bitStreamSz ++ [crc] ++ extra))
    by reflexivity.
  cbn [res_bind].
  rewrite (getInt32_field _ 8
             (FEncoding.encodeInt32 errorCode
                ++ FEncoding.encodeInt32 programOnStartup) blockCnt
             (FEncoding.encodeInt32 bitStreamSz ++ [crc] ++ extra))
    by reflexivity.
  cbn [res_bind].
  rewrite (getInt32_field _ 12
             (FEncoding.encodeInt32 errorCode
                ++ FEncoding.encodeInt32 programOnStartup
                ++ FEncoding.encodeInt32 blockCnt) bitStreamSz ([crc] ++ extra))
    by reflexivity.
  cbn [res_bind].
  rewrite (py_index_lookup _ 16 crc) by (lia || reflexivity).
  reflexivity.
Qed.

Lemma fromBytes_generic_field (rcmd rcnt errorCode : Z) (extra : list Z) :
  fromBytes FGeneric_Response rcmd rcnt (FEncoding.encodeInt32 errorCode ++ extra)
  = Return (Generic_Response rcmd rcnt (errorCode mod 4294967296)).
Proof.
  unfold fromBytes.
  rewrite (getInt32_field _ 0 [] errorCode extra) by reflexivity.
  reflexivity.
Qed.

(** X7. A flash-status body made of four little-endian 32-bit fields and a
    checksum byte parses back to those fields, each taken modulo 2^32 (the
    fields are read unsigned), and a generic body to its error code; bytes
    after the fixed layout are ignored. *)
Theorem X7_response_fields_roundtrip
    (rcmd rcnt errorCode programOnStartup blockCnt bitStreamSz crc : Z)
    (extra : list Z) :
  fromBytes QueryBitstreamFlash_Response rcmd rcnt
    (FEncoding.encodeInt32 errorCode ++ FEncoding.encodeInt32 programOnStartup
       ++ FEncoding.encodeInt32 blockCnt ++ FEncoding.encodeInt32 bitStreamSz
       ++ [crc] ++ extra)
  = Return (BitstreamFlash_Response rcmd rcnt
              (errorCode mod 4294967296) (programOnStartup mod 4294967296)
              (blockCnt mod 4294967296) (bitStreamSz mod 4294967296) crc)
  /\ fromBytes FGeneric_Response rcmd rcnt (FEncoding.encodeInt32 errorCode ++ extra)
     = Return (Generic_Response rcmd rcnt (errorCode mod 4294967296))
  /\ 0 <= errorCode mod 4294967296 < 4294967296.
Proof.
  split; [apply fromBytes_flash_fields|].
  split; [apply fromBytes_generic_field|].
  apply Z.mod_pos_bound. lia.
Qed.


(** ** Compression with a size header *)

Lemma py_slice_from_two {A} (a b : A) (l : list A) : py_slice_from (a :: b :: l) 2 = l.
Proof.
  unfold py_slice_from, py_clamp. change (2 <? 0) with false. cbv iota.
  assert (H : len (a :: b :: l) = len l + 2) by (unfold len; simpl length; lia).
  rewrite H. pose proof (len_nonneg l). rewrite Z.min_l by lia. reflexivity.
Qed.

(** X8. [compressData] fails with [ValueError] on data that are not bytes;
    on bytes it returns the length of the data as two bytes, high byte first
    (the length modulo 65536), followed by the output of the compressor. *)
Theorem X8_compressData_header (zlib_compress : list Z -> list Z) (data : list Z) :
  (forallb is_byte data = true ->
     FabricTransport.compressData zlib_compress data
     = Return ([(len data / 256) mod 256; len data mod 256] ++ zlib_compress data))
  /\ (forallb is_byte data = false ->
        FabricTransport.compressData zlib_compress data = Raise ValueError).
Proof.
  unfold FabricTransport.compressData, py_bytes. split; intros ->; [|reflexivity].
  cbn [res_bind].
  change 0xff00 with (Z.shiftl 0xff 8). change 0xff with (Z.shiftl 0xff 0) at 2.
  rewrite !masked_byte by lia. rewrite Z.div_1_r. reflexivity.
Qed.

(** X9. [decompressData] undoes [compressData] on every byte string,
    whatever its length, provided the decompressor undoes the compressor: it
    skips the two header bytes without looking at the size they hold.  On an
    input of fewer than two bytes it raises [IndexError]. *)
Theorem X9_compress_roundtrip (zlib_compress : list Z -> list Z)
    (zlib_decompress : list Z -> res (list Z)) (data : list Z) :
  (forall d, forallb is_byte d = true -> forallb is_byte (zlib_compress d) = true) ->
  (forall d, forallb is_byte d = true -> zlib_decompress (zlib_compress d) = Return d) ->
  forallb is_byte data = true ->
  res_bind (FabricTransport.compressData zlib_compress data)
           (FabricTransport.decompressData zlib_decompress)
  = Return data
  /\ FabricTransport.decompressData zlib_decompress [] = Raise IndexError
  /\ (forall b, FabricTransport.decompressData zlib_decompress [b] = Raise IndexError).
Proof.
  intros Hbytes Hinv Hdata. split; [|split; [reflexivity|]].
  - unfold FabricTransport.compressData. rewrite py_bytes_ok by exact Hdata.
    cbn [res_bind app]. unfold FabricTransport.decompressData.
    rewrite py_index_head.
    rewrite (py_index_lookup _ 1 (Z.shiftr (Z.land (len data) 255) 0))
      by (lia || reflexivity).
    cbn [res_bind]. rewrite py_slice_from_two.
    rewrite py_bytes_ok by (apply Hbytes; exact Hdata).
    cbn [res_bind]. apply Hinv. exact Hdata.
  - intros b. unfold FabricTransport.decompressData.
    rewrite py_index_head. cbn [res_bind].
    rewrite py_index_out by (unfold len; simpl; lia). reflexivity.
Qed.

Lemma X9_compress_roundtrip_witness :
  (forall d : list Z, forallb is_byte d = true -> forallb is_byte ((fun l => l) d) = true)
  /\ (forall d : list Z, forallb is_byte d = true ->
        (fun l => Return l) ((fun l : list Z => l) d) = Return d)
  /\ forallb is_byte [1; 2; 3] = true
  /\ res_bind (FabricTransport.compressData (fun l => l) [1; 2; 3])
              (FabricTransport.decompressData (fun l => Return l))
     = Return [1; 2; 3].
Proof.
  split; [intros d Hd; exact Hd|]. split; [intros d Hd; reflexivity|].
  split; [reflexivity|].
  apply (X9_compress_roundtrip (fun l => l) (fun l => Return l) [1; 2; 3]).
  - intros d Hd. exact Hd.
  - intros d Hd. reflexivity.
  - reflexivity.
Defined.


(** ** The frame reader on damaged input *)

Lemma readBlock_loop_starved xs : forall n i sz crc data ser,
  in_waiting ser = xs -> (length xs < n)%nat ->
  readBlock_loop n i sz crc data ser = (set_in_waiting [] ser, Return None).
Proof.
  induction xs as [|x xs IH]; intros n i sz crc data ser Hin Hn;
    (destruct n as [|n]; [simpl in Hn; lia|]).
  - cbn [readBlock_loop]. unfold bind at 1.
    rewrite (ser_read_timeout 1 ser Hin). reflexivity.
  - rewrite (readBlock_loop_step _ _ _ _ _ _ _ _ Hin).
    rewrite (IH n _ _ _ _ (set_in_waiting xs ser)) by (simpl in *; (reflexivity || lia)).
    reflexivity.
Qed.

(** X10. A stream that ends anywhere inside a frame, after no byte at all
    or after any proper prefix of it, makes [readBlock] return [None], the
    timeout value, with the input used up; it never raises. *)
Theorem X10_truncated_frame_is_timeout (payload : list Z) (k : nat) (ser : Serial) :
  len payload + 1 < 65536 ->
  (k < length (frame_layout payload))%nat ->
  readBlock (set_in_waiting (take k (frame_layout payload)) ser)
  = (set_in_waiting [] ser, Return None).
Proof.
  intros Hlen Hk. pose proof (len_nonneg payload) as Hpos.
  set (lo := (len payload + 1) mod 256). set (hi := (len payload + 1) / 256).
  set (body := payload ++ [sum_bytes payload mod 256]).
  assert (Hf : frame_layout payload = 0x1b :: lo :: hi :: body) by reflexivity.
  assert (Hb : length body = S (length payload))
    by (unfold body; rewrite length_app; simpl; lia).
  rewrite Hf in Hk |- *. simpl length in Hk.
  destruct k as [|[|[|k]]].
  - rewrite readBlock_timeout by reflexivity. reflexivity.
  - reflexivity.
  - reflexivity.
  - change (take (S (S (S k))) (0x1b :: lo :: hi :: body))
      with (0x1b :: lo :: hi :: take k body).
    unfold readBlock. unfold bind at 1.
    rewrite (ser_read_one (set_in_waiting (0x1b :: lo :: hi :: take k body) ser)
               0x1b (lo :: hi :: take k body) eq_refl).
    unfold bind at 1, lift. rewrite py_index_head.
    change (negb (0x1b =? HeaderMagic)) with false. cbv iota.
    unfold bind at 1.
    rewrite (ser_read_two (set_in_waiting (lo :: hi :: take k body) _)
               lo hi (take k body) eq_refl).
    change ((len [lo; hi] =? 0) || (len [lo; hi] <? 2)) with false. cbv iota.
    unfold bind at 1, lift. unfold lo, hi. rewrite decodeInt16_layout by lia.
    unfold bind at 1.
    rewrite (readBlock_loop_starved (take k body)) with (ser := set_in_waiting (take k body) (set_in_waiting _ (set_in_waiting _ ser))).
    + reflexivity.
    + reflexivity.
    + rewrite length_take. unfold len. lia.
Qed.

Lemma X10_truncated_frame_is_timeout_witness :
  len [0x01; 0x2A] + 1 < 65536
  /\ (4 < length (frame_layout [0x01; 0x2A]%Z))%nat
  /\ readBlock (set_in_waiting (take 4 (frame_layout [0x01; 0x2A]))
                  (mkSerial 10000 10000 [] [] silent_device))
     = (set_in_waiting [] (mkSerial 10000 10000 [] [] silent_device), Return None).
Proof.
  split; [reflexivity|]. split; [simpl; lia|].
  apply (X10_truncated_frame_is_timeout [0x01; 0x2A] 4). 
  - reflexivity.
  - simpl; lia.
Defined.


Lemma set_in_waiting_self ser : set_in_waiting (in_waiting ser) ser = ser.
Proof. destruct ser. reflexivity. Qed.

Lemma readBlock_loop_inv n : forall i sz crc data ser ser' crc' data',
  readBlock_loop n i sz crc data ser = (ser', Return (Some (crc', data'))) ->
  exists xs,
    length xs = n
    /\ in_waiting ser = xs ++ in_waiting ser'
    /\ data' = data ++ xs
    /\ ser' = set_in_waiting (in_waiting ser') ser
    /\ crc' = crc + sum_bytes (take (Z.to_nat (sz - 1 - i)) xs).
Proof.
  induction n as [|n IH]; intros i sz crc data ser ser' crc' data' H.
  - cbn [readBlock_loop] in H. unfold ret in H. injection H as <- <- <-.
    exists []. rewrite app_nil_r, set_in_waiting_self, take_nil.
    unfold sum_bytes. simpl. repeat split; lia.
  - destruct (in_waiting ser) as [|x rest] eqn:Ein.
    + cbn [readBlock_loop] in H. unfold bind at 1 in H.
      rewrite (ser_read_timeout 1 ser Ein) in H. discriminate H.
    + rewrite (readBlock_loop_step _ _ _ _ _ _ _ _ Ein) in H.
      destruct (IH _ _ _ _ _ _ _ _ H) as (xs & Hlen & Hin & Hdata & Hser & Hcrc).
      exists (x :: xs). rewrite in_waiting_set in Hin.
      rewrite set_in_waiting_set in Hser.
      split; [simpl; lia|]. split; [rewrite Hin; reflexivity|].
      split; [rewrite Hdata, <- app_assoc; reflexivity|]. split; [exact Hser|].
      rewrite Hcrc. destruct (Z.ltb_spec i (sz - 1)) as [Hlt|Hge].
      * replace (Z.to_nat (sz - 1 - i)) with (S (Z.to_nat (sz - 1 - (i + 1)))) by lia.
        cbn [take]. rewrite sum_bytes_cons. lia.
      * replace (Z.to_nat (sz - 1 - i)) with 0%nat by lia.
        replace (Z.to_nat (sz - 1 - (i + 1))) with 0%nat by lia.
        rewrite !take_0. reflexivity.
Qed.

(** X11. Whatever is on the line, a payload that [readBlock] returns was
    framed: the stream began with the magic byte, a length field equal to the
    payload length plus one, the payload itself and a byte that agrees with
    the payload sum modulo 256; exactly that much input was consumed and the
    rest is left in the buffer. *)
Theorem X11_readBlock_sound (ser ser' : Serial) (payload : list Z) :
  readBlock ser = (ser', Return (Some payload)) ->
  exists lo hi c,
    in_waiting ser = [0x1b; lo; hi] ++ payload ++ [c] ++ in_waiting ser'
    /\ Z.lor (Z.shiftl lo 0) (Z.shiftl hi 8) = len payload + 1
    /\ Z.land c 0xff = Z.land (sum_bytes payload) 0xff
    /\ ser' = set_in_waiting (in_waiting ser') ser.
Proof.
  intros H. unfold readBlock in H. unfold bind at 1 in H.
  destruct (in_waiting ser) as [|m rest] eqn:Ein.
  { rewrite (ser_read_timeout 1 ser Ein) in H. discriminate H. }
  rewrite (ser_read_one _ _ _ Ein) in H.
  unfold bind at 1, lift in H. rewrite py_index_head in H.
  destruct (Z.eqb_spec m HeaderMagic) as [->|Hm]; [|discriminate H].
  cbn [negb] in H. unfold bind at 1 in H.
  destruct rest as [|lo [|hi rest]].
  { discriminate H. }
  { discriminate H. }
  rewrite (ser_read_two (set_in_waiting (lo :: hi :: rest) ser) lo hi rest eq_refl) in H.
  change ((len [lo; hi] =? 0) || (len [lo; hi] <? 2)) with false in H.
  cbv iota in H. unfold bind at 1, lift in H.
  assert (Hdec : FEncoding.decodeInt16 [lo; hi] 0
                 = Return (Z.lor (Z.shiftl lo 0) (Z.shiftl hi 8))).
  { unfold FEncoding.decodeInt16. rewrite py_index_head.
    rewrite (py_index_lookup _ (0 + 1) hi) by (lia || reflexivity). reflexivity. }
  rewrite Hdec in H. set (sz := Z.lor (Z.shiftl lo 0) (Z.shiftl hi 8)) in *.
  unfold bind at 1 in H.
  destruct (readBlock_loop (Z.to_nat sz) 0 sz 0 []
              (set_in_waiting rest (set_in_waiting (lo :: hi :: rest) ser)))
    as [ser2 [[[crc data]|]|e]] eqn:El; try discriminate H.
  destruct (readBlock_loop_inv _ _ _ _ _ _ _ _ _ El)
    as (xs & Hlen & Hin & Hdata & Hser & Hcrc).
  rewrite in_waiting_set in Hin. rewrite !set_in_waiting_set in Hser.
  rewrite app_nil_l in Hdata. subst data.
  unfold bind at 1, lift in H.
  destruct xs as [|x0 xs0] using rev_ind.
  { rewrite py_index_empty in H. discriminate H. }
  clear IHxs0.
  rewrite py_index_last in H.
  destruct (negb (Z.land x0 255 =? Z.land crc 255)) eqn:Ecrc; [discriminate H|].
  unfold ret in H. rewrite py_slice_init in H. injection H as <- <-.
  apply negb_false_iff, Z.eqb_eq in Ecrc.
  rewrite length_app in Hlen. simpl length in Hlen.
  assert (Hsz : sz = len xs0 + 1) by (unfold len; lia).
  exists lo, hi, x0. split.
  { rewrite Hin, <- !app_assoc. reflexivity. }
  split; [exact Hsz|]. split; [|exact Hser].
  rewrite Ecrc, Hcrc.
  replace (Z.to_nat (sz - 1 - 0)) with (length xs0) by (unfold len in Hsz; lia).
  rewrite take_app_length, Z.add_0_l. reflexivity.
Qed.

Lemma X11_readBlock_sound_witness :
  readBlock (mkSerial 10000 10000 [0x1b; 3; 0; 0x01; 0x2A; 0x2B; 9] [] silent_device)
  = (mkSerial 10000 10000 [9] [] silent_device, Return (Some [0x01; 0x2A]))
  /\ exists lo hi c,
       [0x1b; 3; 0; 0x01; 0x2A; 0x2B; 9] = [0x1b; lo; hi] ++ [0x01; 0x2A] ++ [c] ++ [9]
       /\ Z.lor (Z.shiftl lo 0) (Z.shiftl hi 8) = len [0x01; 0x2A] + 1
       /\ Z.land c 0xff = Z.land (sum_bytes [0x01; 0x2A]) 0xff
       /\ mkSerial 10000 10000 [9] [] silent_device
          = set_in_waiting [9]
              (mkSerial 10000 10000 [0x1b; 3; 0; 0x01; 0x2A; 0x2B; 9] [] silent_device).
Proof.
  split; [reflexivity|].
  apply (X11_readBlock_sound
           (mkSerial 10000 10000 [0x1b; 3; 0; 0x01; 0x2A; 0x2B; 9] [] silent_device)
           (mkSerial 10000 10000 [9] [] silent_device) [0x01; 0x2A]).
  reflexivity.
Defined.

(** ** The frame writer on bad input *)

Lemma writeBlock_loop_bad good : forall bad rest crc ser,
  forallb is_byte good = true -> is_byte bad = false ->
  exists ser',
    writeBlock_loop (good ++ bad :: rest) crc ser = (ser', Raise ValueError)
    /\ written ser' = written ser ++ good.
Proof.
  induction good as [|g good IH]; intros bad rest crc ser Hg Hb.
  - cbn [app writeBlock_loop]. unfold bind at 1, lift, py_bytes.
    cbn [forallb]. rewrite Hb. exists ser. rewrite app_nil_r. auto.
  - cbn [forallb] in Hg. apply andb_true_iff in Hg as [Hg1 Hg2].
    cbn [app writeBlock_loop]. unfold bind at 1, lift.
    rewrite py_bytes_ok by (cbn [forallb]; rewrite Hg1; reflexivity).
    unfold bind at 1. unfold ser_write at 1. cbv beta iota zeta.
    match goal with
    | |- context [writeBlock_loop _ ?c ?s] =>
        destruct (IH bad rest c s Hg2 Hb) as (ser' & E & Hw)
    end.
    exists ser'. rewrite E, Hw. cbn [written]. rewrite <- app_assoc.
    split; reflexivity.
Qed.

(** X12. [writeBlock] refuses data of 0xFFEF bytes or more before writing
    anything.  On shorter data with an element that is no byte it raises
    [ValueError] midway: the frame header and the bytes before the bad
    element are already on the wire, without a checksum. *)
Theorem X12_writeBlock_failures (good rest : list Z) (bad : Z) (data : list Z)
    (ser : Serial) :
  (MaxWriteBlockSize <= len data ->
     writeBlock data ser = (ser, Raise Exception_MaxPacketSize))
  /\ (len (good ++ bad :: rest) < MaxWriteBlockSize ->
      forallb is_byte good = true -> is_byte bad = false ->
      exists ser',
        writeBlock (good ++ bad :: rest) ser = (ser', Raise ValueError)
        /\ written ser'
           = written ser ++ [HeaderMagic]
               ++ FEncoding.encodeInt16 (len (good ++ bad :: rest) + 1) ++ good).
Proof.
  split.
  - intros Hl. unfold writeBlock.
    replace (len data >=? MaxWriteBlockSize) with true
      by (symmetry; rewrite Z.geb_leb; apply Z.leb_le; exact Hl).
    reflexivity.
  - intros Hl Hg Hb. unfold writeBlock.
    replace (len (good ++ bad :: rest) >=? MaxWriteBlockSize) with false
      by (symmetry; rewrite Z.geb_leb; apply Z.leb_gt; exact Hl).
    unfold bind at 1. unfold ser_write at 1. cbv beta iota zeta.
    unfold bind at 1.
    match goal with
    | |- context [writeBlock_loop _ 0 ?s] =>
        destruct (writeBlock_loop_bad good bad rest 0 s Hg Hb) as (ser' & E & Hw)
    end.
    exists ser'. rewrite E, Hw. cbn [written]. rewrite <- !app_assoc.
    split; reflexivity.
Qed.


(** ** What a computation can return *)

Lemma returns_only_bind {S A B} (P : B -> Prop) (m : M S A) (k : A -> M S B) :
  (forall a, returns_only P (k a)) -> returns_only P (bind m k).
Proof.
  intros Hk s b. unfold bind.
  destruct (m s) as [s' [a|e]]; cbn [snd]; [apply Hk | discriminate].
Qed.

Lemma returns_only_ret {S A} (P : A -> Prop) (a : A) : P a -> returns_only (S := S) P (ret a).
Proof. intros Ha s b E. injection E as <-. exact Ha. Qed.

Lemma returns_only_raise {S A} (P : A -> Prop) e : returns_only (S := S) P (raise e).
Proof. intros s b E. discriminate E. Qed.

(** With a response class asked for, [writeCommand] on a serial session
    returns a response or raises; it has no way to return [None]. *)
Lemma writeCommand_returns_some cmd cls :
  returns_only (fun r => r <> None)
    (USBSerialTransport.writeCommand cmd (Some cls)).
Proof.
  unfold USBSerialTransport.writeCommand.
  do 9 (apply returns_only_bind; intros ?).
  apply returns_only_ret. discriminate.
Qed.

(** ** Single exchanges over a serial session *)

(** One command with an empty body sent over a session, and what the answer
    of the device makes of it. *)
Lemma writeCommand_exchange cmd cls s :
  0 <= USBSerialTransport.counter s <= 255 ->
  is_byte (cmd_of cmd) = true ->
  toBytes cmd = Return [] ->
  let c := (USBSerialTransport.counter s + 1) mod 256 in
  let reply := reply_to (USBSerialTransport.ser s) [cmd_of cmd; c] in
  written (USBSerialTransport.ser (fst (USBSerialTransport.writeCommand cmd (Some cls) s)))
  = written (USBSerialTransport.ser s) ++ frame_layout [cmd_of cmd; c]
  /\ (reply = [] ->
      snd (USBSerialTransport.writeCommand cmd (Some cls) s) = Raise Exception_NoResponse)
  /\ (forall rcmd rcnt b body rest,
        reply = frame_layout (rcmd :: rcnt :: b :: body) ++ rest ->
        len body + 4 < 65536 ->
        snd (USBSerialTransport.writeCommand cmd (Some cls) s)
        = res_bind (fromBytes cls rcmd rcnt (b :: body)) (fun r => Return (Some r))).
Proof.
  intros Hc Hcmd Hbody c reply.
  destruct (writeCommand_sent cmd (Some cls) s [] Hc Hcmd Hbody eq_refl eq_refl)
    as (ser' & Ew & Hw & Ecmd).
  fold c in Ew, Hw, Ecmd.
  assert (Hreply : reply = in_waiting ser').
  { unfold reply, reply_to. rewrite Ew. reflexivity. }
  rewrite Ecmd. split; [|split].
  - rewrite (keeps_bind_from (fun s => written (USBSerialTransport.ser s)))
      by (intros a; auto with keeps).
    rewrite keeps_written_readCommand. exact Hw.
  - intros Hnone. unfold bind at 1.
    rewrite readCommand_timeout by (rewrite <- Hnone, Hreply; reflexivity).
    reflexivity.
  - intros rcmd rcnt b body rest Hframe Hlen. unfold bind at 1.
    rewrite (readCommand_frame _ _ rcmd rcnt b body rest Hlen)
      by (rewrite <- Hframe, Hreply; reflexivity).
    destruct (fromBytes cls rcmd rcnt (b :: body)); reflexivity.
Qed.

(** X13. [rebootProgrammer] on a serial session sends one frame holding the
    RebootProgrammer opcode and the advanced counter, and returns [True]
    without reading: whatever the device answers stays in the input buffer,
    and a device that answers nothing raises no error. *)
Theorem X13_rebootProgrammer_no_wait (s : USBSerialTransport.t) :
  0 <= USBSerialTransport.counter s <= 255 ->
  let c := (USBSerialTransport.counter s + 1) mod 256 in
  exists ser',
    FabricTransport.rebootProgrammer s = (set_counter_ser c ser' s, Return true)
    /\ written ser' = written (USBSerialTransport.ser s)
                      ++ frame_layout [FabricCommands.RebootProgrammer; c]
    /\ in_waiting ser'
       = reply_to (USBSerialTransport.ser s) [FabricCommands.RebootProgrammer; c].
Proof.
  intros Hc c.
  destruct (writeCommand_sent RebootProgrammer None s [] Hc eq_refl eq_refl
              eq_refl eq_refl) as (ser' & Ew & Hw & Ecmd).
  fold c in Ew, Hw, Ecmd. exists ser'.
  split; [|split; [exact Hw|]].
  - unfold FabricTransport.rebootProgrammer. unfold bind at 1.
    change (writeCommand RebootProgrammer None s)
      with (USBSerialTransport.writeCommand RebootProgrammer None s).
    rewrite Ecmd. reflexivity.
  - unfold reply_to.
    change [FabricCommands.RebootProgrammer; c] with (cmd_of RebootProgrammer :: c :: []).
    rewrite Ew. reflexivity.
Qed.

Lemma X13_rebootProgrammer_no_wait_witness :
  0 <= USBSerialTransport.counter silent_session <= 255
  /\ exists ser',
       FabricTransport.rebootProgrammer silent_session
       = (set_counter_ser ((USBSerialTransport.counter silent_session + 1) mod 256)
                          ser' silent_session, Return true)
       /\ written ser' = written (USBSerialTransport.ser silent_session)
                         ++ frame_layout [FabricCommands.RebootProgrammer;
                                          (USBSerialTransport.counter silent_session + 1) mod 256]
       /\ in_waiting ser'
          = reply_to (USBSerialTransport.ser silent_session)
              [FabricCommands.RebootProgrammer;
               (USBSerialTransport.counter silent_session + 1) mod 256].
Proof.
  split; [simpl; lia|].
  apply (X13_rebootProgrammer_no_wait silent_session). simpl; lia.
Defined.

(** X14. [clearFlash] on a serial session sends the ClearBitstreamFlash
    opcode with an empty body.  When the answer carries an error code, it
    returns whether that code, read as an unsigned 32-bit value, is zero;
    when nothing is answered it raises the no-response exception (it does
    not return a false value), and on an answer with a body of one to three
    bytes it raises [IndexError]. *)
Theorem X14_clearFlash_session (s : USBSerialTransport.t) :
  0 <= USBSerialTransport.counter s <= 255 ->
  let c := (USBSerialTransport.counter s + 1) mod 256 in
  let reply := reply_to (USBSerialTransport.ser s)
                 [FabricCommands.ClearBitstreamFlash; c] in
  (reply = [] -> snd (FabricTransport.clearFlash s) = Raise Exception_NoResponse)
  /\ (forall rcmd rcnt errorCode extra rest,
        reply = frame_layout (rcmd :: rcnt :: FEncoding.encodeInt32 errorCode ++ extra)
                ++ rest ->
        len extra + 8 < 65536 ->
        snd (FabricTransport.clearFlash s)
        = Return (Some (errorCode mod 4294967296 =? 0)))
  /\ (forall rcmd rcnt b body rest,
        reply = frame_layout (rcmd :: rcnt :: b :: body) ++ rest ->
        len body < 3 ->
        snd (FabricTransport.clearFlash s) = Raise IndexError).
Proof.
  intros Hc c reply.
  destruct (writeCommand_exchange ClearBitstreamFlash FGeneric_Response s Hc
              eq_refl eq_refl) as (_ & Hnone & Hsome).
  fold c in Hnone, Hsome.
  change (cmd_of ClearBitstreamFlash) with FabricCommands.ClearBitstreamFlash
    in Hnone, Hsome.
  fold reply in Hnone, Hsome.
  assert (Hrun : FabricTransport.clearFlash s
                 = bind (USBSerialTransport.writeCommand ClearBitstreamFlash
                           (Some FGeneric_Response)) (fun response => _) s)
    by reflexivity.
  split; [|split].
  - intros E. specialize (Hnone E). rewrite Hrun. unfold bind at 1.
    destruct (USBSerialTransport.writeCommand _ _ s) as [s' r].
    cbn [snd] in Hnone. subst r. reflexivity.
  - intros rcmd rcnt errorCode extra rest E Hlen.
    set (b0 := Z.shiftr (Z.land errorCode 255) 0).
    set (body0 := Z.shiftr (Z.land errorCode 65280) 8
                    :: Z.shiftr (Z.land errorCode 16711680) 16
                    :: Z.shiftr (Z.land errorCode 4278190080) 24 :: extra).
    assert (Henc : FEncoding.encodeInt32 errorCode ++ extra = b0 :: body0)
      by reflexivity.
    assert (Hl : len body0 + 4 < 65536) by (unfold len in *; simpl length; lia).
    rewrite Henc in E. specialize (Hsome rcmd rcnt b0 body0 rest E Hl).
    rewrite <- Henc in Hsome.
    rewrite fromBytes_generic_field in Hsome. cbn [res_bind] in Hsome.
    rewrite Hrun. unfold bind at 1.
    destruct (USBSerialTransport.writeCommand _ _ s) as [s' r].
    cbn [snd] in Hsome. subst r. reflexivity.
  - intros rcmd rcnt b body rest E Hlen.
    assert (Hl : len body + 4 < 65536) by lia.
    specialize (Hsome rcmd rcnt b body rest E Hl).
    rewrite fromBytes_short in Hsome
      by (unfold body_size, len in *; simpl length; lia).
    rewrite Hrun. unfold bind at 1.
    destruct (USBSerialTransport.writeCommand _ _ s) as [s' r].
    cbn [snd] in Hsome. subst r. reflexivity.
Qed.

Lemma X14_clearFlash_session_witness :
  0 <= USBSerialTransport.counter silent_session <= 255
  /\ reply_to (USBSerialTransport.ser silent_session)
       [FabricCommands.ClearBitstreamFlash;
        (USBSerialTransport.counter silent_session + 1) mod 256] = []
  /\ snd (FabricTransport.clearFlash silent_session) = Raise Exception_NoResponse.
Proof.
  split; [simpl; lia|]. split; [reflexivity|].
  destruct (X14_clearFlash_session silent_session) as (Hnone & _).
  - simpl; lia.
  - apply Hnone. reflexivity.
Defined.

(** X15. [queryBitstreamFlash] on a serial session returns the flash status
    parsed from the answer: four unsigned little-endian 32-bit fields and the
    checksum byte.  An answer with a body of one to sixteen bytes raises
    [IndexError], and no answer raises the no-response exception; it never
    returns [None]. *)
Theorem X15_queryBitstreamFlash_session (s : USBSerialTransport.t) :
  0 <= USBSerialTransport.counter s <= 255 ->
  let c := (USBSerialTransport.counter s + 1) mod 256 in
  let reply := reply_to (USBSerialTransport.ser s)
                 [FabricCommands.QueryBitstreamFlash; c] in
  (reply = [] ->
     snd (FabricTransport.queryBitstreamFlash s) = Raise Exception_NoResponse)
  /\ (forall rcmd rcnt errorCode programOnStartup blockCnt bitStreamSz crc extra rest,
        reply = frame_layout
                  (rcmd :: rcnt :: FEncoding.encodeInt32 errorCode
                     ++ FEncoding.encodeInt32 programOnStartup
                     ++ FEncoding.encodeInt32 blockCnt
                     ++ FEncoding.encodeInt32 bitStreamSz ++ [crc] ++ extra)
                ++ rest ->
        len extra + 21 < 65536 ->
        snd (FabricTransport.queryBitstreamFlash s)
        = Return (Some (BitstreamFlash_Response rcmd rcnt
                          (errorCode mod 4294967296)
                          (programOnStartup mod 4294967296)
                          (blockCnt mod 4294967296)
                          (bitStreamSz mod 4294967296) crc)))
  /\ (forall rcmd rcnt b body rest,
        reply = frame_layout (rcmd :: rcnt :: b :: body) ++ rest ->
        len body < 16 ->
        snd (FabricTransport.queryBitstreamFlash s) = Raise IndexError)
  /\ snd (FabricTransport.queryBitstreamFlash s) <> Return None.
Proof.
  intros Hc c reply.
  destruct (writeCommand_exchange QueryBitstreamFlash QueryBitstreamFlash_Response
              s Hc eq_refl eq_refl) as (_ & Hnone & Hsome).
  fold c in Hnone, Hsome.
  change (cmd_of QueryBitstreamFlash) with FabricCommands.QueryBitstreamFlash
    in Hnone, Hsome.
  fold reply in Hnone, Hsome.
  change (FabricTransport.queryBitstreamFlash s)
    with (USBSerialTransport.writeCommand QueryBitstreamFlash
            (Some QueryBitstreamFlash_Response) s).
  split; [exact Hnone|]. split; [|split].
  - intros rcmd rcnt errorCode programOnStartup blockCnt bitStreamSz crc extra rest E Hlen.
    remember (FEncoding.encodeInt32 programOnStartup
                ++ FEncoding.encodeInt32 blockCnt
                ++ FEncoding.encodeInt32 bitStreamSz ++ [crc] ++ extra) as tl eqn:Etl
      in E.
    assert (Htl : len tl = len extra + 13).
    { rewrite Etl, !len_app, !len_encodeInt32. change (len [crc]) with 1. lia. }
    set (b0 := Z.shiftr (Z.land errorCode 255) 0).
    set (body0 := Z.shiftr (Z.land errorCode 65280) 8
                    :: Z.shiftr (Z.land errorCode 16711680) 16
                    :: Z.shiftr (Z.land errorCode 4278190080) 24 :: tl).
    assert (Henc : FEncoding.encodeInt32 errorCode ++ tl = b0 :: body0)
      by reflexivity.
    assert (Hl : len body0 + 4 < 65536) by (unfold len in *; simpl length; lia).
    rewrite Henc in E. rewrite (Hsome rcmd rcnt b0 body0 rest E Hl).
    rewrite <- Henc, Etl.
    rewrite fromBytes_flash_fields. reflexivity.
  - intros rcmd rcnt b body rest E Hlen.
    rewrite (Hsome rcmd rcnt b body rest E) by lia.
    rewrite fromBytes_short by (unfold body_size, len in *; simpl length; lia).
    reflexivity.
  - intros E. apply (writeCommand_returns_some QueryBitstreamFlash
                        QueryBitstreamFlash_Response s None E). reflexivity.
Qed.

Lemma X15_queryBitstreamFlash_session_witness :
  0 <= USBSerialTransport.counter silent_session <= 255
  /\ reply_to (USBSerialTransport.ser silent_session)
       [FabricCommands.QueryBitstreamFlash;
        (USBSerialTransport.counter silent_session + 1) mod 256] = []
  /\ snd (FabricTransport.queryBitstreamFlash silent_session)
     = Raise Exception_NoResponse.
Proof.
  split; [simpl; lia|]. split; [reflexivity|].
  destruct (X15_queryBitstreamFlash_session silent_session) as (Hnone & _).
  - simpl; lia.
  - apply Hnone. reflexivity.
Defined.


(** ** Whole runs of the programming engine *)

Section EngineResults.
Context {T : Type} `{HT : Transport T}.
Variable zlib_compress : list Z -> list Z.

Lemma programDevice_returns data save :
  returns_only (S := T) (fun r => r = Some true \/ r = None)
    (FabricTransport.programDevice zlib_compress data save).
Proof.
  unfold FabricTransport.programDevice.
  apply returns_only_bind. intros _.
  apply returns_only_bind. intros [[]|].
  - apply returns_only_bind. intros _. apply returns_only_ret. left. reflexivity.
  - apply returns_only_ret. right. reflexivity.
Qed.

Lemma programDevice_never_starves data save (t : T) :
  snd (FabricTransport.programDevice zlib_compress data save t) <> Return None.
Proof.
  destruct (programDevice_trace zlib_compress data save t)
    as (r' & out & o & blocks & tail & Erun & _ & _ & Hnone & _).
  pose proof (observes_programDevice zlib_compress data save (mkRecorder t [])) as Hobs.
  cbn [inner] in Hobs. rewrite Hobs, Erun. exact Hnone.
Qed.

(** The block loop from any entry point: which command each recorded
    exchange carries. *)
Lemma programDevice_loop_blocks data fuel : forall i blockId blockSz (r : Recorder T),
  0 <= i -> 0 < blockSz ->
  blockSz = 4096 - 32 \/ len data <= i ->
  exists r' out new,
    FabricTransport.programDevice_loop zlib_compress fuel data i blockId blockSz r
    = (r', out)
    /\ exchanges r' = exchanges r ++ new
    /\ (len data <= i -> new = [])
    /\ (forall j x, new !! j = Some x ->
          block_at zlib_compress data (i + (4096 - 32) * Z.of_nat j)
                   (blockId + Z.of_nat j) (fst x)).
Proof.
  induction fuel as [|fuel IH]; intros i blockId blockSz r Hi Hsz Hfull.
  { exists r, (Return None), []. cbn [FabricTransport.programDevice_loop].
    unfold ret. rewrite app_nil_r. repeat split; auto.
    intros j x Hj. destruct j; discriminate. }
  cbn [FabricTransport.programDevice_loop].
  pose proof (py_slice_len data i blockSz Hi Hsz) as Hbl.
  pose proof (len_nonneg data) as Hdata.
  destruct (Z_le_gt_dec (len data) i) as [Hend | Hmore].
  - rewrite (len_zero_nil (py_slice data i (i + blockSz))) by lia.
    exists r, (Return (Some tt)), []. unfold ret. rewrite app_nil_r.
    repeat split; auto. intros j x Hj. destruct j; discriminate.
  - destruct Hfull as [-> | Hfull]; [|lia].
    destruct (py_slice data i (i + (4096 - 32))) as [|b0 block'] eqn:Eb;
      [change (len (@nil Z)) with 0 in Hbl; lia|].
    set (block := b0 :: block') in *. clearbody block.
    assert (Hlen : len block = Z.min (4096 - 32) (len data - i)) by lia.
    unfold bind at 1, lift at 1.
    destruct (FabricTransport.compressData zlib_compress block) as [cb|e] eqn:Ec.
    + unfold bind at 1.
      match goal with
      | |- context [FabricTransport.send_checked ?c r] =>
          destruct (send_checked_recorder c r) as (t' & o & Es); rewrite Es;
          remember c as cmd eqn:Ecmd
      end.
      clear Es.
      assert (Hshape : block_at zlib_compress data i blockId cmd).
      { unfold block_at. rewrite Eb. exists cb. split; [exact Ec|].
        rewrite Ecmd. reflexivity. }
      destruct (exchange_outcome (cmd, o)) as [[]|e].
      * destruct (IH (i + len block) (blockId + 1) (len block)
                     (mkRecorder t' (exchanges r ++ [(cmd, o)])))
          as (r' & out & new & El & Hex & Hnil & Hsh); [lia | lia | lia |].
        exists r', out, ((cmd, o) :: new). rewrite El.
        split; [reflexivity|]. split.
        { rewrite Hex. cbn [exchanges]. rewrite <- app_assoc. reflexivity. }
        split; [lia|].
        intros [|j] x Hj.
        -- injection Hj as <-. cbn [fst].
           replace (blockId + Z.of_nat 0) with blockId by lia.
           replace (i + (4096 - 32) * Z.of_nat 0) with i by lia.
           exact Hshape.
        -- cbn in Hj. specialize (Hsh j x Hj).
           assert (Hblk : len block = 4096 - 32).
           { destruct (Z_lt_le_dec (len block) (4096 - 32)) as [Hs|Hs]; [|lia].
             rewrite Hnil in Hj by lia. discriminate Hj. }
           replace (blockId + Z.of_nat (S j)) with (blockId + 1 + Z.of_nat j) by lia.
           replace (i + (4096 - 32) * Z.of_nat (S j))
             with (i + len block + (4096 - 32) * Z.of_nat j) by lia.
           exact Hsh.
      * exists (mkRecorder t' (exchanges r ++ [(cmd, o)])), (Raise e), [(cmd, o)].
        repeat split; [lia|].
        intros [|j] x Hj; [|destruct j; discriminate].
        injection Hj as <-. cbn [fst].
        replace (blockId + Z.of_nat 0) with blockId by lia.
        replace (i + (4096 - 32) * Z.of_nat 0) with i by lia.
        exact Hshape.
    + exists r, (Raise e), []. rewrite app_nil_r. repeat split; auto.
      intros j x Hj. destruct j; discriminate.
Qed.

Lemma programDevice_blocks data save (t : T) :
  exists o new tail,
    exchanges (fst (FabricTransport.programDevice zlib_compress data save
                      (mkRecorder t [])))
    = (FProgramDevicePacket (if save then 1 else 0) (len data)
         (math_ceil_div (len data) (4096 - 32)) 0, o) :: new ++ tail
    /\ (tail = [] \/ exists o', tail = [(FProgramCompletePacket, o')])
    /\ (forall j x, new !! j = Some x ->
          block_at zlib_compress data ((4096 - 32) * Z.of_nat j) (Z.of_nat j) (fst x)).
Proof.
  unfold FabricTransport.programDevice.
  set (begin := FProgramDevicePacket (if save then 1 else 0) (len data)
                  (math_ceil_div (len data) (4096 - 32)) 0).
  unfold bind at 1.
  destruct (send_checked_recorder begin (mkRecorder t [])) as (t1 & o & Es).
  rewrite Es. cbn [exchanges app].
  destruct (exchange_outcome (begin, o)) as [[]|e].
  - unfold bind at 1.
    destruct (programDevice_loop_blocks data (S (length data)) 0 0 (4096 - 32)
                (mkRecorder t1 [(begin, o)]))
      as (r2 & out2 & new & El & Hex & _ & Hsh); [lia | lia | left; reflexivity |].
    rewrite El. cbn [exchanges] in Hex.
    assert (Hsh' : forall j x, new !! j = Some x ->
              block_at zlib_compress data ((4096 - 32) * Z.of_nat j) (Z.of_nat j) (fst x)).
    { intros j x Hj. specialize (Hsh j x Hj). rewrite !Z.add_0_l in Hsh. exact Hsh. }
    destruct out2 as [[[]|]|e].
    + unfold bind at 1.
      destruct (send_checked_recorder FProgramCompletePacket r2) as (t3 & o3 & Ec).
      rewrite Ec, Hex.
      exists o, new, [(FProgramCompletePacket, o3)].
      split; [destruct (exchange_outcome _) as [[]|e]; reflexivity|].
      split; [right; eauto | exact Hsh'].
    + exists o, new, []. unfold ret. cbn [fst]. rewrite Hex, app_nil_r.
      split; [reflexivity|]. split; [left; reflexivity | exact Hsh'].
    + exists o, new, []. cbn [fst]. rewrite Hex, app_nil_r.
      split; [reflexivity|]. split; [left; reflexivity | exact Hsh'].
  - exists o, [], []. cbn [fst exchanges app].
    split; [reflexivity|]. split; [left; reflexivity|].
    intros j x Hj. destruct j; discriminate.
Qed.
End EngineResults.

(** X16. Over any transport, [programDevice] either returns [True] or
    raises: it has no path that returns a false value, and its [while True]
    loop always reaches the [break]. *)
Theorem X16_programDevice_true_or_raises {T : Type} `{HT : Transport T}
    (zlib_compress : list Z -> list Z) (bitstreamData : list Z)
    (saveToFlash : bool) (t : T) :
  snd (FabricTransport.programDevice zlib_compress bitstreamData saveToFlash t)
  = Return (Some true)
  \/ exists e,
       snd (FabricTransport.programDevice zlib_compress bitstreamData saveToFlash t)
       = Raise e.
Proof.
  pose proof (programDevice_never_starves zlib_compress bitstreamData saveToFlash t)
    as Hnone.
  pose proof (programDevice_returns zlib_compress bitstreamData saveToFlash t) as Hret.
  destruct (snd (FabricTransport.programDevice zlib_compress bitstreamData
                   saveToFlash t)) as [r|e]; [|right; eauto].
  destruct (Hret r eq_refl) as [-> | ->]; [left; reflexivity | contradiction].
Qed.

(** X17. An empty bitstream is programmed without any block: the Begin
    command announces a total size of 0 and 0 blocks, and the only command
    that can follow it is ProgramComplete. *)
Theorem X17_programDevice_empty {T : Type} `{HT : Transport T}
    (zlib_compress : list Z -> list Z) (saveToFlash : bool) (t : T) :
  exists tail,
    map fst (exchanges (fst (FabricTransport.programDevice zlib_compress []
                               saveToFlash (mkRecorder t []))))
    = FProgramDevicePacket (if saveToFlash then 1 else 0) 0 0 0 :: tail
    /\ (tail = [] \/ tail = [FProgramCompletePacket]).
Proof.
  destruct (programDevice_trace zlib_compress [] saveToFlash t)
    as (r' & out & o & blocks & tail & Erun & Hex & _ & _ & Hle & _ & Htail & _).
  change (len (@nil Z)) with 0 in *. change (math_ceil_div 0 (4096 - 32)) with 0 in *.
  rewrite Erun. cbn [fst]. rewrite Hex.
  assert (blocks = []) as -> by (apply len_zero_nil; pose proof (len_nonneg blocks); lia).
  exists (map fst tail). cbn [app map]. split; [reflexivity|].
  destruct Htail as [-> | [_ [o' ->]]]; [left | right]; reflexivity.
Qed.

(** X18. Every ProgramBlock that [programDevice] sends is the one of its
    position: the command at position [1 + j] of a run carries blockId [j],
    the compressed form of the bytes [4064*j .. 4064*j + 4063] of the
    bitstream (fewer at the end), the lengths of the compressed and of the
    raw block, and the sum of the raw bytes modulo 256. *)
Theorem X18_programDevice_block_contents {T : Type} `{HT : Transport T}
    (zlib_compress : list Z -> list Z) (bitstreamData : list Z)
    (saveToFlash : bool) (t : T) (j : nat) (x : FCmd * res (option Response)) :
  exchanges (fst (FabricTransport.programDevice zlib_compress bitstreamData
                    saveToFlash (mkRecorder t []))) !! S j = Some x ->
  cmd_of (fst x) = FabricCommands.ProgramBlock ->
  block_at zlib_compress bitstreamData ((4096 - 32) * Z.of_nat j) (Z.of_nat j) (fst x).
Proof.
  intros Hx Hcmd.
  destruct (programDevice_blocks zlib_compress bitstreamData saveToFlash t)
    as (o & new & tail & Hex & Htail & Hsh).
  rewrite Hex in Hx. cbn in Hx.
  apply lookup_app_Some in Hx as [Hx | [Hge Hx]].
  - exact (Hsh j x Hx).
  - destruct Htail as [-> | [o' ->]].
    + destruct (j - length new)%nat; discriminate Hx.
    + destruct (j - length new)%nat as [|k]; [|destruct k; discriminate Hx].
      injection Hx as <-. discriminate Hcmd.
Qed.

Lemma X18_programDevice_block_contents_witness :
  exchanges (fst (FabricTransport.programDevice (fun l => l) [1; 2; 3] false
                    (mkRecorder (mkScripted [0; 0; 0]) []))) !! 1%nat
  = Some (FQueryProgramBlock 0 5 3 6 [0; 3; 1; 2; 3],
          Return (Some (Generic_Response 3 0 0)))
  /\ cmd_of (FQueryProgramBlock 0 5 3 6 [0; 3; 1; 2; 3]) = FabricCommands.ProgramBlock
  /\ block_at (fun l => l) [1; 2; 3] ((4096 - 32) * Z.of_nat 0) (Z.of_nat 0)
       (FQueryProgramBlock 0 5 3 6 [0; 3; 1; 2; 3]).
Proof.
  split; [reflexivity|]. split; [reflexivity|].
  apply (X18_programDevice_block_contents (fun l => l) [1; 2; 3] false
           (mkScripted [0; 0; 0]) 0
           (FQueryProgramBlock 0 5 3 6 [0; 3; 1; 2; 3],
            Return (Some (Generic_Response 3 0 0)))).
  - reflexivity.
  - reflexivity.
Defined.


(** ** Port names, patterns and uris *)


Lemma prefix_empty s : String.prefix EmptyString s = true.
Proof. destruct s; reflexivity. Qed.



Lemma append_empty_r (s : string) : (s +:+ EmptyString)%string = s.
Proof.
  induction s as [|c s IH]; [reflexivity|].
  change (String c s +:+ EmptyString)%string with (String c (s +:+ EmptyString)).
  rewrite IH. reflexivity.
Qed.

Lemma append_snoc (cur : string) (c : ascii) (s : string) :
  ((cur +:+ String c EmptyString) +:+ s)%string = (cur +:+ String c s)%string.
Proof.
  induction cur as [|d cur IH]; [reflexivity|].
  change ((String d cur +:+ String c EmptyString) +:+ s)%string
    with (String d ((cur +:+ String c EmptyString) +:+ s)).
  rewrite IH. reflexivity.
Qed.

Lemma split_aux_no_colon s : forall cur,
  no_colon s = true -> split_aux "://" s 0 cur = [(cur +:+ s)%string].
Proof.
  induction s as [|c s IH]; intros cur Hs.
  - cbn [split_aux]. rewrite append_empty_r. reflexivity.
  - cbn [no_colon] in Hs. apply andb_true_iff in Hs as [Hc Hs].
    apply negb_true_iff in Hc.
    cbn [split_aux].
    assert (Hp : String.prefix "://" (String c s) = false).
    { change (String.prefix "://" (String c s))
        with (if ascii_dec ":" c then String.prefix "//" s else false).
      destruct (ascii_dec ":" c) as [<-|Hne]; [|reflexivity].
      rewrite Ascii.eqb_refl in Hc. discriminate Hc. }
    rewrite Hp, (IH _ Hs), append_snoc. reflexivity.
Qed.

Lemma split_aux_other c s cur :
  Ascii.eqb c ":" = false ->
  split_aux "://" (String c s) 0 cur
  = split_aux "://" s 0 (cur +:+ String c EmptyString)%string.
Proof.
  intros Hc. cbn [split_aux].
  change (String.prefix "://" (String c s))
    with (if ascii_dec ":" c then String.prefix "//" s else false).
  destruct (ascii_dec ":" c) as [<-|Hne]; [|reflexivity].
  rewrite Ascii.eqb_refl in Hc. discriminate Hc.
Qed.

Lemma py_split_uri port :
  py_split (TransportTypeUSBSerial +:+ "://" +:+ port) "://"
  = TransportTypeUSBSerial :: py_split port "://".
Proof.
  unfold py_split.
  change (TransportTypeUSBSerial +:+ "://" +:+ port)%string
    with (String "u" (String "s" (String "b" (String "s" (String "e" (String "r"
           (String "i" (String "a" (String "l" (String ":" (String "/" (String "/"
           port)))))))))))).
  do 9 (rewrite split_aux_other by reflexivity).
  cbn [split_aux].
  change (String.prefix "://" (String ":" (String "/" (String "/" port))))
    with (String.prefix EmptyString port).
  rewrite prefix_empty. reflexivity.
Qed.

(** X20. The uri that discovery builds for a port parses back to the scheme
    and the port whenever the port name holds no colon:
    [createTransportForUri] then opens that very port and hands out a fresh
    session (counter 0, ten-second timeouts, empty buffers), or lets the
    exception of the serial library through when the port cannot be
    opened. *)
Theorem X20_createTransportForUri_roundtrip (w : World) (port : string) :
  no_colon port = true ->
  let uri := (TransportTypeUSBSerial +:+ "://" +:+ port)%string in
  py_split uri "://" = [TransportTypeUSBSerial; port]
  /\ (forall p, serial_open w port = Some p ->
        FabricService.createTransportForUri w uri
        = Return (Some (USBSerialTransport.mk uri (Some port) TransportTypeUSBSerial
                          0 10000 DEFAULT_BAUD 0 (mkSerial 10000 10000 [] [] p))))
  /\ (serial_open w port = None ->
        FabricService.createTransportForUri w uri = Raise SerialException).
Proof.
  intros Hport uri.
  assert (Hsplit : py_split uri "://" = [TransportTypeUSBSerial; port]).
  { unfold uri. rewrite py_split_uri. unfold py_split.
    rewrite split_aux_no_colon by exact Hport. reflexivity. }
  split; [exact Hsplit|].
  unfold FabricService.createTransportForUri. rewrite Hsplit.
  change (String.eqb TransportTypeUSBSerial TransportTypeUSBSerial) with true.
  cbv iota. split.
  - intros p ->. reflexivity.
  - intros ->. reflexivity.
Qed.

Lemma X20_createTransportForUri_roundtrip_witness :
  no_colon "/dev/ttyACM0" = true
  /\ py_split (TransportTypeUSBSerial +:+ "://" +:+ "/dev/ttyACM0") "://"
     = [TransportTypeUSBSerial; "/dev/ttyACM0"%string].
Proof.
  split; [reflexivity|].
  destruct (X20_createTransportForUri_roundtrip host_one_preferred_device "/dev/ttyACM0")
    as [H _]; [reflexivity | exact H].
Defined.


(** ** Discovery: what a query hands back *)

Lemma bind_Return {S A B} (m : M S A) (k : A -> M S B) s s' b :
  bind m k s = (s', Return b) ->
  exists a s1, m s = (s1, Return a) /\ k a s1 = (s', Return b).
Proof.
  unfold bind. destruct (m s) as [s1 [a|e]]; intros H; [eauto | discriminate H].
Qed.

Lemma keeps_uri_with_ser {A} (m : M Serial A) :
  keeps USBSerialTransport.uri (USBSerialTransport.with_ser m).
Proof.
  intros s. unfold USBSerialTransport.with_ser.
  destruct (m (USBSerialTransport.ser s)). reflexivity.
Qed.

Lemma keeps_uri_set_counter c : keeps USBSerialTransport.uri (USBSerialTransport.set_counter c).
Proof. intros s. reflexivity. Qed.

#[local] Hint Resolve keeps_uri_with_ser keeps_uri_set_counter : keeps.

Lemma keeps_uri_readCommand cls :
  keeps USBSerialTransport.uri (USBSerialTransport.readCommand cls).
Proof.
  unfold USBSerialTransport.readCommand, USBSerialTransport.readPacket.
  apply keeps_bind.
  - apply keeps_bind; [auto with keeps|].
    intros [data|]; [|auto with keeps].
    destruct (_ && _); [|auto with keeps].
    repeat (apply keeps_bind; [auto with keeps | intros ?]). auto with keeps.
  - intros [[[rcmd rcnt] rdata]|]; [|auto with keeps].
    destruct (len rdata =? 0); auto with keeps.
Qed.

Lemma keeps_uri_writeCommand cmd cls :
  keeps USBSerialTransport.uri (USBSerialTransport.writeCommand cmd cls).
Proof.
  unfold USBSerialTransport.writeCommand.
  repeat (apply keeps_bind; [auto with keeps | intros ?]).
  destruct cls; [|auto with keeps].
  apply keeps_bind; [apply keeps_uri_readCommand | intros ?]. auto with keeps.
Qed.

(** The device info of a session query carries the uri of the session. *)
Lemma queryDevice_uri s s' info :
  FabricTransport.queryDevice s = (s', Return (Some info)) ->
  uri info = Some (USBSerialTransport.uri s).
Proof.
  intros H. unfold FabricTransport.queryDevice in H.
  apply bind_Return in H as (response & s1 & Hw & Hk).
  pose proof (keeps_uri_writeCommand FQueryDevicePacket
                (Some FQueryDevicePacket_Response) s) as Huri.
  change (writeCommand FQueryDevicePacket (Some FQueryDevicePacket_Response) s)
    with (USBSerialTransport.writeCommand FQueryDevicePacket
            (Some FQueryDevicePacket_Response) s) in Hw.
  rewrite Hw in Huri. cbn [fst] in Huri.
  destruct response as [response|]; [|discriminate Hk].
  apply bind_Return in Hk as ([[deviceState fpga] prog] & s2 & Hf & Hk).
  unfold lift in Hf. injection Hf as <- _.
  apply bind_Return in Hk as (s3 & s4 & Hg & Hk).
  unfold get in Hg. injection Hg as <- <-.
  unfold ret in Hk. injection Hk as _ <-. cbn [uri].
  f_equal. exact Huri.
Qed.

(** A successful [FabricService.queryDevice]: a new object, numbered with
    the next identity, whose uri is the one queried; the cache is left
    alone. *)
Lemma service_queryDevice_some w u fast s s' d :
  FabricService.queryDevice w u fast s = (s', Return (Some d)) ->
  uri (obj_info d) = Some u
  /\ obj_id d = FabricService.next_obj_id s
  /\ s' = FabricService.mk (FabricService.deviceCache s)
                           (S (FabricService.next_obj_id s))
  /\ exists tr, FabricService.createTransportForUri w u = Return (Some tr).
Proof.
  intros H. unfold FabricService.queryDevice in H.
  apply bind_Return in H as (transport & s1 & Hc & Hk).
  unfold lift in Hc. injection Hc as <- Hc.
  destruct transport as [transport|]; [|discriminate Hk].
  assert (Htr : USBSerialTransport.uri transport = u).
  { unfold FabricService.createTransportForUri in Hc.
    destruct (py_split u "://") as [|proto [|port [|]]]; try discriminate Hc.
    destruct (String.eqb proto TransportTypeUSBSerial); [|discriminate Hc].
    destruct (serial_open w port); [|discriminate Hc].
    cbn in Hc. injection Hc as <-. reflexivity. }
  match type of Hk with
  | context [snd (?run transport)] =>
      destruct (run transport) as [tr' [[info|]|e]] eqn:Erun
  end; cbn [snd] in Hk; try discriminate Hk.
  apply bind_Return in Erun as ([] & tr1 & Hfast & Hq).
  apply queryDevice_uri in Hq.
  assert (Hu1 : USBSerialTransport.uri tr1 = USBSerialTransport.uri transport).
  { destruct fast.
    - pose proof (keeps_uri_with_ser
                    (fun ser => (mkSerial SERIAL_FAST_TIMEOUT SERIAL_FAST_TIMEOUT
                                   (in_waiting ser) (written ser) (peer ser),
                                 Return tt)) transport) as Hkeep.
      unfold USBSerialTransport.setFastTimeoutMode in Hfast.
      rewrite Hfast in Hkeep. exact Hkeep.
    - unfold ret in Hfast. injection Hfast as <-. reflexivity. }
  apply bind_Return in Hk as (s2 & s3 & Hg & Hk).
  unfold get in Hg. injection Hg as <- <-.
  apply bind_Return in Hk as ([] & s4 & Hm & Hk).
  unfold modify in Hm. injection Hm as <-.
  unfold ret in Hk. injection Hk as <- <-. cbn [obj_info obj_id].
  split; [rewrite Hq, Hu1, Htr; reflexivity|].
  split; [reflexivity|]. split; [reflexivity|]. eauto.
Qed.


(** ** Discovery: what the passes keep *)

Lemma collect_cases minCnt info devices s s' p :
  FabricService.collect minCnt info devices s = (s', Return p) ->
  match info with
  | None => p = FabricService.Done devices
  | Some d =>
      let devices' := if negb (obj_in d devices) then devices ++ [d] else devices in
      match minCnt with
      | Some n => p = (if len devices' >=? n then FabricService.Returned devices'
                       else FabricService.Done devices')
      | None => p = FabricService.Done devices'
      end
  end.
Proof.
  intros H. unfold FabricService.collect in H.
  destruct info as [d|]; [|unfold ret in H; injection H as _ <-; reflexivity].
  cbv zeta. apply bind_Return in H as ([] & s1 & _ & H).
  destruct minCnt as [n|].
  - destruct (_ >=? n); unfold ret in H; injection H as _ <-; reflexivity.
  - unfold ret in H. injection H as _ <-. reflexivity.
Qed.

Section PassInvariant.
Variable w : World.
Variable minCnt : option Z.
(** [U] holds of the uris that are queried, [R] of a device a query of a
    uri returned, [QD] of the list a pass goes on with and [QR] of the list
    it returns early. *)
Variables (U : string -> Prop) (R : string -> DeviceObj -> Prop).
Variables (QD QR : list DeviceObj -> Prop).
Hypothesis Hquery : forall u fast s s' d,
  U u -> FabricService.queryDevice w u fast s = (s', Return (Some d)) -> R u d.
Hypothesis Hcollect : forall u d devices s s' p,
  U u -> R u d -> QD devices ->
  FabricService.collect minCnt (Some d) devices s = (s', Return p) ->
  pass_ok QD QR p.

Lemma query_collect_ok u fast devices s s' p :
  U u -> QD devices ->
  bind (FabricService.queryDevice w u fast)
       (fun deviceInfo => FabricService.collect minCnt deviceInfo devices) s
  = (s', Return p) ->
  pass_ok QD QR p.
Proof.
  intros Hu Hd H. apply bind_Return in H as (info & s1 & Hq & Hc).
  destruct info as [d|].
  - exact (Hcollect u d devices s1 s' p Hu (Hquery _ _ _ _ _ Hu Hq) Hd Hc).
  - apply collect_cases in Hc. subst p. exact Hd.
Qed.

Lemma preferred_pass_ok prefList deviceUris : forall devices s s' p,
  Forall U deviceUris -> QD devices ->
  FabricService.preferred_pass w minCnt prefList deviceUris devices s = (s', Return p) ->
  pass_ok QD QR p.
Proof.
  induction deviceUris as [|u rest IH]; intros devices s s' p HU Hd H;
    cbn [FabricService.preferred_pass] in H.
  - unfold ret in H. injection H as _ <-. exact Hd.
  - inversion HU as [|? ? Hu Hrest]; subst.
    apply bind_Return in H as (r & s1 & Hr & Hk).
    assert (Hok : pass_ok QD QR r).
    { destruct (existsb _ prefList).
      - exact (query_collect_ok _ _ _ _ _ _ Hu Hd Hr).
      - unfold ret in Hr. injection Hr as _ <-. exact Hd. }
    destruct r as [devices'|devices'].
    + exact (IH _ _ _ _ Hrest Hok Hk).
    + unfold ret in Hk. injection Hk as _ <-. exact Hok.
Qed.

Lemma query_all_pass_ok fastMode deviceUris : forall devices s s' p,
  Forall U deviceUris -> QD devices ->
  FabricService.query_all_pass w minCnt fastMode deviceUris devices s = (s', Return p) ->
  pass_ok QD QR p.
Proof.
  induction deviceUris as [|u rest IH]; intros devices s s' p HU Hd H;
    cbn [FabricService.query_all_pass] in H.
  - unfold ret in H. injection H as _ <-. exact Hd.
  - inversion HU as [|? ? Hu Hrest]; subst.
    apply bind_Return in H as (r & s1 & Hr & Hk).
    assert (Hok : pass_ok QD QR r).
    { unfold try_except in Hr.
      match type of Hr with
      | context [bind ?m ?k s] => destruct (bind m k s) as [s2 [r'|e]] eqn:Eb
      end.
      - injection Hr as _ <-. exact (query_collect_ok _ _ _ _ _ _ Hu Hd Eb).
      - unfold ret in Hr. injection Hr as _ <-. exact Hd. }
    destruct r as [devices'|devices'].
    + exact (IH _ _ _ _ Hrest Hok Hk).
    + unfold ret in Hk. injection Hk as _ <-. exact Hok.
Qed.

Lemma query_all_ok modes deviceUris : forall devices s s' p,
  Forall U deviceUris -> QD devices ->
  FabricService.query_all w minCnt modes deviceUris devices s = (s', Return p) ->
  pass_ok QD QR p.
Proof.
  induction modes as [|fastMode modes IH]; intros devices s s' p HU Hd H;
    cbn [FabricService.query_all] in H.
  - unfold ret in H. injection H as _ <-. exact Hd.
  - apply bind_Return in H as (r & s1 & Hr & Hk).
    pose proof (query_all_pass_ok _ _ _ _ _ _ HU Hd Hr) as Hok.
    destruct r as [devices'|devices'].
    + exact (IH _ _ _ _ HU Hok Hk).
    + unfold ret in Hk. injection Hk as _ <-. exact Hok.
Qed.
End PassInvariant.

Lemma listDevices_uris w transportTypes :
  Forall (port_uri w)
    (if existsb (String.eqb TransportTypeUSBSerial) transportTypes then
       flat_map (fun '(port, desc, hwid) =>
                   if existsb (String.eqb port) IGNORE_PORTS then []
                   else [(TransportTypeUSBSerial +:+ "://" +:+ port)%string])
                (comports w)
     else []).
Proof.
  destruct (existsb _ transportTypes); [|constructor].
  apply List.Forall_forall. intros u Hu. apply in_flat_map in Hu as ([[port desc] hwid] & Hin & Hu).
  destruct (existsb (String.eqb port) IGNORE_PORTS) eqn:Eig; [destruct Hu|].
  destruct Hu as [<-|[]]. exists port, desc, hwid.
  split; [exact Hin|]. split; [|reflexivity].
  intros Hign. assert (existsb (String.eqb port) IGNORE_PORTS = true) as E.
  { apply existsb_exists. exists port. split; [exact Hign | apply String.eqb_refl]. }
  congruence.
Qed.

(** The result of [listDevices] under an invariant of its passes. *)
Lemma listDevices_ok w minCnt transportTypes
    (R : string -> DeviceObj -> Prop) (QD QR : list DeviceObj -> Prop) s s' devices :
  (forall u fast s s' d,
     port_uri w u -> FabricService.queryDevice w u fast s = (s', Return (Some d)) -> R u d) ->
  (forall u d devices s s' p,
     port_uri w u -> R u d -> QD devices ->
     FabricService.collect minCnt (Some d) devices s = (s', Return p) ->
     pass_ok QD QR p) ->
  QD [] ->
  FabricService.listDevices w minCnt transportTypes s = (s', Return devices) ->
  QD devices \/ QR devices.
Proof.
  intros Hq Hc H0 H. unfold FabricService.listDevices in H.
  pose proof (listDevices_uris w transportTypes) as HU.
  apply bind_Return in H as (r & s1 & Hr & Hk).
  assert (Hok : pass_ok QD QR r).
  { destruct (PREFERRED_PROBE_PORTS !! platform_system w) as [prefList|].
    - exact (preferred_pass_ok w minCnt (port_uri w) R QD QR Hq Hc _ _ _ _ _ _ HU H0 Hr).
    - unfold ret in Hr. injection Hr as _ <-. exact H0. }
  destruct r as [devices'|devices'].
  - apply bind_Return in Hk as (r2 & s2 & Hr2 & Hk).
    pose proof (query_all_ok w minCnt (port_uri w) R QD QR Hq Hc _ _ _ _ _ _ HU Hok Hr2)
      as Hok2.
    destruct r2; unfold ret in Hk; injection Hk as _ <-; [left | right]; exact Hok2.
  - unfold ret in Hk. injection Hk as _ <-. right. exact Hok.
Qed.

(** X21. With a minimum count [n], [listDevices] returns as soon as it
    holds [n] devices: the list it returns never has more than [n] entries
    (one entry when [n] is below 1). *)
Theorem X21_listDevices_min_count (w : World) (n : Z) (transportTypes : list string)
    (s s' : FabricService.t) (devices : list DeviceObj) :
  FabricService.listDevices w (Some n) transportTypes s = (s', Return devices) ->
  len devices <= Z.max n 1.
Proof.
  intros H.
  destruct (listDevices_ok w (Some n) transportTypes (fun _ _ => True)
              (fun l => len l < Z.max n 1) (fun l => len l <= Z.max n 1)
              s s' devices) as [Hd|Hr]; auto; try lia.
  - intros u d l s0 s1 p _ _ Hl Hc. apply collect_cases in Hc. cbv zeta in Hc.
    assert (Hl' : len (if negb (obj_in d l) then l ++ [d] else l) <= len l + 1).
    { destruct (negb (obj_in d l)); [rewrite len_app; change (len [d]) with 1|]; lia. }
    destruct (Z.geb_spec (len (if negb (obj_in d l) then l ++ [d] else l)) n);
      subst p; cbn [pass_ok]; lia.
  - change (len (@nil DeviceObj)) with 0. lia.
Qed.

Lemma X21_listDevices_min_count_witness :
  FabricService.listDevices host_one_preferred_device (Some 1)
    FabricService.default_transportTypes FabricService.new
  = (fst (FabricService.listDevices host_one_preferred_device (Some 1)
            FabricService.default_transportTypes FabricService.new),
     Return [mkDeviceObj 0 (mkFabricDeviceInfo StatusExistsAndValid (Some 1091637315)
               (Some "usbserial:///dev/ttyACM0"%string) (Some "12345678"%string))])
  /\ len [mkDeviceObj 0 (mkFabricDeviceInfo StatusExistsAndValid (Some 1091637315)
               (Some "usbserial:///dev/ttyACM0"%string) (Some "12345678"%string))]
     <= Z.max 1 1.
Proof.
  assert (H : FabricService.listDevices host_one_preferred_device (Some 1)
                FabricService.default_transportTypes FabricService.new
              = (fst (FabricService.listDevices host_one_preferred_device (Some 1)
                        FabricService.default_transportTypes FabricService.new),
                 Return [mkDeviceObj 0 (mkFabricDeviceInfo StatusExistsAndValid
                           (Some 1091637315) (Some "usbserial:///dev/ttyACM0"%string)
                           (Some "12345678"%string))])).
  { apply injective_projections; [reflexivity | vm_compute; reflexivity]. }
  split; [exact H|].
  exact (X21_listDevices_min_count _ _ _ _ _ _ H).
Defined.

Lemma bind_returns {S A B} (m : M S A) (k : A -> M S B) s :
  (exists a, snd (m s) = Return a) ->
  (forall a s1, exists b, snd (k a s1) = Return b) ->
  exists b, snd (bind m k s) = Return b.
Proof.
  intros [a Ha] Hk. unfold bind. destruct (m s) as [s1 r].
  cbn [snd] in Ha. subst r. apply Hk.
Qed.

Lemma query_all_returns w minCnt modes deviceUris : forall devices s,
  exists p, snd (FabricService.query_all w minCnt modes deviceUris devices s) = Return p.
Proof.
  induction modes as [|fastMode modes IH]; intros devices s;
    cbn [FabricService.query_all].
  - eexists. reflexivity.
  - apply bind_returns; [apply query_all_pass_returns|].
    intros [devices'|devices'] s1; [apply IH | eexists; reflexivity].
Qed.

(** X22. On a platform without preferred patterns (anything but Linux and
    Darwin) [listDevices] never raises: whatever the ports do, unopenable or
    silent or answering garbage, it returns a list. *)
Theorem X22_listDevices_never_raises (w : World) (returnOnMinCnt : option Z)
    (transportTypes : list string) (s : FabricService.t) :
  PREFERRED_PROBE_PORTS !! platform_system w = None ->
  exists devices,
    snd (FabricService.listDevices w returnOnMinCnt transportTypes s) = Return devices.
Proof.
  intros Hplat. unfold FabricService.listDevices. rewrite Hplat.
  apply bind_returns; [eexists; reflexivity|].
  intros [devices'|devices'] s1; [|eexists; reflexivity].
  apply bind_returns; [apply query_all_returns|].
  intros [devices2|devices2] s2; eexists; reflexivity.
Qed.

Lemma X22_listDevices_never_raises_witness :
  PREFERRED_PROBE_PORTS !! platform_system host_silent_then_device_windows = None
  /\ exists devices,
       snd (FabricService.listDevices host_silent_then_device_windows None
              FabricService.default_transportTypes FabricService.new)
       = Return devices.
Proof.
  split; [reflexivity|].
  apply (X22_listDevices_never_raises host_silent_then_device_windows None
           FabricService.default_transportTypes FabricService.new).
  reflexivity.
Defined.

(** X23. Every device that [listDevices] returns carries the uri of a port
    that the enumerator listed and that is not on the ignore list: nothing
    is ever reported for COM1, and no uri is made up. *)
Theorem X23_listDevices_uris_from_ports (w : World) (returnOnMinCnt : option Z)
    (transportTypes : list string) (s s' : FabricService.t)
    (devices : list DeviceObj) (d : DeviceObj) :
  FabricService.listDevices w returnOnMinCnt transportTypes s = (s', Return devices) ->
  In d devices ->
  exists u, uri (obj_info d) = Some u /\ port_uri w u.
Proof.
  intros H Hin.
  set (Q := fun l : list DeviceObj =>
              forall d, In d l -> exists u, uri (obj_info d) = Some u /\ port_uri w u).
  destruct (listDevices_ok w returnOnMinCnt transportTypes
              (fun u d => uri (obj_info d) = Some u) Q Q s s' devices) as [Hd|Hd];
    auto.
  - intros u fast s0 s1 d0 _ Hq. apply service_queryDevice_some in Hq. tauto.
  - intros u d0 l s0 s1 p Hu Hr Hl Hc. apply collect_cases in Hc. cbv zeta in Hc.
    assert (Hq : Q (if negb (obj_in d0 l) then l ++ [d0] else l)).
    { destruct (negb (obj_in d0 l)); [|exact Hl].
      intros d1 Hd1. apply in_app_or in Hd1 as [Hd1|[<-|[]]]; [apply Hl; exact Hd1|].
      eauto. }
    destruct returnOnMinCnt as [n|]; [destruct (_ >=? n)|]; subst p; exact Hq.
  - intros d0 [].
Qed.

Lemma X23_listDevices_uris_from_ports_witness :
  In (mkDeviceObj 0 (mkFabricDeviceInfo StatusExistsAndValid (Some 1091637315)
        (Some "usbserial:///dev/ttyACM0"%string) (Some "12345678"%string)))
     [mkDeviceObj 0 (mkFabricDeviceInfo StatusExistsAndValid (Some 1091637315)
        (Some "usbserial:///dev/ttyACM0"%string) (Some "12345678"%string))]
  /\ exists u,
       uri (obj_info (mkDeviceObj 0 (mkFabricDeviceInfo StatusExistsAndValid
                        (Some 1091637315) (Some "usbserial:///dev/ttyACM0"%string)
                        (Some "12345678"%string)))) = Some u
       /\ port_uri host_one_preferred_device u.
Proof.
  split; [left; reflexivity|].
  apply (X23_listDevices_uris_from_ports host_one_preferred_device (Some 1)
           FabricService.default_transportTypes FabricService.new
           (fst (FabricService.listDevices host_one_preferred_device (Some 1)
                   FabricService.default_transportTypes FabricService.new))
           [mkDeviceObj 0 (mkFabricDeviceInfo StatusExistsAndValid (Some 1091637315)
              (Some "usbserial:///dev/ttyACM0"%string) (Some "12345678"%string))]).
  - apply injective_projections; [reflexivity | vm_compute; reflexivity].
  - left; reflexivity.
Defined.


(** ** The device cache *)

Lemma createTransportForUri_nonempty w u tr :
  FabricService.createTransportForUri w u = Return (Some tr) -> u <> EmptyString.
Proof. intros H ->. discriminate H. Qed.

(** X24. Once [queryDeviceOrGetCached] has handed out a device for a uri,
    the device is in the cache under that uri, and every later call for the
    uri returns that same object without touching the service or any port,
    whatever has become of the device. *)
Theorem X24_queryDeviceOrGetCached_idempotent (w : World) (uri : string)
    (fastMode : bool) (s s1 : FabricService.t) (d : DeviceObj) :
  FabricService.queryDeviceOrGetCached w uri fastMode s = (s1, Return (FabricService.Found d)) ->
  FabricService.deviceCache s1 !! uri = Some d
  /\ forall w' fastMode',
       FabricService.queryDeviceOrGetCached w' uri fastMode' s1
       = (s1, Return (FabricService.Found d)).
Proof.
  intros H.
  assert (Hcache : FabricService.deviceCache s1 !! uri = Some d).
  { unfold FabricService.queryDeviceOrGetCached in H.
    apply bind_Return in H as (s0 & s0' & Hg & H).
    unfold get in Hg. injection Hg as <- <-.
    destruct (FabricService.deviceCache s !! uri) as [d0|] eqn:Elook.
    - unfold ret in H. injection H as <- <-. exact Elook.
    - apply bind_Return in H as (transport & s2 & Hc & H).
      unfold lift in Hc. injection Hc as <- Hc.
      destruct transport as [tr|]; [|discriminate H].
      pose proof (createTransportForUri_nonempty _ _ _ Hc) as Hne.
      apply bind_Return in H as (info & s3 & Hq & H).
      destruct info as [d'|]; [|discriminate H].
      apply service_queryDevice_some in Hq as (Huri & _ & -> & _).
      apply bind_Return in H as ([] & s4 & Ha & H).
      unfold ret in H. injection H as <- <-.
      unfold FabricService.addDeviceCache in Ha. rewrite Huri in Ha.
      destruct uri as [|c u]; [contradiction Hne; reflexivity|].
      unfold modify in Ha. injection Ha as <-.
      cbn [FabricService.deviceCache]. apply lookup_insert_eq. }
  split; [exact Hcache|].
  intros w' fastMode'. unfold FabricService.queryDeviceOrGetCached.
  unfold bind at 1, get. rewrite Hcache. reflexivity.
Qed.

Lemma X24_queryDeviceOrGetCached_idempotent_witness :
  FabricService.queryDeviceOrGetCached host_one_preferred_device
    "usbserial:///dev/ttyACM0" false FabricService.new
  = (fst (FabricService.queryDeviceOrGetCached host_one_preferred_device
            "usbserial:///dev/ttyACM0" false FabricService.new),
     Return (FabricService.Found
               (mkDeviceObj 0 (mkFabricDeviceInfo StatusExistsAndValid (Some 1091637315)
                  (Some "usbserial:///dev/ttyACM0"%string) (Some "12345678"%string)))))
  /\ FabricService.queryDeviceOrGetCached host_silent_then_device
       "usbserial:///dev/ttyACM0" true
       (fst (FabricService.queryDeviceOrGetCached host_one_preferred_device
               "usbserial:///dev/ttyACM0" false FabricService.new))
     = (fst (FabricService.queryDeviceOrGetCached host_one_preferred_device
               "usbserial:///dev/ttyACM0" false FabricService.new),
        Return (FabricService.Found
                  (mkDeviceObj 0 (mkFabricDeviceInfo StatusExistsAndValid (Some 1091637315)
                     (Some "usbserial:///dev/ttyACM0"%string) (Some "12345678"%string))))).
Proof.
  assert (H : FabricService.queryDeviceOrGetCached host_one_preferred_device
                "usbserial:///dev/ttyACM0" false FabricService.new
              = (fst (FabricService.queryDeviceOrGetCached host_one_preferred_device
                        "usbserial:///dev/ttyACM0" false FabricService.new),
                 Return (FabricService.Found
                           (mkDeviceObj 0 (mkFabricDeviceInfo StatusExistsAndValid
                              (Some 1091637315) (Some "usbserial:///dev/ttyACM0"%string)
                              (Some "12345678"%string)))))).
  { apply injective_projections; [reflexivity | vm_compute; reflexivity]. }
  split; [exact H|].
  apply (proj2 (X24_queryDeviceOrGetCached_idempotent _ _ _ _ _ _ H)).
Defined.


(** ** The uid string *)

Lemma string_length_append (a b : string) :
  String.length (a +:+ b) = (String.length a + String.length b)%nat.
Proof.
  induction a as [|c a IH]; [reflexivity|].
  change (String c a +:+ b)%string with (String c (a +:+ b)).
  cbn [String.length]. rewrite IH. reflexivity.
Qed.

Lemma hex_tail_byte (b : Z) :
  0 <= b < 256 ->
  hex_value (hex_tail b) 0 = b
  /\ String.length (hex_tail b) = (if (16 <=? b)%Z then 2%nat else 1%nat).
Proof.
  intros Hb.
  pose (P := fun b => (hex_value (hex_tail b) 0 =? b)
                      && Nat.eqb (String.length (hex_tail b))
                                 (if (16 <=? b)%Z then 2%nat else 1%nat)).
  assert (HP : P b = true).
  { apply (range_check P 256); [vm_compute; reflexivity | lia]. }
  unfold P in HP. apply andb_true_iff in HP as [H1 H2].
  apply Z.eqb_eq in H1. apply Nat.eqb_eq in H2. split; assumption.
Qed.

Lemma uid_fold_length (ids : list Z) (acc : string) :
  Forall (fun b => 0 <= b < 256) ids ->
  String.length (fold_left (fun uid i => (uid +:+ hex_tail i)%string) ids acc)
  = (String.length acc + length ids
     + length (List.filter (fun b => (16 <=? b)%Z) ids))%nat.
Proof.
  intros H. revert acc. induction H as [|b ids Hb _ IH]; intros acc.
  - cbn. lia.
  - cbn [fold_left]. rewrite IH, string_length_append.
    destruct (hex_tail_byte b Hb) as [_ ->].
    cbn [List.filter length].
    destruct (16 <=? b) eqn:E.
    + cbn [length]. lia.
    + lia.
Qed.

(** X25. The uid that [queryDevice] builds holds, for each id byte, its
    lowercase hexadecimal digits without padding: one digit below 16 and two
    from 16 on, each group reading back to its byte.  An eight-byte id
    therefore gives 8 to 16 characters, and different ids can give the same
    uid. *)
Theorem X25_uid_digits (progDeviceId : list Z) :
  Forall (fun b => 0 <= b < 256) progDeviceId ->
  String.length (uid_of progDeviceId)
  = (length progDeviceId + length (List.filter (fun b => (16 <=? b)%Z) progDeviceId))%nat
  /\ Forall (fun b => hex_value (hex_tail b) 0 = b) progDeviceId
  /\ (length progDeviceId <= String.length (uid_of progDeviceId)
      <= 2 * length progDeviceId)%nat
  /\ uid_of [1; 35; 0; 0; 0; 0; 0; 0] = uid_of [18; 3; 0; 0; 0; 0; 0; 0].
Proof.
  intros H.
  assert (Hlen : String.length (uid_of progDeviceId)
                 = (length progDeviceId
                    + length (List.filter (fun b => (16 <=? b)%Z) progDeviceId))%nat).
  { unfold uid_of. rewrite uid_fold_length by exact H. reflexivity. }
  split; [exact Hlen|]. split.
  - eapply List.Forall_impl; [|exact H].
    intros b Hb. apply (hex_tail_byte b Hb).
  - split; [|reflexivity].
    rewrite Hlen.
    pose proof (List.filter_length_le (fun b => (16 <=? b)%Z) progDeviceId). lia.
Qed.

Lemma X25_uid_digits_witness :
  Forall (fun b => 0 <= b < 256) [18; 52; 86; 120; 0; 0; 0; 10]
  /\ String.length (uid_of [18; 52; 86; 120; 0; 0; 0; 10]) = 12%nat.
Proof.
  assert (H : Forall (fun b => 0 <= b < 256) [18; 52; 86; 120; 0; 0; 0; 10]).
  { repeat constructor; lia. }
  split; [exact H|].
  exact (proj1 (X25_uid_digits _ H)).
Defined.
